(** * calamari-ctl: a shallow embedding of [cthulhu/cthulhu/calamari_ctl.py]

    The tool is a sequence of side effects on a host: files, two
    databases, external processes and a log.  The embedding threads an
    explicit [world] through a small state-and-exception monad, keeps the
    side effects that already happened when an exception is raised (Python
    rolls nothing back), and records every externally visible action in a
    [trace], in the order in which the interpreter performs it. *)

From Stdlib Require Import Ascii String.
From stdpp Require Import base strings gmap list sorting pretty.

Open Scope string_scope.
Open Scope Z_scope.

(** ** Python values used by the tool *)

(** The exceptions that can travel through the tool.  [SystemExit] and
    [KeyboardInterrupt] derive from [BaseException] alone; every other one
    is a subclass of [Exception].  [DoesNotExist m] is the class
    [m.DoesNotExist] of a Django model, a subclass of
    [ObjectDoesNotExist]; [CommandError] is the one of Django's management
    commands; [LibraryError cls msg] stands for an exception of any other
    class [cls] of a library, a subclass of [Exception]. *)
Inductive model := UserModel | GroupModel.

Inductive exn :=
| CalamariUserError (msg : string)
| DoesNotExist (m : model) (msg : string)
| MultipleObjectsReturned (m : model) (msg : string)
| IntegrityError (msg : string)
| RuntimeError (msg : string)
| OSError (msg : string)
| KeyError (key : string)
| ValueError (msg : string)
| CommandError (msg : string)
| LibraryError (cls msg : string)
| SystemExit (code : Z)
| KeyboardInterrupt.

(** [repr(s)] of a byte string: single quotes, unless the string holds a
    single quote and no double quote; the quote and the backslash are
    escaped, tab, newline and carriage return are written with their
    letters, every other byte outside the printable ASCII range as
    [\xNN]. *)
Definition backslash : ascii := Ascii.ascii_of_nat 92.
Definition single_quote : ascii := Ascii.ascii_of_nat 39.
Definition double_quote : ascii := Ascii.ascii_of_nat 34.

Definition hex_digit (n : nat) : ascii :=
  nth n (list_ascii_of_string "0123456789abcdef") "0"%char.

Definition repr_char (quote c : ascii) : list ascii :=
  let n := Ascii.nat_of_ascii c in
  if bool_decide (c = quote ∨ c = backslash) then [backslash; c]
  else if bool_decide (n = 9%nat) then [backslash; "t"%char]
  else if bool_decide (n = 10%nat) then [backslash; "n"%char]
  else if bool_decide (n = 13%nat) then [backslash; "r"%char]
  else if bool_decide (n < 32 ∨ 127 ≤ n)%nat
       then [backslash; "x"%char; hex_digit (n / 16); hex_digit (n mod 16)]
  else [c].

Definition repr (s : string) : string :=
  let cs := list_ascii_of_string s in
  let quote :=
    if bool_decide (single_quote ∈ cs ∧ double_quote ∉ cs) then double_quote
    else single_quote in
  string_of_list_ascii
    (quote :: concat (map (repr_char quote) cs) ++ [quote]).

(** [str(e)]: the message, but for a [KeyError], which prints the [repr]
    of its key. *)
Definition str (e : exn) : string :=
  match e with
  | CalamariUserError s | DoesNotExist _ s | MultipleObjectsReturned _ s
  | IntegrityError s | RuntimeError s | OSError s | ValueError s
  | CommandError s | LibraryError _ s => s
  | KeyError k => repr k
  | SystemExit c => pretty c
  | KeyboardInterrupt => EmptyString
  end.

Definition class_name (e : exn) : string :=
  match e with
  | CalamariUserError _ => "CalamariUserError"
  | DoesNotExist _ _ => "DoesNotExist"
  | MultipleObjectsReturned _ _ => "MultipleObjectsReturned"
  | IntegrityError _ => "IntegrityError"
  | RuntimeError _ => "RuntimeError"
  | OSError _ => "OSError"
  | KeyError _ => "KeyError"
  | ValueError _ => "ValueError"
  | CommandError _ => "CommandError"
  | LibraryError cls _ => cls
  | SystemExit _ => "SystemExit"
  | KeyboardInterrupt => "KeyboardInterrupt"
  end.

(** [except Exception] *)
Definition is_Exception (e : exn) : bool :=
  match e with SystemExit _ | KeyboardInterrupt => false | _ => true end.

(** [isinstance(e, CommandError)] *)
Definition is_CommandError (e : exn) : bool :=
  match e with CommandError _ => true | _ => false end.

(** The status of a process that an exception ends: the low eight bits of
    the code of a [SystemExit], 1 for a traceback. *)
Definition exit_status (e : exn) : Z :=
  match e with SystemExit c => Z.land c 255 | _ => 1 end.

(** [isinstance(e, CalamariUserError)] *)
Definition is_CalamariUserError (e : exn) : bool :=
  match e with CalamariUserError _ => true | _ => false end.

(** [except RuntimeError] *)
Definition is_RuntimeError (e : exn) : bool :=
  match e with RuntimeError _ => true | _ => false end.

(** [except user_model.DoesNotExist] *)
Definition is_User_DoesNotExist (e : exn) : bool :=
  match e with DoesNotExist UserModel _ => true | _ => false end.

(** [except ObjectDoesNotExist] *)
Definition is_ObjectDoesNotExist (e : exn) : bool :=
  match e with DoesNotExist _ _ => true | _ => false end.

(** [except IntegrityError] *)
Definition is_IntegrityError (e : exn) : bool :=
  match e with IntegrityError _ => true | _ => false end.

(** Logging levels, with the numbers of the [logging] module. *)
Inductive level := DEBUG | INFO | WARNING | ERROR.

Definition levelno (l : level) : Z :=
  match l with DEBUG => 10 | INFO => 20 | WARNING => 30 | ERROR => 40 end.

(** A JSON document, as handed to [json.dumps]. *)
Inductive jvalue :=
| JString (s : string)
| JArray (items : list string).

Definition json := list (string * jvalue).

(** What a file holds: text, or a serialised JSON document. *)
Inductive data :=
| Text (s : string)
| Json (j : json).

Record file := File {
  content : data;
  mode : Z;
  uid : Z;
  gid : Z
}.

(** A row of Django's user table (the primary key is the key of the map
    that holds the row). *)
Inductive credential := Unusable | Hashed (raw : string).

Record user := User {
  username : string;
  email : string;
  password : credential;
  is_active : bool;
  is_staff : bool;
  is_superuser : bool
}.

(** Calls into libraries whose effect the tool only sees as success or
    failure. *)
Inductive ext_op :=
| OpReflect
| OpUpgrade (rev : string)
| OpCreateAll
| OpStamp (rev : string)
| OpDropAll
| OpDropTable (name : string)
| OpManage (argv : list string).

#[global] Instance ext_op_eq_dec : EqDecision ext_op.
Proof. solve_decision. Defined.

(** Every externally visible action, recorded when it is attempted. *)
Inductive event :=
| EvWrite (path : string)
| EvExt (op : ext_op)
| EvGetOrCreateGroup (name : string)
| EvCreateUser (name : string) (super : bool)
| EvSaveUser (pk : nat)
| EvSetGroups (pk : nat) (names : list string)
| EvAddGroup (pk : nat) (name : string)
| EvChown (path : string) (u g : Z)
| EvChmod (path : string) (m : Z)
| EvRunCmd (cmd : list string).

(** [time.gmtime()], the fields [strftime] reads. *)
Record tm := Tm {
  tm_year : nat; tm_mon : nat; tm_mday : nat; tm_hour : nat; tm_min : nat
}.

(** [CalamariConfig]: the class lives in [calamari_common], outside this
    file; the tool only reads these six settings from it. *)
Record config := Config {
  secret_key_path : string;
  db_path : string;
  web_username : string;
  log_path : string;
  ssl_key : string;
  ssl_cert : string
}.

(** What the host and the libraries decide: outcomes of processes and
    library calls, the password database, the clock, the random source,
    [sys.argv]. *)
Record env := Env {
  cfg : config;
  (** [subprocess.Popen(cmd).communicate()]: [None] when the program cannot
      be started, otherwise return code, stdout and stderr *)
  popen : list string -> option (Z * string * string);
  (** the exception the library call raises, when it fails *)
  ext_error : ext_op -> option exn;
  (** what the call prints on stdout and stderr *)
  ext_output : ext_op -> string * string;
  (** tables declared by the imported SQLAlchemy models *)
  model_tables : gset string;
  passwd : gmap string (Z * Z);
  euid : Z;
  egid : Z;
  umask : Z;
  gmtime : tm;
  random_index : nat -> nat;
  argv : list string;
  (** whether a failing [openssl req] had written its private key already *)
  leaves_key : list string -> bool;
  (** the database's message for a second row with this username *)
  integrity_message : string -> string;
  (** [UserManager.normalize_email], of [email or ''] *)
  normalize_email : string -> string;
  (** the frame lines of the traceback of an exception *)
  traceback_frames : exn -> string
}.

Record world := World {
  files : gmap string file;
  (** Cthulhu's database: its tables, and the revision alembic recorded *)
  db_tables : gset string;
  db_revision : option string;
  (** Django's database *)
  auth_user : gmap nat user;
  auth_group : gset string;
  auth_user_groups : gmap nat (gset string);
  (** the file behind [log_tmp], one record per entry *)
  log_tmp : list (level * string);
  (** what [sys.stdout] and [sys.stderr] hold while they are redirected *)
  captured : string * string;
  trace : list event;
  rng_pos : nat
}.

Definition set_files f (w : world) : world :=
  World f (db_tables w) (db_revision w) (auth_user w) (auth_group w)
        (auth_user_groups w) (log_tmp w) (captured w) (trace w) (rng_pos w).
Definition set_db t r (w : world) : world :=
  World (files w) t r (auth_user w) (auth_group w)
        (auth_user_groups w) (log_tmp w) (captured w) (trace w) (rng_pos w).
Definition set_auth_user u (w : world) : world :=
  World (files w) (db_tables w) (db_revision w) u (auth_group w)
        (auth_user_groups w) (log_tmp w) (captured w) (trace w) (rng_pos w).
Definition set_auth_group g (w : world) : world :=
  World (files w) (db_tables w) (db_revision w) (auth_user w) g
        (auth_user_groups w) (log_tmp w) (captured w) (trace w) (rng_pos w).
Definition set_auth_user_groups g (w : world) : world :=
  World (files w) (db_tables w) (db_revision w) (auth_user w) (auth_group w)
        g (log_tmp w) (captured w) (trace w) (rng_pos w).
Definition set_log_tmp l (w : world) : world :=
  World (files w) (db_tables w) (db_revision w) (auth_user w) (auth_group w)
        (auth_user_groups w) l (captured w) (trace w) (rng_pos w).
Definition set_captured c (w : world) : world :=
  World (files w) (db_tables w) (db_revision w) (auth_user w) (auth_group w)
        (auth_user_groups w) (log_tmp w) c (trace w) (rng_pos w).
Definition set_trace t (w : world) : world :=
  World (files w) (db_tables w) (db_revision w) (auth_user w) (auth_group w)
        (auth_user_groups w) (log_tmp w) (captured w) t (rng_pos w).
Definition set_rng_pos n (w : world) : world :=
  World (files w) (db_tables w) (db_revision w) (auth_user w) (auth_group w)
        (auth_user_groups w) (log_tmp w) (captured w) (trace w) n.

(** ** The monad: state, environment and exceptions *)

Inductive result (A : Type) :=
| Ok (a : A)
| Raise (e : exn).
Arguments Ok {A} a.
Arguments Raise {A} e.

Definition M (A : Type) : Type := env -> world -> result A * world.

#[global] Instance M_ret : MRet M := fun A a _ w => (Ok a, w).

#[global] Instance M_bind : MBind M := fun A B f m E w =>
  match m E w with
  | (Ok a, w1) => f a E w1
  | (Raise e, w1) => (Raise e, w1)
  end.

Definition raise {A} (e : exn) : M A := fun _ w => (Raise e, w).
Definition ask : M env := fun E w => (Ok E, w).
Definition get : M world := fun _ w => (Ok w, w).
Definition modify (f : world -> world) : M unit := fun _ w => (Ok tt, f w).

(** [try: body  except <class matching handles>, e: handler e] *)
Definition try_except {A} (body : M A) (handles : exn -> bool)
    (handler : exn -> M A) : M A := fun E w =>
  match body E w with
  | (Raise e, w1) => if handles e then handler e E w1 else (Raise e, w1)
  | r => r
  end.

Definition emit (ev : event) : M unit :=
  modify (fun w => set_trace (trace w ++ [ev]) w).

(** ** Logging

    The root logger is configured at level INFO and [log] inherits it, so a
    DEBUG record is dropped by the logger before any handler sees it.  The
    file handler (threshold DEBUG, default format: the message alone)
    appends every record that passes to [log_tmp]. *)
Definition logger_level : level := INFO.
Definition file_handler_level : level := DEBUG.

Definition log_record (l : level) (msg : string) : M unit :=
  if decide (levelno logger_level <= levelno l /\
             levelno file_handler_level <= levelno l)
  then modify (fun w => set_log_tmp (log_tmp w ++ [(l, msg)]) w)
  else mret tt.

Definition log_debug := log_record DEBUG.
Definition log_info := log_record INFO.
Definition log_warn := log_record WARNING.
Definition log_error := log_record ERROR.

(** [open(log_tmp.name, 'r').read()] *)
Definition nl : string := String (Ascii.ascii_of_nat 10) EmptyString.

Definition read_log (l : list (level * string)) : string :=
  String.concat EmptyString (map (fun r => snd r ++ nl) l).

(** ** The file system *)

(** [os.path.exists] *)
Definition path_exists (p : string) : M bool :=
  w ← get; mret (bool_decide (is_Some (files w !! p))).

(** The mode of a file that a process creates: [0666 & ~umask]. *)
Definition creation_mode (E : env) : Z := Z.land 438 (Z.lnot (umask E)).

Definition store (E : env) (p : string) (d : data) (fs : gmap string file)
    : gmap string file :=
  match fs !! p with
  | Some f => <[p := File d (mode f) (uid f) (gid f)]> fs
  | None => <[p := File d (creation_mode E) (euid E) (egid E)]> fs
  end.

(** [open(p, 'w').write(d)] *)
Definition write_file (p : string) (d : data) : M unit :=
  E ← ask;
  emit (EvWrite p);;
  modify (fun w => set_files (store E p d (files w)) w).

(** [os.chown] *)
Definition chown (p : string) (u g : Z) : M unit :=
  emit (EvChown p u g);;
  w ← get;
  match files w !! p with
  | Some f =>
      modify (set_files (<[p := File (content f) (mode f) u g]> (files w)))
  | None => raise (OSError ("[Errno 2] No such file or directory: " ++ repr p))
  end.

(** [os.chmod] *)
Definition chmod (p : string) (m : Z) : M unit :=
  emit (EvChmod p m);;
  w ← get;
  match files w !! p with
  | Some f =>
      modify (set_files (<[p := File (content f) m (uid f) (gid f)]> (files w)))
  | None => raise (OSError ("[Errno 2] No such file or directory: " ++ repr p))
  end.

(** [pwd.getpwnam(name)], reduced to [(pw_uid, pw_gid)] *)
Definition getpwnam (name : string) : M (Z * Z) :=
  E ← ask;
  match passwd E !! name with
  | Some ids => mret ids
  | None => raise (KeyError ("getpwnam(): name not found: " ++ name))
  end.

(** ** External processes *)

(** What a finished process leaves on disk.  Of the programs the tool
    starts only [openssl req] writes files the tool looks at: it writes the
    private key to the [-keyout] path, readable by its owner alone, and
    then the certificate to the [-out] path.  When it fails the certificate
    is not written; the private key is there if the failure came after it
    was written. *)
Definition takes_value (flag : string) : bool :=
  existsb (String.eqb flag) ["-subj"; "-days"; "-keyout"; "-out"; "-extensions"].

(** The [-keyout] and [-out] values among the options of [openssl req];
    [pending] is the flag whose value comes next. *)
Fixpoint req_outputs (opts : list string) (pending : option string)
    (key cert : option string) : option string * option string :=
  match opts with
  | [] => (key, cert)
  | x :: rest =>
      match pending with
      | Some flag =>
          if String.eqb flag "-keyout" then req_outputs rest None (Some x) cert
          else if String.eqb flag "-out" then req_outputs rest None key (Some x)
          else req_outputs rest None key cert
      | None =>
          if takes_value x then req_outputs rest (Some x) key cert
          else req_outputs rest None key cert
      end
  end.

Definition openssl_outputs (cmd : list string) : option (string * string) :=
  match cmd with
  | prog :: sub :: opts =>
      if String.eqb prog "openssl" && String.eqb sub "req" then
        match req_outputs opts None None None with
        | (Some k, Some c) => Some (k, c)
        | _ => None
        end
      else None
  | _ => None
  end.

Definition pem (kind : string) : data :=
  Text ("-----BEGIN " ++ kind ++ "-----").

Definition process_effect (E : env) (cmd : list string) (rc : Z)
    (fs : gmap string file) : gmap string file :=
  match openssl_outputs cmd with
  | Some (k, c) =>
      if decide (rc = 0) then
        store E c (pem "CERTIFICATE")
          (<[k := File (pem "PRIVATE KEY") 384 (euid E) (egid E)]> fs)
      else if leaves_key E cmd then
        <[k := File (pem "PRIVATE KEY") 384 (euid E) (egid E)]> fs
      else fs
  | None => fs
  end.

(** [str(x)] for an optional message: Python prints [None]. *)
Definition fmt_opt (m : option string) : string :=
  match m with Some s => s | None => "None" end.

Definition run_cmd (cmd : list string) (message : option string) : M unit :=
  E ← ask;
  emit (EvRunCmd cmd);;
  match popen E cmd with
  | None => raise (OSError "[Errno 2] No such file or directory")
  | Some (rc, out, err) =>
      modify (fun w => set_files (process_effect E cmd rc (files w)) w);;
      match message with
      | Some m => log_info m
      | None => mret tt
      end;;
      log_debug (fmt_opt message ++ " stdout: " ++ out);;
      log_debug (fmt_opt message ++ " stderr: " ++ err);;
      if decide (rc ≠ 0)
      then raise (RuntimeError (default EmptyString (head cmd) ++ " for " ++
                     fmt_opt message ++ " failed with rc=" ++ pretty rc))
      else mret tt
  end.

(** ** setup_supervisor

    The four legacy commands sit in one [try] block: the first
    [RuntimeError] leaves the block and the handler does nothing. *)
Definition service : string := "calamari.service".

Definition setup_supervisor : M unit :=
  try_except
    (run_cmd ["systemctl"; "stop"; "supervisord"] None;;
     run_cmd ["systemctl"; "disable"; "supervisord"] None;;
     run_cmd ["systemctl"; "stop"; "supervisor"] None;;
     run_cmd ["systemctl"; "disable"; "supervisor"] None)
    is_RuntimeError
    (fun _ => mret tt);;
  run_cmd ["systemctl"; "enable"; service] None;;
  run_cmd ["systemctl"; "restart"; service] None;;
  run_cmd ["systemctl"; "set-property"; service; "MemoryLimit=300M"] None.

(** ** Library calls: SQLAlchemy, alembic, Django management commands *)

Definition ALEMBIC_TABLE : string := "alembic_version".

(** A call that either fails with the library's exception or goes on. *)
Definition ext_call (op : ext_op) : M unit :=
  E ← ask;
  emit (EvExt op);;
  match ext_error E op with
  | Some e => raise e
  | None => mret tt
  end.

(** [Base.metadata.reflect(engine)]; the result is [Base.metadata.tables]
    afterwards: the declared models and every table of the database. *)
Definition metadata_reflect : M (gset string) :=
  E ← ask;
  ext_call OpReflect;;
  w ← get;
  mret (model_tables E ∪ db_tables w).

(** [command.upgrade(alembic_config, rev)] *)
Definition command_upgrade (rev : string) : M unit :=
  ext_call (OpUpgrade rev);;
  modify (fun w => set_db (db_tables w) (Some rev) w).

(** [Base.metadata.create_all(engine)] for the given [Base.metadata.tables] *)
Definition metadata_create_all (tables : gset string) : M unit :=
  ext_call OpCreateAll;;
  modify (fun w => set_db (db_tables w ∪ tables) (db_revision w) w).

(** [command.stamp(alembic_config, rev)] *)
Definition command_stamp (rev : string) : M unit :=
  ext_call (OpStamp rev);;
  modify (fun w => set_db (db_tables w ∪ {[ALEMBIC_TABLE]}) (Some rev) w).

(** [Base.metadata.drop_all(engine)] *)
Definition metadata_drop_all (tables : gset string) : M unit :=
  ext_call OpDropAll;;
  modify (fun w => set_db (db_tables w ∖ tables) (db_revision w) w).

(** [Base.metadata.tables[name].drop(engine)] *)
Definition table_drop (name : string) : M unit :=
  ext_call (OpDropTable name);;
  modify (fun w => set_db (db_tables w ∖ {[name]})
                     (if decide (name = ALEMBIC_TABLE) then None
                      else db_revision w) w).

(** [execute_from_command_line(argv)]: what the command prints goes to
    [sys.stdout] and [sys.stderr], the line Django writes for a
    [CommandError] included.  Django answers a [CommandError] of the
    command with [sys.exit(1)]; any other exception of the command comes
    through. *)
Definition execute_from_command_line (args : list string) : M unit :=
  E ← ask;
  modify (fun w => set_captured
            ((captured w).1 ++ (ext_output E (OpManage args)).1,
             (captured w).2 ++ (ext_output E (OpManage args)).2) w);;
  try_except (ext_call (OpManage args))
    is_CommandError
    (fun _ => raise (SystemExit 1)).

(** [with quiet(): body]: both streams are replaced by fresh buffers; the
    bare [except] logs what they hold and raises again; [finally] puts the
    real streams back. *)
Definition fresh_buffers : world -> world :=
  set_captured (EmptyString, EmptyString).

Definition quiet {A} (body : M A) : M A :=
  modify fresh_buffers;;
  r ← try_except body (fun _ => true)
        (fun e =>
           w ← get;
           log_error (captured w).1;;
           log_error (captured w).2;;
           modify fresh_buffers;;
           raise e);
  modify fresh_buffers;;
  mret r.

(** ** Django's ORM, as far as the tool uses it

    A model instance in memory is a primary key and a copy of the row;
    only [save] writes the copy back.  The many-to-many manager
    [user.groups] has no in-memory copy: assigning to it and calling [add]
    change the join table at once, without any [save]. *)

Definition rows_named (name : string) (m : gmap nat user) : list (nat * user) :=
  filter (fun kv => username kv.2 = name) (map_to_list m).

(** [user_model.objects.get(username=name)] *)
Definition user_get (name : string) : M (nat * user) :=
  w ← get;
  match rows_named name (auth_user w) with
  | [] => raise (DoesNotExist UserModel "User matching query does not exist.")
  | [kv] => mret kv
  | _ => raise (MultipleObjectsReturned UserModel
                  "get() returned more than one User")
  end.

(** [Group.objects.get(name=name)] *)
Definition group_get (name : string) : M string :=
  w ← get;
  if decide (name ∈ auth_group w) then mret name
  else raise (DoesNotExist GroupModel "Group matching query does not exist.").

(** [Group.objects.get_or_create(name=name)] *)
Definition group_get_or_create (name : string) : M unit :=
  emit (EvGetOrCreateGroup name);;
  modify (fun w => set_auth_group (auth_group w ∪ {[name]}) w).

(** [user.save()]: the username column is unique. *)
Definition user_save (pk : nat) (u : user) : M unit :=
  E ← ask;
  emit (EvSaveUser pk);;
  w ← get;
  if decide (Forall (fun kv => kv.1 = pk) (rows_named (username u) (auth_user w)))
  then modify (set_auth_user (<[pk := u]> (auth_user w)))
  else raise (IntegrityError (integrity_message E (username u))).

(** [user.groups = names] *)
Definition user_set_groups (pk : nat) (names : list string) : M unit :=
  emit (EvSetGroups pk names);;
  modify (fun w => set_auth_user_groups
                     (<[pk := list_to_set names]> (auth_user_groups w)) w).

(** [user.groups.add(name)] *)
Definition user_groups_add (pk : nat) (name : string) : M unit :=
  emit (EvAddGroup pk name);;
  modify (fun w => set_auth_user_groups
            (<[pk := default ∅ (auth_user_groups w !! pk) ∪ {[name]}]>
               (auth_user_groups w)) w).

(** The groups of a user, as the join table has them. *)
Definition groups_of (pk : nat) (w : world) : gset string :=
  default ∅ (auth_user_groups w !! pk).

Definition make_credential (p : option string) : credential :=
  match p with Some raw => Hashed raw | None => Unusable end.

(** [objects.create_user] and [objects.create_superuser] share
    [_create_user(username, email, password, is_staff, is_superuser)]; the
    e-mail address is stored as [normalize_email(email)] gives it. *)
Definition _create_user (name : string) (mail : option string)
    (pw : option string) (staff super : bool) : M unit :=
  E ← ask;
  emit (EvCreateUser name super);;
  if decide (name = EmptyString)
  then raise (ValueError "The given username must be set")
  else
    w ← get;
    match rows_named name (auth_user w) with
    | [] =>
        modify (set_auth_user
                  (<[fresh (dom (auth_user w)) :=
                       User name (normalize_email E (default EmptyString mail))
                            (make_credential pw) true staff super]>
                     (auth_user w)))
    | _ => raise (IntegrityError (integrity_message E name))
    end.

Definition create_user (name : string) (mail pw : option string) : M unit :=
  _create_user name mail pw false false.

Definition create_superuser (name : string) (mail pw : option string) : M unit :=
  _create_user name mail pw true true.

(** [objects.filter(username=name).exists()] *)
Definition user_exists (name : string) : M bool :=
  w ← get; mret (bool_decide (rows_named name (auth_user w) ≠ [])).

(** [objects.filter(is_superuser=True)], as the list of matching rows *)
Definition superusers : M (list (nat * user)) :=
  w ← get;
  mret (filter (fun kv => is_superuser kv.2 = true) (map_to_list (auth_user w))).

(** ** The parsed command line *)

Inductive command :=
| cmd_initialize | cmd_add_user | cmd_assign_role | cmd_change_password
| cmd_disable_user | cmd_enable_user | cmd_rename_user | cmd_clear.

#[global] Instance command_eq_dec : EqDecision command.
Proof. solve_decision. Defined.

Module args.
Record t := mk {
  func : command;
  devmode : bool;
  username : string;
  new_username : string;
  email : option string;
  password : option string;
  role_name : string;
  admin_username : option string;
  admin_password : option string;
  admin_email : option string;
  yes_i_am_sure : bool
}.

Definition set_role_name (r : string) (a : t) : t :=
  mk (func a) (devmode a) (username a) (new_username a) (email a)
     (password a) r (admin_username a) (admin_password a) (admin_email a)
     (yes_i_am_sure a).
End args.

(** Python's truth value of an optional string: [None] and the empty
    string are false. *)
Definition truthy (o : option string) : bool :=
  match o with
  | Some s => bool_decide (s ≠ EmptyString)
  | None => false
  end.

(** ** Account management *)

Definition create_default_roles : M unit :=
  group_get_or_create "readonly";;
  group_get_or_create "read/write".

Definition assign_role (a : args.t) : M unit :=
  '(pk, user) ← try_except (user_get (args.username a))
      is_User_DoesNotExist
      (fun e =>
         log_error ("User " ++ args.username a ++ " does not exist");;
         raise (CalamariUserError (str e)));
  user_set_groups pk [];;
  let user := User (username user) (email user) (password user)
                   (is_active user) (is_staff user) false in
  (if decide (args.role_name a = "superuser") then
     mret (User (username user) (email user) (password user)
                (is_active user) (is_staff user) true)
   else
     role ← try_except (group_get (args.role_name a))
       is_ObjectDoesNotExist
       (fun e =>
          log_error ("Role " ++ args.role_name a ++ " does not exist");;
          raise (CalamariUserError (str e)));
     user_groups_add pk role;;
     mret user) ≫= fun user =>
  user_save pk user.

Definition add_user (a : args.t) : M unit :=
  try_except
    (create_user (args.username a) (args.email a) (args.password a))
    is_IntegrityError
    (fun e =>
       log_error ("User with username " ++ args.username a ++ " already exists");;
       raise (CalamariUserError (str e)));;
  let a := args.set_role_name "read/write" a in
  assign_role a.

Definition change_user_active_status (name : string) (active : bool) : M unit :=
  try_except
    ('(pk, user) ← user_get name;
     let user := User (username user) (email user) (password user)
                      active (is_staff user) (is_superuser user) in
     user_save pk user)
    is_IntegrityError
    (fun e =>
       log_error ("User with username " ++ name ++ " cannot be deleted");;
       raise (CalamariUserError (str e))).

Definition disable_user (a : args.t) : M unit :=
  change_user_active_status (args.username a) false.

Definition enable_user (a : args.t) : M unit :=
  change_user_active_status (args.username a) true.

Definition admin_guidance : string :=
  "You have not created an admin account for calamari." ++ nl ++
  "This can be done later by running:" ++ nl ++
  "sudo calamari-ctl add_user <username> --password <password> --email <email>"
  ++ nl ++
  "sudo calamari-ctl assign_role <username> --role superuser".

Definition create_admin_users (a : args.t) : M unit :=
  if truthy (args.admin_username a) && truthy (args.admin_password a)
     && truthy (args.admin_email a)
  then
    let name := default EmptyString (args.admin_username a) in
    present ← user_exists name;
    if negb present then
      log_info ("Creating user '" ++ name ++ "'");;
      create_superuser name (args.admin_email a) (args.admin_password a)
    else mret tt
  else
    supers ← superusers;
    if bool_decide (supers = []) then log_info admin_guidance
    else mret tt.

(** ** Random strings *)

(** [random.choice(chars)] *)
Definition random_choice (chars : list ascii) : M ascii :=
  E ← ask;
  w ← get;
  modify (set_rng_pos (S (rng_pos w)));;
  mret (nth (random_index E (rng_pos w) mod length chars)%nat chars
            (Ascii.ascii_of_nat 0)).

(** [get_random_string(length, allowed_chars)]:
    [''.join(random.choice(allowed_chars) for i in range(length))] *)
Fixpoint get_random_string (length : nat) (allowed_chars : string) : M string :=
  match length with
  | O => mret EmptyString
  | S n =>
      c ← random_choice (list_ascii_of_string allowed_chars);
      s ← get_random_string n allowed_chars;
      mret (String c s)
  end.

Definition chars : string :=
  "abcdefghijklmnopqrstuvwxyz0123456789!@#$%^&*(-_=+)".

(** ** initialize *)

Definition openssl_req (key cert : string) : list string :=
  ["openssl"; "req"; "-new"; "-nodes"; "-x509"; "-subj";
   "/C=US/ST=Oregon/L=Portland/O=IT/CN=calamari-lite"; "-days"; "3650";
   "-keyout"; key; "-out"; cert; "-extensions"; "v3_ca"].

Definition syncdb : list string := [EmptyString; "syncdb"; "--noinput"].
Definition collectstatic : list string :=
  [EmptyString; "collectstatic"; "--noinput"].

Definition initialize (a : args.t) : M unit :=
  log_info "Loading configuration..";;
  E ← ask;
  let config := cfg E in
  (* Django's SECRET_KEY *)
  present ← path_exists (secret_key_path config);
  (if negb present then
     key ← get_random_string 50 chars;
     write_file (secret_key_path config) (Text key)
   else mret tt);;
  (* Cthulhu's database *)
  tables ← metadata_reflect;
  (if decide (ALEMBIC_TABLE ∈ tables) then
     log_info "Updating database...";;
     command_upgrade "head"
   else
     log_info "Initializing database...";;
     metadata_create_all tables;;
     command_stamp "head");;
  (* Django's database *)
  quiet (execute_from_command_line syncdb);;
  create_default_roles;;
  create_admin_users a;;
  log_info "Initializing web interface...";;
  (* Django's static files *)
  quiet (execute_from_command_line collectstatic);;
  (* the log file was written as this user: hand it to the web server *)
  apache_user ← getpwnam (web_username config);
  chown (log_path config) apache_user.1 apache_user.2;;
  (* self-signed SSL certificate, only if the key does not exist *)
  present ← path_exists (ssl_key config);
  (if negb present then
     run_cmd (openssl_req (ssl_key config) (ssl_cert config))
             (Some "Generating self-signed SSL certificate...");;
     chmod (ssl_cert config) 420
   else mret tt);;
  log_info "Restarting services...";;
  setup_supervisor;;
  log_info "Complete.".

(** ** change_password, rename_user, clear *)

Definition change_password (a : args.t) : M unit :=
  if truthy (args.password a) then
    try_except
      ('(pk, user) ← user_get (args.username a);
       let user := User (username user) (email user)
                        (make_credential (args.password a))
                        (is_active user) (is_staff user) (is_superuser user) in
       user_save pk user)
      is_User_DoesNotExist
      (fun _ => log_error ("User '" ++ args.username a ++ "' does not exist."))
  else
    execute_from_command_line [EmptyString; "changepassword"; args.username a].

Definition rename_user (a : args.t) : M unit :=
  try_except
    (user_get (args.new_username a);;
     log_error ("New username '" ++ args.new_username a ++ "' is already in use."))
    is_User_DoesNotExist
    (fun _ =>
       try_except
         ('(pk, user) ← user_get (args.username a);
          let user := User (args.new_username a) (email user) (password user)
                           (is_active user) (is_staff user) (is_superuser user) in
          user_save pk user)
         is_User_DoesNotExist
         (fun _ => log_error ("User '" ++ args.username a ++ "' does not exist."))).

(** [os.path.basename(sys.argv[0])] *)
Fixpoint basename_aux (s acc : string) : string :=
  match s with
  | EmptyString => acc
  | String c rest =>
      if decide (c = "/"%char) then basename_aux rest EmptyString
      else basename_aux rest (acc ++ String c EmptyString)
  end.

Definition basename (s : string) : string := basename_aux s EmptyString.

Definition clear (a : args.t) : M unit :=
  if negb (args.yes_i_am_sure a) then
    log_warn ("This will remove all stored Calamari monitoring status and history.  Use '--yes-i-am-sure' to proceed")
  else
    log_info "Loading configuration..";;
    E ← ask;
    log_info "Dropping tables";;
    metadata_drop_all (model_tables E);;
    tables ← metadata_reflect;
    (if decide (ALEMBIC_TABLE ∈ tables) then table_drop ALEMBIC_TABLE
     else mret tt);;
    log_info ("Complete.  Now run `" ++
              basename (default EmptyString (head (argv E))) ++ " initialize`").

(** ** main *)

(** [args.func(args)] *)
Definition call (f : command) : args.t -> M unit :=
  match f with
  | cmd_initialize => initialize
  | cmd_add_user => add_user
  | cmd_assign_role => assign_role
  | cmd_change_password => change_password
  | cmd_disable_user => disable_user
  | cmd_enable_user => enable_user
  | cmd_rename_user => rename_user
  | cmd_clear => clear
  end.

(** [time.strftime("%Y-%m-%d_%H%M", t)] *)
Definition pad2 (n : nat) : string :=
  if decide (n < 10)%nat then "0" ++ pretty n else pretty n.

Definition strftime (t : tm) : string :=
  pretty (tm_year t) ++ "-" ++ pad2 (tm_mon t) ++ "-" ++ pad2 (tm_mday t)
  ++ "_" ++ pad2 (tm_hour t) ++ pad2 (tm_min t).

Definition debug_filename (E : env) : string :=
  "/tmp/" ++ strftime (gmtime E) ++ ".txt".

(** The last line of a traceback: the class alone when the exception
    prints as the empty string. *)
Definition final_line (e : exn) : string :=
  if bool_decide (str e = EmptyString) then class_name e ++ nl
  else class_name e ++ ": " ++ str e ++ nl.

(** [traceback.format_exc()]: the header, the frames, the last line. *)
Definition format_exc (E : env) (e : exn) : string :=
  "Traceback (most recent call last):" ++ nl ++
  traceback_frames E e ++ final_line e.

Definition crash_report (E : env) (w : world) (e : exn) : json :=
  [("argv", JArray (argv E));
   ("log", JString (read_log (log_tmp w)));
   ("backtrace", JString (format_exc E e))].

Definition sorry_message (name : string) : string :=
  "We are sorry, an unexpected error occurred.  Debugging information has" ++ nl
  ++ "been written to a file at '" ++ name ++
  "', please include this when seeking technical" ++ nl ++ "support.".

(** The body of the [try] block of [main]. *)
Definition main_body (a : args.t) : M unit :=
  E ← ask;
  if args.devmode a || bool_decide (euid E = 0) then call (args.func a) a
  else log_error "Need root privileges to run".

(** The body of [except Exception, e], after the [sys.exit(1)] test. *)
Definition main_report (e : exn) : M unit :=
  E ← ask;
  log_error (str e);;
  w ← get;
  write_file (debug_filename E) (Json (crash_report E w e));;
  log_error (sorry_message (debug_filename E)).

(** [main], after [parser.parse_args()]: the exit status of the process and
    the world it leaves.  Falling off the end of [main] exits with status
    0, [sys.exit(1)] with status 1; an exception that [except Exception]
    does not catch, or that the handler itself raises, ends the process
    with its [exit_status]. *)
Definition main (a : args.t) (E : env) (w : world) : Z * world :=
  match main_body a E w with
  | (Ok _, w1) => (0, w1)
  | (Raise e, w1) =>
      if is_Exception e then
        if bool_decide (args.func a ∈ [cmd_assign_role; cmd_add_user])
           && is_CalamariUserError e
        then (1, w1)
        else
          match main_report e E w1 with
          | (Ok _, w2) => (0, w2)
          | (Raise e2, w2) => (exit_status e2, w2)
          end
      else (exit_status e, w1)
  end.

(** ** The consecutive blocks of [initialize]

    [initialize] is one straight line of code; for the proofs it is cut
    into the blocks its comments mark ([initialize_blocks] shows that running
    the blocks one after the other is running [initialize]). *)

Definition init_secret : M unit :=
  log_info "Loading configuration..";;
  E ← ask;
  present ← path_exists (secret_key_path (cfg E));
  if negb present then
    key ← get_random_string 50 chars;
    write_file (secret_key_path (cfg E)) (Text key)
  else mret tt.

Definition init_schema : M unit :=
  tables ← metadata_reflect;
  if decide (ALEMBIC_TABLE ∈ tables) then
    log_info "Updating database...";;
    command_upgrade "head"
  else
    log_info "Initializing database...";;
    metadata_create_all tables;;
    command_stamp "head".

Definition init_syncdb : M unit := quiet (execute_from_command_line syncdb).

Definition init_admin (a : args.t) : M unit :=
  create_admin_users a;;
  log_info "Initializing web interface...".

Definition init_static : M unit :=
  quiet (execute_from_command_line collectstatic).

Definition init_ownership : M unit :=
  E ← ask;
  apache_user ← getpwnam (web_username (cfg E));
  chown (log_path (cfg E)) apache_user.1 apache_user.2.

Definition init_tls : M unit :=
  E ← ask;
  present ← path_exists (ssl_key (cfg E));
  if negb present then
    run_cmd (openssl_req (ssl_key (cfg E)) (ssl_cert (cfg E)))
            (Some "Generating self-signed SSL certificate...");;
    chmod (ssl_cert (cfg E)) 420
  else mret tt.

Definition init_restart : M unit :=
  log_info "Restarting services...";;
  setup_supervisor;;
  log_info "Complete.".

(** ** Steps of the initialization sequence *)

Inductive step :=
| SecretKey | Schema | SecondarySync | Roles | Admin | StaticFiles
| Ownership | Credentials | Restart.

(** The step an event belongs to. *)
Definition step_of (ev : event) : step :=
  match ev with
  | EvWrite _ => SecretKey
  | EvExt (OpManage (_ :: sub :: _)) =>
      if String.eqb sub "syncdb" then SecondarySync
      else if String.eqb sub "collectstatic" then StaticFiles
      else Admin
  | EvExt (OpManage _) => Admin
  | EvExt _ => Schema
  | EvGetOrCreateGroup _ => Roles
  | EvCreateUser _ _ | EvSaveUser _ | EvSetGroups _ _ | EvAddGroup _ _ => Admin
  | EvChown _ _ _ => Ownership
  | EvChmod _ _ => Credentials
  | EvRunCmd (prog :: _) =>
      if String.eqb prog "openssl" then Credentials else Restart
  | EvRunCmd [] => Restart
  end.

(** The position of a step in the text of [initialize]. *)
Definition code_order (s : step) : nat :=
  match s with
  | SecretKey => 0 | Schema => 1 | SecondarySync => 2 | Roles => 3
  | Admin => 4 | StaticFiles => 5 | Ownership => 6 | Credentials => 7
  | Restart => 8
  end%nat.

(** The position of a step in the sequence the specification lists: secret
    key, schema, secondary sync, roles, admin account, credentials,
    ownership, restart.  Collecting the static files is not in that list. *)
Definition stated_order (s : step) : option nat :=
  match s with
  | SecretKey => Some 0 | Schema => Some 1 | SecondarySync => Some 2
  | Roles => Some 3 | Admin => Some 4 | StaticFiles => None
  | Credentials => Some 5 | Ownership => Some 6 | Restart => Some 7
  end%nat.

Definition follows_code_order (t : list event) : Prop :=
  StronglySorted le (map (fun ev => code_order (step_of ev)) t).

Definition follows_stated_order (t : list event) : Prop :=
  StronglySorted le (omap (fun ev => stated_order (step_of ev)) t).

(** The events of the schema reconciliation proper. *)
Definition is_reconcile (ev : event) : bool :=
  match ev with
  | EvExt (OpUpgrade _) | EvExt OpCreateAll | EvExt (OpStamp _) => true
  | _ => false
  end.

(** ** Properties of runs *)

(** No two rows of the user table share a username (the column is
    declared unique). *)
Definition unique_usernames (m : gmap nat user) : Prop :=
  ∀ k1 k2 u1 u2, m !! k1 = Some u1 → m !! k2 = Some u2 →
    username u1 = username u2 → k1 = k2.

(** Whoever runs the tool passes the privilege gate of [main]. *)
Definition privileged (a : args.t) (E : env) : Prop :=
  args.devmode a = true ∨ euid E = 0.

(** The error is one [main] answers with [sys.exit(1)]. *)
Definition recognized (a : args.t) (e : exn) : Prop :=
  args.func a ∈ [cmd_assign_role; cmd_add_user] ∧ is_CalamariUserError e = true.

(** What is on disk for a path: content and permission bits. *)
Definition file_data (f : file) : data * Z := (content f, mode f).

(** The events a run added to the trace. *)
Definition new_events (w w' : world) : list event :=
  drop (length (trace w)) (trace w').

(** The run from [w] to [w'] only added events, all of them in [P]. *)
Definition trace_ext (P : event → Prop) : relation world := fun w w' =>
  ∃ t, trace w' = (trace w ++ t)%list ∧ Forall P t.

(** The run left content and permission bits of every file alone. *)
Definition same_data : relation world := fun w w' =>
  ∀ q, file_data <$> files w' !! q = file_data <$> files w !! q.

(** The run left the files alone altogether. *)
Definition same_files : relation world := fun w w' => files w' = files w.

(** The run left Cthulhu's database alone. *)
Definition same_db : relation world := fun w w' =>
  db_tables w' = db_tables w ∧ db_revision w' = db_revision w.

(** The run left Django's tables alone. *)
Definition same_accounts : relation world := fun w w' =>
  auth_user w' = auth_user w ∧ auth_group w' = auth_group w ∧
  auth_user_groups w' = auth_user_groups w.

(** [m], started in [w], ends in a world related to [w] by [R], whether it
    returns or raises. *)
Definition pres {A} (R : relation world) (m : M A) (E : env) (w : world) : Prop :=
  ∀ r w', m E w = (r, w') → R w w'.

(** *** The ordering the specification states for [initialize] *)
Definition stated_order_holds : Prop :=
  ∀ a E w w', initialize a E w = (Ok tt, w') →
    follows_stated_order (new_events w w').

(** *** A missing user on [enable_user] / [disable_user] as an expected
    user error: exit status 1 and nothing written to disk *)
Definition toggle_missing_user_is_expected : Prop :=
  ∀ a E w,
    args.func a ∈ [cmd_enable_user; cmd_disable_user] →
    privileged a E →
    rows_named (args.username a) (auth_user w) = [] →
    (main a E w).1 = 1 ∧ files (main a E w).2 = files w.

(** *** A crash report for every failure of a command that is no
    recognized user error *)
Definition every_other_failure_is_reported : Prop :=
  ∀ a E w e w1,
    privileged a E →
    main_body a E w = (Raise e, w1) →
    ¬ recognized a e →
    is_Some (files (main a E w).2 !! debug_filename E).

(** *** [rename_user] raising when the old user is missing *)
Definition rename_missing_old_raises : Prop :=
  ∀ a E w,
    rows_named (args.new_username a) (auth_user w) = [] →
    rows_named (args.username a) (auth_user w) = [] →
    ∃ msg w', rename_user a E w = (Raise (DoesNotExist UserModel msg), w').

(** ** Vocabulary of the statements *)

(** Groupings of the blocks of [initialize]. *)
Definition init_mid (a : args.t) : M unit :=
  init_syncdb;; create_default_roles;; init_admin a;; init_static;;
  init_ownership.

Definition init_rest (a : args.t) : M unit :=
  init_syncdb;; create_default_roles;; init_admin a;; init_static;;
  init_ownership;; init_tls;; init_restart.

Definition init_pre (a : args.t) : M unit :=
  init_secret;; init_schema;; init_mid a.

(** The events schema reconciliation adds after probing the store;
    [marker] says whether the version marker is there. *)
Definition reconcile_events (E : env) (marker : Prop) `{!Decision marker}
    : list event :=
  match ext_error E OpReflect with
  | Some _ => []
  | None =>
      if decide marker then [EvExt (OpUpgrade "head")]
      else (EvExt OpCreateAll ::
            match ext_error E OpCreateAll with
            | Some _ => []
            | None => [EvExt (OpStamp "head")]
            end)
  end.

(** The secret-key file as [initialize] creates it. *)
Definition fresh_key (E : env) (s : string) : file :=
  File (Text s) (creation_mode E) (euid E) (egid E).

(** The run kept content and permission bits of the files [ps], provided
    they all existed when it started. *)
Definition keeps (ps : list string) : relation world := fun w w' =>
  (∀ p, p ∈ ps → is_Some (files w !! p)) →
  ∀ p, p ∈ ps → file_data <$> files w' !! p = file_data <$> files w !! p.

(** The paths [ps] are safe from the certificate generator: it is skipped
    whenever they all exist, or it writes none of them. *)
Definition tls_safe (ps : list string) (E : env) : Prop :=
  ssl_key (cfg E) ∈ ps ∨ ¬ (ssl_key (cfg E) ∈ ps ∨ ssl_cert (cfg E) ∈ ps).

Definition not_step (s : step) (ev : event) : Prop := step_of ev ≠ s.

Definition in_step (s : step) (t : list event) : Prop :=
  Forall (fun ev => step_of ev = s) t.

(** The run added at least one event, all of them in [P]. *)
Definition strictly (P : event → Prop) : relation world := fun w w' =>
  ∃ t, trace w' = (trace w ++ t)%list ∧ Forall P t ∧ t ≠ [].

(** [t] is in the order of the code and starts at position [k] or later. *)
Definition ordered_from (k : nat) (t : list event) : Prop :=
  follows_code_order t ∧ Forall (fun ev => (k ≤ code_order (step_of ev))%nat) t.

(** The permission bits let everybody read the file (bit [0004]). *)
Definition world_readable (m : Z) : bool := Z.testbit m 2.

(** No account has the superuser flag. *)
Definition no_superuser (w : world) : Prop :=
  ∀ k u, auth_user w !! k = Some u → is_superuser u = false.

(** All three of [--admin-username], [--admin-password] and
    [--admin-email] were given. *)
Definition all_supplied (a : args.t) : Prop :=
  is_Some (args.admin_username a) ∧ is_Some (args.admin_password a) ∧
  is_Some (args.admin_email a).

(** The two messages of [rename_user]. *)
Definition in_use_message (a : args.t) : string :=
  "New username '" ++ args.new_username a ++ "' is already in use.".

Definition missing_message (a : args.t) : string :=
  "User '" ++ args.username a ++ "' does not exist.".

(** The crash report [main] writes for [e], raised in world [w]: the log it
    holds already has the line [main] logs for [e]. *)
Definition report_content (E : env) (w : world) (e : exn) : data :=
  Json [("argv", JArray (argv E));
        ("log", JString (read_log (log_tmp w ++ [(ERROR, str e)])));
        ("backtrace", JString (format_exc E e))].

(** ** Example hosts *)

Definition example_config : config :=
  Config "/etc/calamari/secret.key" "sqlite:////var/lib/calamari/cthulhu.db"
         "apache" "/var/log/calamari/calamari.log"
         "/etc/calamari/ssl/private/calamari-lite.key"
         "/etc/calamari/ssl/certs/calamari-lite-bundled.crt".

Definition no_output : string * string := (EmptyString, EmptyString).

(** [str.strip()]: without the whitespace at both ends. *)
Definition is_space (c : ascii) : bool :=
  bool_decide (Ascii.nat_of_ascii c ∈ [32; 9; 10; 13; 11; 12]%nat).

Fixpoint lstrip (cs : list ascii) : list ascii :=
  match cs with
  | c :: rest => if is_space c then lstrip rest else cs
  | [] => []
  end.

Definition strip (cs : list ascii) : list ascii :=
  reverse (lstrip (reverse (lstrip cs))).

(** [str.lower()]: the letters [A] to [Z] become [a] to [z]. *)
Definition lower (c : ascii) : ascii :=
  let n := Ascii.nat_of_ascii c in
  if bool_decide (65 ≤ n ∧ n ≤ 90)%nat then Ascii.ascii_of_nat (n + 32) else c.

(** [s.rsplit('@', 1)], for the characters of [s] in reverse order: what
    stands after the last [@], in reverse, and what stands before it, in
    reverse; [None] when there is no [@]. *)
Fixpoint rsplit_at (rev_cs : list ascii) (rev_tail : list ascii)
    : option (list ascii * list ascii) :=
  match rev_cs with
  | [] => None
  | c :: rest =>
      if bool_decide (c = "@"%char) then Some (rev_tail, rest)
      else rsplit_at rest (rev_tail ++ [c])
  end.

(** A [UserManager.normalize_email]: the part after the last [@] in lower
    case; an address without [@] is left as it is. *)
Definition lower_domain (email : string) : string :=
  match rsplit_at (reverse (strip (list_ascii_of_string email))) [] with
  | Some (rev_domain, rev_name) =>
      string_of_list_ascii
        (reverse rev_name ++ "@"%char :: map lower (reverse rev_domain))
  | None => email
  end.

(** The database's wording for a second row with the same username. *)
Definition sqlite_message (name : string) : string :=
  "UNIQUE constraint failed: auth_user.username".

(** The frame of the call in [main]. *)
Definition main_frame (e : exn) : string :=
  "  File " ++ String double_quote "/usr/bin/calamari-ctl"
  ++ String double_quote ", line 392, in main" ++ nl
  ++ "    args.func(args)" ++ nl.

(** A host on which every command and library call succeeds; files are
    created readable by their owner alone (umask 077). *)
Definition rhel_host : env :=
  Env example_config
      (fun _ => Some (0, EmptyString, EmptyString))
      (fun _ => None) (fun _ => no_output)
      {["cthulhu_server"]} {["apache" := (48, 48)]}
      0 0 63 (Tm 2014 7 1 9 5) (fun n => (7 * n + 3)%nat)
      ["/usr/bin/calamari-ctl"; "initialize"]
      (fun _ => false) sqlite_message lower_domain main_frame.

(** A host without a [supervisord] unit: stopping it fails. *)
Definition ubuntu_popen (cmd : list string) : option (Z * string * string) :=
  if decide (cmd = ["systemctl"; "stop"; "supervisord"])
  then Some (5, EmptyString,
             "Failed to stop supervisord.service: Unit supervisord.service not loaded.")
  else Some (0, EmptyString, EmptyString).

Definition ubuntu_host : env :=
  Env example_config ubuntu_popen
      (fun _ => None) (fun _ => no_output)
      {["cthulhu_server"]} {["www-data" := (33, 33)]}
      0 0 18 (Tm 2014 7 1 9 5) (fun n => n)
      ["/usr/bin/calamari-ctl"; "initialize"]
      (fun _ => false) sqlite_message lower_domain main_frame.

(** A host on which [changepassword ghost] finds no such user: the
    management command fails with a [CommandError], which Django reports
    on stderr. *)
Definition changepassword_ghost : ext_op :=
  OpManage [EmptyString; "changepassword"; "ghost"].

Definition command_error_host : env :=
  Env example_config
      (fun _ => Some (0, EmptyString, EmptyString))
      (fun op => if decide (op = changepassword_ghost)
                 then Some (CommandError "user 'ghost' does not exist")
                 else None)
      (fun op => if decide (op = changepassword_ghost)
                 then (EmptyString,
                       "CommandError: user 'ghost' does not exist" ++ nl)
                 else no_output)
      {["cthulhu_server"]} {["apache" := (48, 48)]}
      0 0 63 (Tm 2014 7 1 9 5) (fun n => (7 * n + 3)%nat)
      ["/usr/bin/calamari-ctl"; "change_password"; "ghost"]
      (fun _ => false) sqlite_message lower_domain main_frame.

Definition log_file : file := File (Text "started") 420 0 0.

(** Nothing but the web server's log file. *)
Definition fresh_install : world :=
  World {["/var/log/calamari/calamari.log" := log_file]} ∅ None ∅ ∅ ∅ []
        no_output [] 0.

Definition bob : user :=
  User "bob" "bob@example.com" (Hashed "secret") true false false.

(** An initialized installation: key material, database and roles in
    place, and the account [bob] with the role [readonly]. *)
Definition installed : world :=
  World {["/var/log/calamari/calamari.log" := log_file;
          "/etc/calamari/secret.key" := File (Text "k") 420 0 0;
          "/etc/calamari/ssl/private/calamari-lite.key" :=
            File (pem "PRIVATE KEY") 384 0 0;
          "/etc/calamari/ssl/certs/calamari-lite-bundled.crt" :=
            File (pem "CERTIFICATE") 420 0 0]}
        {["cthulhu_server"; ALEMBIC_TABLE]} (Some "head")
        {[1%nat := bob]} {["readonly"; "read/write"]}
        {[1%nat := {["readonly"]}]} [] no_output [] 0.

Definition no_args (f : command) : args.t :=
  args.mk f false EmptyString EmptyString None None EmptyString
          None None None false.

(** [initialize --admin-username admin --admin-password calamari
    --admin-email admin@example.com] *)
Definition admin_args : args.t :=
  args.mk cmd_initialize false EmptyString EmptyString None None EmptyString
          (Some "admin") (Some "calamari") (Some "admin@example.com") false.

Definition for_user (f : command) (name : string) : args.t :=
  args.mk f false name EmptyString None None EmptyString None None None false.

Definition with_role (name role : string) : args.t :=
  args.mk cmd_assign_role false name EmptyString None None role
          None None None false.

Definition renaming (old new : string) : args.t :=
  args.mk cmd_rename_user false old new None None EmptyString
          None None None false.

(** ** Vocabulary of the further properties *)

(** The record [run_cmd] logs for its optional message. *)
Definition message_records (m : option string) : list (level * string) :=
  match m with
  | Some s => [(INFO, s)]
  | None => []
  end.

(** The commands of [setup_supervisor], in the order of the code. *)
Definition legacy_commands : list (list string) :=
  [["systemctl"; "stop"; "supervisord"];
   ["systemctl"; "disable"; "supervisord"];
   ["systemctl"; "stop"; "supervisor"];
   ["systemctl"; "disable"; "supervisor"]].

Definition target_commands : list (list string) :=
  [["systemctl"; "enable"; service];
   ["systemctl"; "restart"; service];
   ["systemctl"; "set-property"; service; "MemoryLimit=300M"]].

(** The process starts and returns the code 0. *)
Definition succeeds (E : env) (cmd : list string) : Prop :=
  ∃ out err, popen E cmd = Some (0, out, err).

(** The program can be started at all. *)
Definition starts (E : env) (cmd : list string) : Prop :=
  is_Some (popen E cmd).

(** The role memberships [assign_role] leaves for a role name. *)
Definition role_groups (role : string) : gset string :=
  if decide (role = "superuser") then ∅ else {[role]}.

(** The row [assign_role] saves for [u]. *)
Definition with_role_flag (role : string) (u : user) : user :=
  User (username u) (email u) (password u) (is_active u) (is_staff u)
       (bool_decide (role = "superuser")).

Definition with_active (active : bool) (u : user) : user :=
  User (username u) (email u) (password u) active (is_staff u) (is_superuser u).

Definition with_password (c : credential) (u : user) : user :=
  User (username u) (email u) c (is_active u) (is_staff u) (is_superuser u).

Definition with_username (name : string) (u : user) : user :=
  User name (email u) (password u) (is_active u) (is_staff u) (is_superuser u).

(** The row [add_user] creates. *)
Definition new_account (E : env) (a : args.t) : user :=
  User (args.username a)
       (normalize_email E (default EmptyString (args.email a)))
       (make_credential (args.password a)) true false false.

(** The run kept the usernames unique, if they were. *)
Definition keeps_unique : relation world := fun w w' =>
  unique_usernames (auth_user w) → unique_usernames (auth_user w').

(** The run left the set of roles alone. *)
Definition same_roles : relation world := fun w w' =>
  auth_group w' = auth_group w.

(** Events of Django's user table and its join table. *)
Definition is_account_event (ev : event) : Prop :=
  match ev with
  | EvCreateUser _ _ | EvSaveUser _ | EvSetGroups _ _ | EvAddGroup _ _ => True
  | _ => False
  end.

(** The commands that only manage accounts. *)
Definition account_commands : list command :=
  [cmd_add_user; cmd_assign_role; cmd_disable_user; cmd_enable_user;
   cmd_rename_user].

(** The warning of [clear] without [--yes-i-am-sure]. *)
Definition clear_warning : string :=
  "This will remove all stored Calamari monitoring status and history.  Use '--yes-i-am-sure' to proceed".

(** The events of a fresh schema: creation, then the stamp unless creation
    failed. *)
Definition create_events (E : env) : list event :=
  EvExt OpCreateAll ::
  match ext_error E OpCreateAll with
  | Some _ => []
  | None => [EvExt (OpStamp "head")]
  end.

(** The run only added accounts and roles: every row, every role and every
    membership that was there is there unchanged. *)
Definition accounts_grow : relation world := fun w w' =>
  auth_user w ⊆ auth_user w' ∧ auth_group w ⊆ auth_group w' ∧
  auth_user_groups w' = auth_user_groups w.

(** The run removed no file and changed no owner. *)
Definition keeps_owner : relation world := fun w w' =>
  ∀ p f, files w !! p = Some f →
    ∃ f', files w' !! p = Some f' ∧ uid f' = uid f ∧ gid f' = gid f.

(** The run created no file. *)
Definition creates_nothing : relation world := fun w w' =>
  ∀ p, files w !! p = None → files w' !! p = None.

(** What [quiet] logs for a management command. *)
Definition output_records (E : env) (args : list string) : list (level * string) :=
  match ext_error E (OpManage args) with
  | Some _ => [(ERROR, (ext_output E (OpManage args)).1);
               (ERROR, (ext_output E (OpManage args)).2)]
  | None => []
  end.

(** ** Further example hosts and command lines *)

Definition with_popen (p : list string → option (Z * string * string))
    (E : env) : env :=
  Env (cfg E) p (ext_error E) (ext_output E) (model_tables E) (passwd E)
      (euid E) (egid E) (umask E) (gmtime E) (random_index E) (argv E)
      (leaves_key E) (integrity_message E) (normalize_email E)
      (traceback_frames E).

Definition with_euid (u : Z) (E : env) : env :=
  Env (cfg E) (popen E) (ext_error E) (ext_output E) (model_tables E)
      (passwd E) u u (umask E) (gmtime E) (random_index E) (argv E)
      (leaves_key E) (integrity_message E) (normalize_email E)
      (traceback_frames E).

Definition with_ext (err : ext_op → option exn)
    (out : ext_op → string * string) (E : env) : env :=
  Env (cfg E) (popen E) err out (model_tables E) (passwd E)
      (euid E) (egid E) (umask E) (gmtime E) (random_index E) (argv E)
      (leaves_key E) (integrity_message E) (normalize_email E)
      (traceback_frames E).

Definition with_leaves_key (l : list string → bool) (E : env) : env :=
  Env (cfg E) (popen E) (ext_error E) (ext_output E) (model_tables E)
      (passwd E) (euid E) (egid E) (umask E) (gmtime E) (random_index E)
      (argv E) l (integrity_message E) (normalize_email E)
      (traceback_frames E).

(** A host on which no program can be started. *)
Definition bare_host : env := with_popen (fun _ => None) rhel_host.

(** A host on which [openssl] fails and everything else succeeds. *)
Definition openssl_fails (cmd : list string) : option (Z * string * string) :=
  if decide (head cmd = Some "openssl")
  then Some (1, EmptyString, "unable to write 'random state'")
  else Some (0, EmptyString, EmptyString).

Definition no_openssl_host : env := with_popen openssl_fails rhel_host.

(** The same, [openssl] failing after it wrote the private key. *)
Definition half_openssl_host : env :=
  with_leaves_key (fun _ => true) no_openssl_host.

(** The tool run by an ordinary user. *)
Definition user_host : env := with_euid 1000 rhel_host.

(** [add_user <name> --email <mail> --password <pw>] *)
Definition new_user (name mail pw : string) : args.t :=
  args.mk cmd_add_user false name EmptyString (Some mail) (Some pw)
          EmptyString None None None false.

(** [change_password <name> --password <pw>] *)
Definition password_for (name pw : string) : args.t :=
  args.mk cmd_change_password false name EmptyString None (Some pw)
          EmptyString None None None false.

(** [clear --yes-i-am-sure] *)
Definition confirmed_clear : args.t :=
  args.mk cmd_clear false EmptyString EmptyString None None EmptyString
          None None None true.

(** [initialize] with the administrator options [name], [pw], [mail]. *)
Definition admin_options (name pw mail : string) : args.t :=
  args.mk cmd_initialize false EmptyString EmptyString None None EmptyString
          (Some name) (Some pw) (Some mail) false.

(** * Proofs *)

(** ** Running the monad *)

(** read a field of a world built by setters *)
Ltac wsimpl :=
  cbn [files db_tables db_revision auth_user auth_group auth_user_groups
       log_tmp captured trace rng_pos set_files set_db set_auth_user
       set_auth_group set_auth_user_groups set_log_tmp set_captured set_trace
       set_rng_pos fresh_buffers fst snd].

Tactic Notation "wsimpl" "in" hyp(H) :=
  cbn [files db_tables db_revision auth_user auth_group auth_user_groups
       log_tmp captured trace rng_pos set_files set_db set_auth_user
       set_auth_group set_auth_user_groups set_log_tmp set_captured set_trace
       set_rng_pos fresh_buffers fst snd] in H.

Lemma bind_inv {A B} (m : M A) (f : A → M B) E w r w' :
  (m ≫= f) E w = (r, w') →
  (∃ a w1, m E w = (Ok a, w1) ∧ f a E w1 = (r, w')) ∨
  (∃ e, m E w = (Raise e, w') ∧ r = Raise e).
Proof.
  unfold mbind, M_bind. destruct (m E w) as [[a|e] w1]; intros H.
  - left. eauto.
  - right. exists e. by simplify_eq.
Qed.

Lemma bind_ok {A B} (m : M A) (f : A → M B) E w b w' :
  (m ≫= f) E w = (Ok b, w') →
  ∃ a w1, m E w = (Ok a, w1) ∧ f a E w1 = (Ok b, w').
Proof. intros [?|(e & _ & ?)]%bind_inv; [done | discriminate]. Qed.

Lemma bind_run {A B} (m : M A) (f : A → M B) E w :
  (m ≫= f) E w =
  match m E w with
  | (Ok a, w1) => f a E w1
  | (Raise e, w1) => (Raise e, w1)
  end.
Proof. reflexivity. Qed.

Lemma log_info_run msg E w :
  log_info msg E w = (Ok tt, set_log_tmp (log_tmp w ++ [(INFO, msg)]) w).
Proof. reflexivity. Qed.

Lemma log_error_run msg E w :
  log_error msg E w = (Ok tt, set_log_tmp (log_tmp w ++ [(ERROR, msg)]) w).
Proof. reflexivity. Qed.

Lemma log_debug_run msg E w : log_debug msg E w = (Ok tt, w).
Proof. reflexivity. Qed.

(** ** run_cmd *)

Lemma run_cmd_trace cmd msg E w :
  trace (run_cmd cmd msg E w).2 = (trace w ++ [EvRunCmd cmd])%list.
Proof.
  unfold run_cmd. cbv [mbind M_bind ask emit modify].
  destruct (popen E cmd) as [[[rc out] err]|]; [|done].
  destruct msg; simpl; by destruct (decide (rc ≠ 0)).
Qed.

Lemma run_cmd_result cmd msg E w :
  (run_cmd cmd msg E w).1 =
  match popen E cmd with
  | None => Raise (OSError "[Errno 2] No such file or directory")
  | Some (rc, _, _) =>
      if decide (rc ≠ 0)
      then Raise (RuntimeError (default EmptyString (head cmd) ++ " for " ++
                     fmt_opt msg ++ " failed with rc=" ++ pretty rc))
      else Ok tt
  end.
Proof.
  unfold run_cmd. cbv [mbind M_bind ask emit modify].
  destruct (popen E cmd) as [[[rc out] err]|]; [|done].
  destruct msg; simpl; by destruct (decide (rc ≠ 0)).
Qed.

Lemma new_events_app w w' t :
  trace w' = (trace w ++ t)%list → new_events w w' = t.
Proof. unfold new_events. intros ->. by rewrite drop_app_length. Qed.

(** run the next [run_cmd] of the goal *)
Ltac run_next :=
  match goal with
  | |- context [run_cmd ?c ?m ?E ?w] =>
      let r := fresh "r" in let w1 := fresh "w" in
      let Hr := fresh "Hr" in let Ht := fresh "Ht" in
      pose proof (run_cmd_result c m E w) as Hr;
      pose proof (run_cmd_trace c m E w) as Ht;
      destruct (run_cmd c m E w) as [r w1]; simpl in Hr, Ht; subst r
  end.

Ltac case_popen :=
  match goal with
  | |- context [popen ?E ?c] =>
      destruct (popen E c) as [[[? ?] ?]|]; [destruct (decide _)|]
  end.

Ltac unfold_traces :=
  repeat match goal with
  | H : trace _ = _ |- _ => rewrite H; clear H
  end;
  rewrite <- ?app_assoc.

(** C4 (code defect).  The four legacy stop/disable commands share one [try]
    block.  When the first one, [systemctl stop supervisord], returns a
    non-zero code, none of the other three is attempted: the only commands
    that follow are those of the target service.  The failure itself is
    swallowed. *)
Theorem setup_supervisor_stops_at_first_failure E w rc out err :
  popen E ["systemctl"; "stop"; "supervisord"] = Some (rc, out, err) →
  rc ≠ 0 →
  ∃ t, new_events w (setup_supervisor E w).2
       = EvRunCmd ["systemctl"; "stop"; "supervisord"] :: t ∧
       t `prefix_of` [EvRunCmd ["systemctl"; "enable"; service];
                      EvRunCmd ["systemctl"; "restart"; service];
                      EvRunCmd ["systemctl"; "set-property"; service;
                                "MemoryLimit=300M"]].
Proof.
  intros Hp Hrc. unfold setup_supervisor, try_except.
  cbv [mbind M_bind]. run_next. rewrite Hp in *.
  destruct (decide (rc ≠ 0)); [|done]. simpl.
  cbv [mret M_ret].
  repeat (run_next; case_popen).
  all: simpl; eexists; (split; [apply new_events_app; simpl; unfold_traces; reflexivity |]).
  all: by eexists.
Qed.

(** ** The user table *)

Lemma rows_named_elem name m k u :
  (k, u) ∈ rows_named name m ↔ m !! k = Some u ∧ username u = name.
Proof.
  unfold rows_named. rewrite list_elem_of_filter, elem_of_map_to_list. tauto.
Qed.

Lemma rows_named_nil name (m : gmap nat user) :
  rows_named name m = [] ↔ ∀ k u, m !! k = Some u → username u ≠ name.
Proof.
  split.
  - intros Hnil k u Hk Hu.
    assert ((k, u) ∈ rows_named name m) as Hin by (by apply rows_named_elem).
    rewrite Hnil in Hin. by apply not_elem_of_nil in Hin.
  - intros Hno. destruct (rows_named name m) as [|[k u] l] eqn:Hl; [done|].
    assert ((k, u) ∈ rows_named name m) as [??]%rows_named_elem
      by (rewrite Hl; left).
    by destruct (Hno k u).
Qed.

Lemma rows_named_unique (m : gmap nat user) pk u :
  unique_usernames m → m !! pk = Some u →
  rows_named (username u) m = [(pk, u)].
Proof.
  intros Huniq Hpk.
  assert (NoDup (rows_named (username u) m)) as Hnd.
  { unfold rows_named. apply NoDup_filter, NoDup_map_to_list. }
  assert (∀ x, x ∈ rows_named (username u) m → x = (pk, u)) as Hall.
  { intros [k v] [Hk Hv]%rows_named_elem.
    assert (k = pk) as -> by eauto. by simplify_eq. }
  assert ((pk, u) ∈ rows_named (username u) m) as Hin
    by (by apply rows_named_elem).
  destruct (rows_named (username u) m) as [|x [|y l]].
  - by apply not_elem_of_nil in Hin.
  - by rewrite (Hall x) by left.
  - rewrite (Hall x) in Hnd by left.
    rewrite (Hall y) in Hnd by (right; left).
    apply NoDup_cons in Hnd as [Hnot _]. destruct Hnot. left.
Qed.

Lemma user_get_found E w pk u :
  unique_usernames (auth_user w) → auth_user w !! pk = Some u →
  user_get (username u) E w = (Ok (pk, u), w).
Proof.
  intros Hu Hpk. unfold user_get. cbv [mbind M_bind get].
  by rewrite (rows_named_unique _ pk u).
Qed.

Lemma user_get_missing name E w :
  rows_named name (auth_user w) = [] →
  user_get name E w =
  (Raise (DoesNotExist UserModel "User matching query does not exist."), w).
Proof. intros Hnil. unfold user_get. cbv [mbind M_bind get]. by rewrite Hnil. Qed.

(** ** assign_role *)

Lemma assign_role_unknown_role a E w pk u :
  unique_usernames (auth_user w) →
  auth_user w !! pk = Some u →
  username u = args.username a →
  args.role_name a ≠ "superuser" →
  args.role_name a ∉ auth_group w →
  ∃ w', assign_role a E w
        = (Raise (CalamariUserError "Group matching query does not exist."), w')
    ∧ groups_of pk w' = ∅
    ∧ auth_user w' = auth_user w.
Proof.
  intros Huniq Hpk Hname Hrole Hgroup.
  unfold assign_role. rewrite bind_run. unfold try_except.
  rewrite <- Hname, (user_get_found E w pk u) by done.
  rewrite bind_run. simpl.
  destruct (decide (args.role_name a = "superuser")); [done|].
  cbv [mbind M_bind try_except group_get get]. simpl.
  destruct (decide (args.role_name a ∈ auth_group w)); [done|]. simpl.
  eexists. split; [reflexivity|]. split; [|done].
  unfold groups_of. simpl. by rewrite lookup_insert_eq.
Qed.

(** C7 (code defect).  For an existing user and a role name that is neither
    [superuser] nor an existing group, [assign_role] fails with the
    user error of a missing role and leaves the user row, hence the
    superuser flag, as it was; but the role memberships were emptied
    before the role was looked up, and that is not undone: a user who had
    roles has lost them. *)
Theorem assign_role_unknown_role_clears_groups a E w pk u :
  unique_usernames (auth_user w) →
  auth_user w !! pk = Some u →
  username u = args.username a →
  args.role_name a ≠ "superuser" →
  args.role_name a ∉ auth_group w →
  ∃ w', assign_role a E w
        = (Raise (CalamariUserError "Group matching query does not exist."), w')
    ∧ auth_user w' = auth_user w
    ∧ groups_of pk w' = ∅
    ∧ (groups_of pk w ≠ ∅ → groups_of pk w' ≠ groups_of pk w).
Proof.
  intros Huniq Hpk Hname Hrole Hgroup.
  destruct (assign_role_unknown_role a E w pk u) as (w' & Hrun & Hg & Hu);
    [done..|].
  exists w'. repeat split; [done..|]. by rewrite Hg.
Qed.

Lemma user_save_ok E w pk u u' :
  unique_usernames (auth_user w) →
  auth_user w !! pk = Some u →
  username u' = username u →
  ∃ w', user_save pk u' E w = (Ok tt, w')
    ∧ auth_user w' = <[pk := u']> (auth_user w)
    ∧ auth_user_groups w' = auth_user_groups w
    ∧ auth_group w' = auth_group w.
Proof.
  intros Huniq Hpk Hname. unfold user_save.
  cbv [mbind M_bind emit modify get ask].
  change (auth_user (set_trace _ w)) with (auth_user w).
  rewrite Hname, (rows_named_unique _ pk u) by done.
  destruct (decide _) as [|Hno]; [by eexists|].
  destruct Hno. by repeat constructor.
Qed.

Lemma assign_role_superuser a E w pk u :
  unique_usernames (auth_user w) →
  auth_user w !! pk = Some u →
  username u = args.username a →
  args.role_name a = "superuser" →
  ∃ w', assign_role a E w = (Ok tt, w')
    ∧ groups_of pk w' = ∅
    ∧ is_superuser <$> auth_user w' !! pk = Some true.
Proof.
  intros Huniq Hpk Hname Hrole.
  unfold assign_role. rewrite bind_run. unfold try_except.
  rewrite <- Hname, (user_get_found E w pk u) by done.
  rewrite bind_run. simpl.
  destruct (decide (args.role_name a = "superuser")); [|done].
  rewrite bind_run. cbv [mret M_ret].
  match goal with |- context [user_save pk ?u' E ?w1] =>
    destruct (user_save_ok E w1 pk u u') as (w' & -> & Hu & Hg & _); [done..|]
  end.
  exists w'. split; [done|]. unfold groups_of. rewrite Hu, Hg. simpl.
  by rewrite !lookup_insert_eq.
Qed.

Lemma assign_role_group a E w pk u :
  unique_usernames (auth_user w) →
  auth_user w !! pk = Some u →
  username u = args.username a →
  args.role_name a ≠ "superuser" →
  args.role_name a ∈ auth_group w →
  ∃ w', assign_role a E w = (Ok tt, w')
    ∧ groups_of pk w' = {[args.role_name a]}
    ∧ is_superuser <$> auth_user w' !! pk = Some false.
Proof.
  intros Huniq Hpk Hname Hrole Hgroup.
  unfold assign_role. rewrite bind_run. unfold try_except.
  rewrite <- Hname, (user_get_found E w pk u) by done.
  rewrite bind_run. simpl.
  destruct (decide (args.role_name a = "superuser")); [done|].
  cbv [mbind M_bind try_except group_get get user_groups_add emit modify
       mret M_ret]. simpl.
  destruct (decide (args.role_name a ∈ auth_group w)); [|done]. simpl.
  match goal with |- context [user_save pk ?u' E ?w1] =>
    destruct (user_save_ok E w1 pk u u') as (w' & -> & Hu & Hg & _); [done..|]
  end.
  exists w'. split; [done|]. unfold groups_of. rewrite Hu, Hg. simpl.
  rewrite !lookup_insert_eq. simpl. split; [|done].
  by rewrite union_empty_l_L.
Qed.

(** ** create_admin_users *)

Lemma superusers_nil w :
  filter (fun kv : nat * user => is_superuser kv.2 = true)
         (map_to_list (auth_user w)) = [] ↔ no_superuser w.
Proof.
  split.
  - intros Hnil k u Hk.
    destruct (is_superuser u) eqn:Hs; [|done].
    assert ((k, u) ∈ filter (fun kv : nat * user => is_superuser kv.2 = true)
                       (map_to_list (auth_user w))) as Hin.
    { apply list_elem_of_filter. split; [done|]. by apply elem_of_map_to_list. }
    rewrite Hnil in Hin. by apply not_elem_of_nil in Hin.
  - intros Hno.
    destruct (filter _ _) as [|[k u] l] eqn:Hl; [done|].
    assert ((k, u) ∈ filter (fun kv : nat * user => is_superuser kv.2 = true)
                       (map_to_list (auth_user w)))
      as [Hs Hk%elem_of_map_to_list]%list_elem_of_filter by (rewrite Hl; left).
    simpl in Hs. by rewrite (Hno k u) in Hs.
Qed.

Lemma truthy_supplied o : truthy o = true → is_Some o.
Proof. destruct o; [by eexists | done]. Qed.

(** C10.  [create_admin_users] changes the user table only when username,
    password and email of the administrator were all supplied; with all
    three supplied and the username free, it returns normally and inserts
    one row under a fresh key, an active superuser with that username and
    password.  When one of them is missing nothing is created and nothing
    is raised: the run reaches the test that logs the
    create-an-admin-later guidance, and logs it exactly when no superuser
    exists. *)
Theorem create_admin_users_all_three a E w :
  let r := create_admin_users a E w in
  let name := default EmptyString (args.admin_username a) in
  (auth_user r.2 ≠ auth_user w → all_supplied a) ∧
  (truthy (args.admin_username a) = true →
   truthy (args.admin_password a) = true →
   truthy (args.admin_email a) = true →
   rows_named name (auth_user w) = [] →
     r.1 = Ok tt ∧
     ∃ k u, auth_user w !! k = None ∧
            auth_user r.2 = <[k := u]> (auth_user w) ∧
            username u = name ∧
            password u = make_credential (args.admin_password a) ∧
            is_active u = true ∧ is_staff u = true ∧ is_superuser u = true) ∧
  (¬ all_supplied a →
     r.1 = Ok tt ∧ auth_user r.2 = auth_user w ∧ trace r.2 = trace w ∧
     (no_superuser w → log_tmp r.2 = (log_tmp w ++ [(INFO, admin_guidance)])%list) ∧
     (¬ no_superuser w → log_tmp r.2 = log_tmp w)).
Proof.
  unfold create_admin_users.
  destruct (truthy (args.admin_username a)) eqn:Hu;
    [destruct (truthy (args.admin_password a)) eqn:Hp;
       [destruct (truthy (args.admin_email a)) eqn:He|]|]; cbn [andb].
  { split; [intros _; by repeat split; apply truthy_supplied|]. split.
    - intros _ _ _ Hfree.
      cbv [mbind M_bind user_exists get mret M_ret]. rewrite Hfree.
      rewrite bool_decide_eq_false_2 by (by intros []). cbn [negb].
      rewrite log_info_run.
      unfold create_superuser, _create_user.
      cbv [mbind M_bind emit modify get ask].
      destruct (decide _) as [Hempty|_].
      { destruct (args.admin_username a) as [n|]; [|done].
        simpl in Hempty, Hu. subst n. done. }
      wsimpl. rewrite Hfree. cbn [fst snd]. split; [done|].
      eexists (fresh (dom (auth_user w))), _.
      split; [apply not_elem_of_dom, is_fresh|]. by repeat split.
    - intros []. by repeat split; apply truthy_supplied. }
  all: cbv [mbind M_bind superusers get mret M_ret].
  all: destruct (bool_decide _) eqn:Hb;
    [apply bool_decide_eq_true in Hb; apply superusers_nil in Hb
    |apply bool_decide_eq_false in Hb; rewrite superusers_nil in Hb]; simpl.
  all: split; [done|split; [done|intros _; repeat split; done]].
Qed.

(** ** rename_user *)

Lemma rows_named_single name (m : gmap nat user) :
  unique_usernames m → rows_named name m ≠ [] →
  ∃ k u, rows_named name m = [(k, u)].
Proof.
  intros Huniq Hne.
  destruct (rows_named name m) as [|[k u] l] eqn:Hl; [done|].
  assert ((k, u) ∈ rows_named name m) as [Hk Hu]%rows_named_elem
    by (rewrite Hl; left).
  exists k, u. rewrite <- Hl, <- Hu. by apply rows_named_unique.
Qed.

(** C9 (amended).  With unique usernames: when the new username is in use,
    [rename_user] logs the conflict and changes no account; when the new
    username is free and the old user does not exist, it logs that the
    user does not exist, raises nothing and changes no account. *)
Theorem rename_user_outcomes a E w :
  unique_usernames (auth_user w) →
  (rows_named (args.new_username a) (auth_user w) ≠ [] →
   ∃ w', rename_user a E w = (Ok tt, w') ∧ same_accounts w w' ∧
         trace w' = trace w ∧
         log_tmp w' = (log_tmp w ++ [(ERROR, in_use_message a)])%list) ∧
  (rows_named (args.new_username a) (auth_user w) = [] →
   rows_named (args.username a) (auth_user w) = [] →
   ∃ w', rename_user a E w = (Ok tt, w') ∧ same_accounts w w' ∧
         trace w' = trace w ∧
         log_tmp w' = (log_tmp w ++ [(ERROR, missing_message a)])%list).
Proof.
  intros Huniq. split.
  - intros (k & u & Hrows)%rows_named_single; [|done].
    unfold rename_user, try_except. rewrite bind_run.
    unfold user_get at 1. cbv [mbind M_bind get]. rewrite Hrows. simpl.
    eexists. by repeat split.
  - intros Hnew Hold.
    unfold rename_user, try_except. rewrite bind_run.
    rewrite (user_get_missing _ E w Hnew). simpl.
    rewrite bind_run, (user_get_missing _ E w Hold). simpl.
    eexists. by repeat split.
Qed.

(** C9 as stated fails: renaming a missing user to a free name returns
    normally. *)
Lemma rename_missing_old_does_not_raise : ¬ rename_missing_old_raises.
Proof.
  intros H.
  destruct (H (renaming "alice" "carol") rhel_host installed) as (msg & w' & Hr);
    [reflexivity..|].
  vm_compute in Hr. discriminate.
Qed.

(** ** main *)

Lemma main_body_privileged a E w :
  privileged a E → main_body a E w = call (args.func a) a E w.
Proof.
  intros [Hd|He]; unfold main_body; cbv [mbind M_bind ask].
  - by rewrite Hd.
  - rewrite bool_decide_eq_true_2 by done. by rewrite orb_true_r.
Qed.

Lemma main_report_run e E w :
  ∃ w', main_report e E w = (Ok tt, w') ∧
    content <$> files w' !! debug_filename E = Some (report_content E w e) ∧
    (∀ q, q ≠ debug_filename E → files w' !! q = files w !! q) ∧
    same_accounts w w' ∧ same_db w w'.
Proof.
  unfold main_report. cbv [mbind M_bind ask get write_file emit modify].
  simpl. eexists. split; [reflexivity|]. simpl. repeat split.
  - unfold store. destruct (files w !! debug_filename E);
      by rewrite lookup_insert_eq.
  - intros q Hq. unfold store. destruct (files w !! debug_filename E);
      by rewrite lookup_insert_ne.
Qed.

(** C8 (amended).  [enable_user] and [disable_user] on a username that is not
    in the directory fail with the [DoesNotExist] error of the user model.
    [main] answers with [sys.exit(1)] only for [add_user] and
    [assign_role], so here it writes the crash report and the process ends
    with status 0. *)
Theorem toggle_missing_user_crash_report a E w :
  args.func a ∈ [cmd_enable_user; cmd_disable_user] →
  privileged a E →
  rows_named (args.username a) (auth_user w) = [] →
  let e := DoesNotExist UserModel "User matching query does not exist." in
  main_body a E w = (Raise e, w) ∧
  (main a E w).1 = 0 ∧
  content <$> files (main a E w).2 !! debug_filename E
    = Some (report_content E w e).
Proof.
  intros Hf Hp Hnil e.
  assert (main_body a E w = (Raise e, w)) as Hbody.
  { rewrite main_body_privileged by done.
    rewrite !elem_of_cons, elem_of_nil in Hf.
    destruct Hf as [->|[->|[]]].
    all: simpl; unfold enable_user, disable_user, change_user_active_status,
      try_except; rewrite bind_run, user_get_missing by done; done. }
  split; [done|]. unfold main. rewrite Hbody.
  replace (bool_decide (args.func a ∈ [cmd_assign_role; cmd_add_user]) &&
           is_CalamariUserError e) with false by (by rewrite andb_false_r).
  destruct (main_report_run e E w) as (w' & -> & Hc & _). done.
Qed.

(** C8 as stated fails: [enable_user ghost] ends with status 0 and a crash
    report on disk. *)
Lemma toggle_missing_user_is_not_expected : ¬ toggle_missing_user_is_expected.
Proof.
  intros H.
  destruct (H (for_user cmd_enable_user "ghost") rhel_host installed) as [Hs _].
  - left.
  - by right.
  - reflexivity.
  - vm_compute in Hs. discriminate.
Qed.

(** ** Preservation along a run *)

Section pres.
Context (R : relation world) `{!PreOrder R}.

Lemma pres_ret {A} (a : A) E w : pres R (mret a) E w.
Proof. intros r w' H. injection H as _ <-. reflexivity. Qed.

Lemma pres_raise {A} e E w : pres R (@raise A e) E w.
Proof. intros r w' H. injection H as _ <-. reflexivity. Qed.

Lemma pres_ask E w : pres R ask E w.
Proof. intros r w' H. injection H as _ <-. reflexivity. Qed.

Lemma pres_get E w : pres R get E w.
Proof. intros r w' H. injection H as _ <-. reflexivity. Qed.

Lemma pres_modify f E w : R w (f w) → pres R (modify f) E w.
Proof. intros Hf r w' H. injection H as _ <-. done. Qed.

Lemma pres_bind {A B} (m : M A) (f : A → M B) E w :
  pres R m E w →
  (∀ a w1, m E w = (Ok a, w1) → pres R (f a) E w1) →
  pres R (m ≫= f) E w.
Proof.
  intros Hm Hf r w' [(a & w1 & H1 & H2)|(e & H1 & _)]%bind_inv.
  - etrans; [by eapply Hm | by eapply Hf].
  - by eapply Hm.
Qed.

Lemma pres_try_except {A} (body : M A) handles handler E w :
  pres R body E w →
  (∀ e w1, body E w = (Raise e, w1) → handles e = true →
           pres R (handler e) E w1) →
  pres R (try_except body handles handler) E w.
Proof.
  intros Hb Hh r w'. unfold try_except.
  destruct (body E w) as [[a|e] w1] eqn:Hbody.
  - intros ?; simplify_eq. by eapply Hb.
  - destruct (handles e) eqn:He.
    + intros H. etrans; [by eapply Hb | by eapply Hh].
    + intros ?; simplify_eq. by eapply Hb.
Qed.
End pres.

Lemma pres_and {A} (R1 R2 : relation world) (m : M A) E w :
  pres R1 m E w → pres R2 m E w → pres (fun w w' => R1 w w' ∧ R2 w w') m E w.
Proof. intros H1 H2 r w' H. split; eauto. Qed.

(** what a reader returns *)
Ltac reader H :=
  try (progress cbv [get ask path_exists user_exists superusers mret M_ret
                     mbind M_bind] in H; simplify_eq).

Ltac head_of t :=
  lazymatch t with
  | ?f _ => head_of f
  | _ => t
  end.

Ltac pres_go leaf :=
  lazymatch goal with
  | |- PreOrder _ => tc_solve
  | |- pres _ (mret _) _ _ => apply pres_ret; pres_go leaf
  | |- pres _ (raise _) _ _ => apply pres_raise; pres_go leaf
  | |- pres _ ask _ _ => apply pres_ask; pres_go leaf
  | |- pres _ get _ _ => apply pres_get; pres_go leaf
  | |- pres _ (modify _) _ _ => apply pres_modify; pres_go leaf
  | |- pres _ (_ ≫= _) _ _ => apply pres_bind; pres_go leaf
  | |- pres _ (try_except _ _ _) _ _ => apply pres_try_except; pres_go leaf
  | |- pres _ (if ?c then _ else _) _ _ => destruct c eqn:?; pres_go leaf
  | |- pres _ (match ?x with _ => _ end) _ _ => destruct x eqn:?; pres_go leaf
  | |- pres _ ?m _ _ =>
      first [ solve [eauto] | let h := head_of m in unfold h; pres_go leaf ]
  | |- ∀ _ _, _ = (Ok _, _) → pres _ _ _ _ =>
      let H := fresh "Hm" in intros ? ? H; reader H; pres_go leaf
  | |- ∀ _ _, _ = (Raise _, _) → _ → pres _ _ _ _ => intros; pres_go leaf
  | |- _ => leaf
  end.

#[global] Instance same_files_preorder : PreOrder same_files.
Proof.
  split; [done|]. intros w1 w2 w3 H12 H23. unfold same_files in *. congruence.
Qed.

#[global] Instance same_data_preorder : PreOrder same_data.
Proof.
  split.
  - by intros w q.
  - intros w1 w2 w3 H12 H23 q. by rewrite H23.
Qed.

#[global] Instance same_db_preorder : PreOrder same_db.
Proof.
  split; [done|]. intros w1 w2 w3 [??] [??]. unfold same_db. split; congruence.
Qed.

#[global] Instance same_accounts_preorder : PreOrder same_accounts.
Proof.
  split; [done|]. intros w1 w2 w3 (?&?&?) (?&?&?). unfold same_accounts.
  repeat split; congruence.
Qed.

#[global] Instance trace_ext_preorder P : PreOrder (trace_ext P).
Proof.
  split.
  - intros w. exists []. by rewrite app_nil_r.
  - intros w1 w2 w3 (t1 & H1 & F1) (t2 & H2 & F2). exists (t1 ++ t2)%list.
    split; [by rewrite H2, H1, app_assoc | by apply Forall_app].
Qed.

Ltac leaf_files := by (unfold same_files; wsimpl).

Lemma assign_role_same_files a E w : pres same_files (assign_role a) E w.
Proof. pres_go leaf_files. Qed.

Lemma add_user_same_files a E w : pres same_files (add_user a) E w.
Proof. pres_go ltac:(eauto using assign_role_same_files || leaf_files). Qed.

Lemma main_body_same_files a E w :
  args.func a ∈ [cmd_assign_role; cmd_add_user] →
  pres same_files (main_body a) E w.
Proof.
  rewrite !elem_of_cons, elem_of_nil. intros [Hf|[Hf|[]]].
  all: unfold main_body; rewrite Hf; simpl.
  all: pres_go ltac:(leaf_files).
Qed.

Lemma add_user_duplicate a E w :
  args.username a ≠ EmptyString →
  rows_named (args.username a) (auth_user w) ≠ [] →
  ∃ w', add_user a E w
        = (Raise (CalamariUserError (integrity_message E (args.username a))),
           w').
Proof.
  intros Hname Hrows. unfold add_user, try_except, create_user, _create_user.
  cbv [mbind M_bind emit modify get ask].
  destruct (decide (args.username a = EmptyString)); [done|]. simpl.
  destruct (rows_named _ _); [done|]. simpl. by eexists.
Qed.

Lemma assign_role_missing_user a E w :
  rows_named (args.username a) (auth_user w) = [] →
  ∃ w', assign_role a E w
        = (Raise (CalamariUserError "User matching query does not exist."), w').
Proof.
  intros Hrows. unfold assign_role, try_except. rewrite bind_run.
  rewrite user_get_missing by done. simpl. by eexists.
Qed.

Lemma main_recognized a E w e w1 :
  main_body a E w = (Raise e, w1) → recognized a e →
  main a E w = (1, w1) ∧ files w1 = files w.
Proof.
  intros Hbody [Hf He]. split.
  - unfold main. rewrite Hbody, He, bool_decide_eq_true_2 by done.
    by destruct e.
  - by apply (main_body_same_files a E w Hf _ _ Hbody).
Qed.

Lemma main_unrecognized a E w e w1 :
  main_body a E w = (Raise e, w1) → ¬ recognized a e →
  is_Exception e = true →
  (main a E w).1 = 0 ∧
  content <$> files (main a E w).2 !! debug_filename E
    = Some (report_content E w1 e).
Proof.
  intros Hbody Hno Hexn. unfold main. rewrite Hbody, Hexn.
  destruct (bool_decide _ && _) eqn:Hb.
  - destruct Hno. apply andb_true_iff in Hb as [Hf%bool_decide_eq_true He].
    by split.
  - by destruct (main_report_run e E w1) as (w' & -> & Hc & _).
Qed.

Lemma main_uncaught a E w e w1 :
  main_body a E w = (Raise e, w1) → is_Exception e = false →
  main a E w = (exit_status e, w1).
Proof. intros Hbody Hexn. unfold main. by rewrite Hbody, Hexn. Qed.

(** C3 (amended).  For a privileged invocation: a duplicate user on
    [add_user], a missing user on [assign_role] and a missing role on
    [assign_role] end the process with status 1 and leave the disk as it
    was; in general an exception of the command that [main] recognizes
    gives status 1 and no write; every other exception that is an
    [Exception] makes [main] write the crash report and end with status 0;
    an exception that is no [Exception] (the [SystemExit] of a management
    command that failed with a [CommandError], a [KeyboardInterrupt]) ends
    the process with its own status, and nothing is written after the
    command.  The crash report is the file [/tmp/<timestamp>.txt] with the
    JSON document of [sys.argv], the log transcript, which ends with the
    line logged for the exception, and the traceback: header, frames and
    the last line with class and message. *)
Theorem main_error_policy a E w :
  privileged a E →
  (args.func a = cmd_add_user → args.username a ≠ EmptyString →
   rows_named (args.username a) (auth_user w) ≠ [] →
   (main a E w).1 = 1 ∧ files (main a E w).2 = files w) ∧
  (args.func a = cmd_assign_role →
   rows_named (args.username a) (auth_user w) = [] →
   (main a E w).1 = 1 ∧ files (main a E w).2 = files w) ∧
  (args.func a = cmd_assign_role → unique_usernames (auth_user w) →
   rows_named (args.username a) (auth_user w) ≠ [] →
   args.role_name a ≠ "superuser" → args.role_name a ∉ auth_group w →
   (main a E w).1 = 1 ∧ files (main a E w).2 = files w) ∧
  (∀ e w1, main_body a E w = (Raise e, w1) →
     (recognized a e → main a E w = (1, w1) ∧ files w1 = files w) ∧
     (¬ recognized a e → is_Exception e = true →
        (main a E w).1 = 0 ∧
        content <$> files (main a E w).2 !! debug_filename E
          = Some (report_content E w1 e)) ∧
     (is_Exception e = false → main a E w = (exit_status e, w1))) ∧
  debug_filename E = "/tmp/" ++ strftime (gmtime E) ++ ".txt" ∧
  (∀ e w1,
     report_content E w1 e
     = Json [("argv", JArray (argv E));
             ("log", JString (read_log (log_tmp w1 ++ [(ERROR, str e)])));
             ("backtrace",
              JString ("Traceback (most recent call last):" ++ nl
                       ++ traceback_frames E e ++ final_line e))]).
Proof.
  intros Hp.
  assert (∀ msg w1, args.func a ∈ [cmd_assign_role; cmd_add_user] →
            call (args.func a) a E w = (Raise (CalamariUserError msg), w1) →
            (main a E w).1 = 1 ∧ files (main a E w).2 = files w) as Hexit.
  { intros msg w1 Hf Hcall. rewrite <- main_body_privileged in Hcall by done.
    destruct (main_recognized a E w _ w1 Hcall) as [-> ?]; by split. }
  split; [|split; [|split; [|split; [|split; [done|done]]]]].
  - intros Hf Hname Hrows.
    destruct (add_user_duplicate a E w Hname Hrows) as [w1 H1].
    eapply Hexit; [rewrite Hf, !elem_of_cons; tauto | by rewrite Hf].
  - intros Hf Hrows.
    destruct (assign_role_missing_user a E w Hrows) as [w1 H1].
    eapply Hexit; [rewrite Hf, !elem_of_cons; tauto | by rewrite Hf].
  - intros Hf Huniq (k & u & Hrows)%rows_named_single Hrole Hgroup; [|done].
    assert ((k, u) ∈ rows_named (args.username a) (auth_user w))
      as [Hk Hu]%rows_named_elem by (rewrite Hrows; left).
    destruct (assign_role_unknown_role a E w k u) as (w1 & H1 & _); [done..|].
    eapply Hexit; [rewrite Hf, !elem_of_cons; tauto | by rewrite Hf].
  - intros e w1 Hbody. split; [|split].
    + by apply main_recognized.
    + by apply main_unrecognized.
    + by apply main_uncaught.
Qed.

(** ** The blocks of initialize *)

Ltac innermost x :=
  lazymatch x with
  | context [match ?y with _ => _ end] => innermost y
  | _ => x
  end.

Ltac split_match :=
  match goal with
  | |- context [match ?x with _ => _ end] =>
      let y := innermost x in destruct y as [[?|?] ?] eqn:?
  | |- context [if ?x then _ else _] => destruct x eqn:?
  end.

Lemma initialize_blocks a E w :
  initialize a E w = (init_secret;; init_schema;; init_rest a) E w.
Proof.
  unfold initialize, init_rest, init_secret, init_schema, init_syncdb,
    init_admin, init_static, init_ownership, init_tls, init_restart.
  cbv [mbind M_bind ask mret M_ret].
  repeat first [ reflexivity | split_match ].
Qed.

Lemma pres_weaken {A} (R R' : relation world) (m : M A) E w :
  (∀ w', R w w' → R' w w') → pres R m E w → pres R' m E w.
Proof. intros HR Hm r w' H. eauto. Qed.

Ltac leaf_data :=
  intros ?q; wsimpl;
  repeat match goal with
  | |- context [<[?p := _]> _ !! ?q] =>
      destruct (decide (q = p)) as [->|];
      [ rewrite lookup_insert_eq | rewrite lookup_insert_ne by done ]
  | H : ?fs !! ?p = Some _ |- context [?fs !! ?p] => rewrite H
  end; try done.

Ltac leaf_trace :=
  wsimpl;
  first [ by (exists []; split; [by rewrite app_nil_r | constructor])
        | eexists [_]; split;
          [ reflexivity
          | apply Forall_singleton; cbn;
            first [ done | by intros [] | reflexivity ] ] ].

Ltac leaf_db := by (unfold same_db; wsimpl).
Ltac leaf_accounts := by (unfold same_accounts; wsimpl).

(** *** The secret key *)

Lemma get_random_string_S n cs :
  get_random_string (S n) cs =
  (c ← random_choice (list_ascii_of_string cs);
   s ← get_random_string n cs;
   mret (String c s)).
Proof. reflexivity. Qed.

Lemma random_choice_run cs E w :
  random_choice cs E w =
  (Ok (nth (random_index E (rng_pos w) mod length cs)%nat cs
           (Ascii.ascii_of_nat 0)),
   set_rng_pos (S (rng_pos w)) w).
Proof. reflexivity. Qed.

Lemma set_rng_pos_id w : set_rng_pos (rng_pos w) w = w.
Proof. by destruct w. Qed.

Lemma get_random_string_ok n cs E w :
  cs ≠ EmptyString →
  ∃ s, get_random_string n cs E w = (Ok s, set_rng_pos (rng_pos w + n)%nat w)
    ∧ String.length s = n
    ∧ ∀ c, c ∈ list_ascii_of_string s → c ∈ list_ascii_of_string cs.
Proof.
  intros Hcs. revert w.
  induction n as [|n IH]; intros w; [|rewrite get_random_string_S].
  - exists EmptyString. rewrite Nat.add_0_r, set_rng_pos_id.
    split; [done|]. split; [done|].
    intros c Hc. by apply not_elem_of_nil in Hc.
  - rewrite bind_run, random_choice_run.
    destruct (IH (set_rng_pos (S (rng_pos w)) w)) as (s & Hrun & Hlen & Hin).
    rewrite bind_run, Hrun. eexists. split.
    { cbv [mret M_ret]. f_equal. unfold set_rng_pos. simpl. f_equal. lia. }
    split; [by rewrite <- Hlen|].
    intros c [->|Hc]%elem_of_cons; [|by apply Hin].
    apply list_elem_of_In, nth_In, Nat.mod_upper_bound.
    destruct cs; [done|]. simpl. lia.
Qed.

#[local] Opaque get_random_string.

Lemma chars_nonempty : chars ≠ EmptyString.
Proof. done. Qed.

Lemma init_secret_run E w :
  let p := secret_key_path (cfg E) in
  ∃ w1, init_secret E w = (Ok tt, w1) ∧
    same_db w w1 ∧ same_accounts w w1 ∧
    (is_Some (files w !! p) → files w1 = files w ∧ trace w1 = trace w) ∧
    (files w !! p = None →
       ∃ s, files w1 = <[p := fresh_key E s]> (files w) ∧
            trace w1 = (trace w ++ [EvWrite p])%list ∧
            String.length s = 50%nat ∧
            ∀ c, c ∈ list_ascii_of_string s → c ∈ list_ascii_of_string chars).
Proof.
  intros p. unfold init_secret.
  rewrite bind_run, log_info_run.
  cbv [mbind M_bind ask path_exists get mret M_ret].
  cbn [files set_log_tmp]. fold p.
  destruct (files w !! p) as [f|] eqn:Hp.
  - rewrite bool_decide_eq_true_2 by by eexists. cbn [negb].
    eexists. split; [reflexivity|]. repeat split; try done.
  - rewrite bool_decide_eq_false_2 by (by intros [??]). cbn [negb].
    match goal with |- context [get_random_string 50 chars E ?w0] =>
      destruct (get_random_string_ok 50 chars E w0 chars_nonempty)
        as (s & -> & Hlen & Hin)
    end.
    cbv [write_file mbind M_bind ask emit modify].
    eexists. split; [reflexivity|]. repeat split; try done.
    intros _. exists s. wsimpl. unfold store. by rewrite Hp.
Qed.

(** *** Schema reconciliation *)

Lemma init_schema_run E w :
  ∃ r w1, init_schema E w = (r, w1) ∧
    same_files w w1 ∧ same_accounts w w1 ∧
    trace w1 = (trace w ++ EvExt OpReflect ::
                reconcile_events E (ALEMBIC_TABLE ∈ model_tables E ∪ db_tables w))%list.
Proof.
  unfold init_schema, reconcile_events, metadata_reflect, command_upgrade,
    metadata_create_all, command_stamp, ext_call.
  cbv [mbind M_bind ask emit modify get mret M_ret raise].
  destruct (ext_error E OpReflect); [by eexists _, _|]. wsimpl.
  destruct (decide _).
  - rewrite log_info_run.
    destruct (ext_error E (OpUpgrade "head")); eexists _, _;
      (split; [reflexivity|]); wsimpl; by rewrite <- ?app_assoc.
  - rewrite log_info_run.
    destruct (ext_error E OpCreateAll);
      [|destruct (ext_error E (OpStamp "head"))]; eexists _, _;
      (split; [reflexivity|]); wsimpl; by rewrite <- ?app_assoc.
Qed.

Lemma init_rest_not_reconcile a E w :
  pres (trace_ext (fun ev => ¬ is_reconcile ev)) (init_rest a) E w.
Proof. unfold init_rest. pres_go leaf_trace. Qed.

Lemma filter_none {A} (P : A → Prop) `{!∀ x, Decision (P x)} (l : list A) :
  Forall (fun x => ¬ P x) l → filter P l = [].
Proof.
  induction 1 as [|x l Hx _ IH]; [done|].
  by rewrite filter_cons_False.
Qed.

Lemma filter_reconcile_events E marker `{!Decision marker} :
  filter is_reconcile (reconcile_events E marker) = reconcile_events E marker.
Proof.
  unfold reconcile_events.
  destruct (ext_error E OpReflect); [done|].
  destruct (decide marker); [done|].
  by destruct (ext_error E OpCreateAll).
Qed.

Lemma initialize_reconcile_trace a E w :
  ALEMBIC_TABLE ∉ model_tables E →
  filter is_reconcile (new_events w (initialize a E w).2)
  = reconcile_events E (ALEMBIC_TABLE ∈ db_tables w).
Proof.
  intros Hmodel. rewrite initialize_blocks, bind_run.
  destruct (init_secret_run E w) as (w1 & -> & [Hdb _] & _ & Hex & Habs).
  assert (∃ t1, trace w1 = (trace w ++ t1)%list ∧ filter is_reconcile t1 = [])
    as (t1 & Ht1 & Hf1).
  { destruct (files w !! secret_key_path (cfg E)) eqn:Hp.
    - destruct Hex as [_ ->]; [by eexists|]. exists []. by rewrite app_nil_r.
    - destruct Habs as (s & _ & -> & _); [done|]. by eexists. }
  rewrite bind_run.
  destruct (init_schema_run E w1) as (r & w2 & -> & _ & _ & Ht2).
  assert (reconcile_events E (ALEMBIC_TABLE ∈ model_tables E ∪ db_tables w1)
          = reconcile_events E (ALEMBIC_TABLE ∈ db_tables w)) as Hrec.
  { unfold reconcile_events. rewrite Hdb.
    destruct (ext_error E OpReflect); [done|].
    destruct (decide (_ ∈ _ ∪ _)) as [[?|?]%elem_of_union|Hn],
      (decide (_ ∈ db_tables w)) as [?|?];
      first [ done | by destruct Hmodel
            | destruct Hn; apply elem_of_union; by right ]. }
  rewrite Hrec in Ht2.
  assert (∀ w3, trace_ext (fun ev => ¬ is_reconcile ev) w2 w3 →
            filter is_reconcile (new_events w w3)
            = reconcile_events E (ALEMBIC_TABLE ∈ db_tables w)) as Hend.
  { intros w3 (t3 & Ht3 & Hf3).
    rewrite (new_events_app w w3 (t1 ++ EvExt OpReflect ::
               reconcile_events E (ALEMBIC_TABLE ∈ db_tables w) ++ t3)).
    - rewrite filter_app, Hf1, filter_cons_False by (by intros []).
      by rewrite filter_app, filter_reconcile_events, (filter_none _ t3), app_nil_r.
    - rewrite Ht3, Ht2, Ht1, <- !app_assoc. done. }
  destruct r as [[]|e].
  - destruct (init_rest a E w2) as [r3 w3] eqn:Hrest.
    apply Hend. by eapply init_rest_not_reconcile.
  - apply Hend. reflexivity.
Qed.

(** C1.  In every run of [initialize] (the marker relation not being one of
    the declared models) the reconciliation events are decided by the
    presence of [alembic_version] in the store: without the marker the run
    creates the schema and then, unless creation failed, stamps the head
    revision, and never upgrades; with the marker it upgrades to the head
    revision and never creates the schema; when the store cannot be
    probed nothing is done to it. *)
Theorem initialize_schema_decision a E w :
  ALEMBIC_TABLE ∉ model_tables E →
  let t := filter is_reconcile (new_events w (initialize a E w).2) in
  (ext_error E OpReflect = None → ALEMBIC_TABLE ∉ db_tables w →
     (EvExt (OpUpgrade "head") ∉ t) ∧
     t = (EvExt OpCreateAll ::
          match ext_error E OpCreateAll with
          | Some _ => []
          | None => [EvExt (OpStamp "head")]
          end)) ∧
  (ext_error E OpReflect = None → ALEMBIC_TABLE ∈ db_tables w →
     (EvExt OpCreateAll ∉ t) ∧ t = [EvExt (OpUpgrade "head")]) ∧
  (is_Some (ext_error E OpReflect) → t = []).
Proof.
  intros Hmodel t. unfold t. rewrite initialize_reconcile_trace by done.
  unfold reconcile_events. split; [|split].
  - intros -> Habs. rewrite decide_False by done. split; [|done].
    destruct (ext_error E OpCreateAll);
      rewrite ?elem_of_cons, elem_of_nil; intros H; by repeat destruct H as [H|H].
  - intros -> Hpres. rewrite decide_True by done. split; [|done].
    rewrite elem_of_cons, elem_of_nil. by intros [H|H].
  - by intros [msg ->].
Qed.

(** *** The blocks between the schema and the certificate *)

Lemma initialize_five a E w :
  initialize a E w =
  (init_secret;; init_schema;; init_mid a;; init_tls;; init_restart) E w.
Proof.
  rewrite initialize_blocks. unfold init_rest, init_mid.
  cbv [mbind M_bind]. repeat first [ reflexivity | split_match ].
Qed.

#[global] Instance keeps_preorder ps : PreOrder (keeps ps).
Proof.
  split; [by intros w _ p _|].
  intros w1 w2 w3 H12 H23 Hall p Hp.
  rewrite H23; [by apply H12| |done].
  intros q Hq. apply (fmap_is_Some file_data). rewrite H12 by done.
  by apply fmap_is_Some, Hall.
Qed.

Lemma same_data_keeps ps w w' : same_data w w' → keeps ps w w'.
Proof. intros H _ p _. apply H. Qed.

Lemma init_schema_data E w : pres same_data init_schema E w.
Proof. unfold init_schema. pres_go leaf_data. Qed.

Lemma init_mid_data a E w : pres same_data (init_mid a) E w.
Proof. unfold init_mid. pres_go leaf_data. Qed.

Lemma init_restart_data E w : pres same_data init_restart E w.
Proof. unfold init_restart. pres_go leaf_data. Qed.

Lemma init_schema_steps E w :
  pres (trace_ext (fun ev => step_of ev = Schema)) init_schema E w.
Proof. unfold init_schema. pres_go leaf_trace. Qed.

Lemma init_restart_steps E w :
  pres (trace_ext (fun ev => step_of ev = Restart)) init_restart E w.
Proof. unfold init_restart. pres_go leaf_trace. Qed.

Lemma init_syncdb_trace E w :
  trace (init_syncdb E w).2 = (trace w ++ [EvExt (OpManage syncdb)])%list.
Proof.
  unfold init_syncdb, quiet, execute_from_command_line, ext_call, try_except.
  cbv [mbind M_bind ask get modify emit mret M_ret raise]. wsimpl.
  destruct (ext_error E (OpManage syncdb)) as [e|]; [|done].
  destruct (is_CommandError e); by rewrite !log_error_run.
Qed.

Lemma init_static_trace E w :
  trace (init_static E w).2 = (trace w ++ [EvExt (OpManage collectstatic)])%list.
Proof.
  unfold init_static, quiet, execute_from_command_line, ext_call, try_except.
  cbv [mbind M_bind ask get modify emit mret M_ret raise]. wsimpl.
  destruct (ext_error E (OpManage collectstatic)) as [e|]; [|done].
  destruct (is_CommandError e); by rewrite !log_error_run.
Qed.

Lemma create_default_roles_trace E w :
  trace (create_default_roles E w).2
  = (trace w ++ [EvGetOrCreateGroup "readonly";
                 EvGetOrCreateGroup "read/write"])%list.
Proof.
  unfold create_default_roles, group_get_or_create.
  cbv [mbind M_bind modify emit]. wsimpl. by rewrite <- app_assoc.
Qed.

Lemma init_admin_steps a E w :
  pres (trace_ext (fun ev => step_of ev = Admin)) (init_admin a) E w.
Proof. unfold init_admin. pres_go leaf_trace. Qed.

Lemma init_ownership_trace E w w1 :
  init_ownership E w = (Ok tt, w1) →
  ∃ ids, passwd E !! web_username (cfg E) = Some ids ∧
    trace w1 = (trace w ++ [EvChown (log_path (cfg E)) ids.1 ids.2])%list.
Proof.
  unfold init_ownership, getpwnam, chown.
  cbv [mbind M_bind ask get modify emit mret M_ret raise]. wsimpl.
  destruct (passwd E !! _) as [ids|]; [|done].
  destruct (files w !! _); [|done].
  intros ?; simplify_eq. by exists ids.
Qed.

(** *** The certificate *)

Lemma openssl_outputs_req k c : openssl_outputs (openssl_req k c) = Some (k, c).
Proof. reflexivity. Qed.

Lemma init_tls_present E w :
  is_Some (files w !! ssl_key (cfg E)) → init_tls E w = (Ok tt, w).
Proof.
  intros Hk. unfold init_tls. cbv [mbind M_bind ask path_exists get mret M_ret].
  by rewrite bool_decide_eq_true_2.
Qed.

Lemma init_tls_absent E w :
  let k := ssl_key (cfg E) in
  let c := ssl_cert (cfg E) in
  files w !! k = None →
  ∃ r w1, init_tls E w = (r, w1) ∧
    (∀ q, q ≠ k → q ≠ c → files w1 !! q = files w !! q) ∧
    trace_ext (fun ev => step_of ev = Credentials) w w1 ∧
    EvRunCmd (openssl_req k c) ∈ new_events w w1 ∧
    (∀ out err, popen E (openssl_req k c) = Some (0, out, err) →
       r = Ok tt ∧ mode <$> files w1 !! c = Some 420).
Proof.
  intros k c Hk. unfold init_tls, run_cmd, chmod.
  cbv [mbind M_bind ask path_exists get mret M_ret emit modify raise].
  fold k c. rewrite bool_decide_eq_false_2 by (rewrite Hk; by intros [??]).
  cbn [negb]. wsimpl.
  destruct (popen E (openssl_req k c)) as [[[rc out] err]|] eqn:Hpopen.
  - rewrite log_info_run, !log_debug_run. wsimpl.
    unfold process_effect. rewrite openssl_outputs_req.
    destruct (decide (rc = 0)) as [->|Hrc].
    + rewrite decide_False by (by intros []).
      wsimpl. unfold store.
      destruct (<[k:=_]> (files w) !! c) as [f|] eqn:Hc;
        rewrite lookup_insert_eq; eexists _, _; (split; [reflexivity|]);
        wsimpl.
      all: split; [intros q ??; by rewrite !lookup_insert_ne|].
      all: split; [eexists [_; _]; split;
                   [by rewrite <- app_assoc | by repeat constructor]|].
      all: split; [erewrite new_events_app by (wsimpl; by rewrite <- app_assoc);
                   left|].
      all: intros ???; by rewrite lookup_insert_eq.
    + rewrite decide_True by done.
      destruct (leaves_key E (openssl_req k c));
        (eexists _, _; split; [reflexivity|]); wsimpl.
      all: split; [intros q ??; by rewrite ?lookup_insert_ne|].
      all: split; [eexists [_]; split; [done | by repeat constructor]|].
      all: split; [erewrite new_events_app by (wsimpl; reflexivity); left|].
      all: intros ?? ?; simplify_eq.
  - eexists _, _. split; [reflexivity|]. wsimpl.
    split; [done|].
      split; [eexists [_]; split; [done | by repeat constructor]|].
    split; [erewrite new_events_app by (wsimpl; reflexivity); left|].
    intros ?? ?; simplify_eq.
Qed.

(** *** What the whole run keeps *)

Lemma init_secret_trace E w w1 r :
  init_secret E w = (r, w1) →
  trace w1 = trace w ∨
  (files w !! secret_key_path (cfg E) = None ∧
   trace w1 = (trace w ++ [EvWrite (secret_key_path (cfg E))])%list).
Proof.
  intros Hrun.
  destruct (init_secret_run E w) as (w1' & Hrun' & _ & _ & Hex & Habs).
  rewrite Hrun' in Hrun. simplify_eq.
  destruct (files w !! secret_key_path (cfg E)) eqn:Hp.
  - left. by apply Hex.
  - right. destruct Habs as (s & _ & ? & _); done.
Qed.

Lemma init_secret_keeps ps E w : pres (keeps ps) init_secret E w.
Proof.
  intros r w1 Hrun Hall p Hp.
  destruct (init_secret_run E w) as (w1' & Hrun' & _ & _ & Hex & Habs).
  rewrite Hrun' in Hrun. simplify_eq.
  destruct (files w !! secret_key_path (cfg E)) eqn:Hsec.
  - destruct Hex as [-> _]; done.
  - destruct Habs as (s & -> & _); [done|].
    rewrite lookup_insert_ne; [done|]. intros <-.
    destruct (Hall _ Hp) as [f Hf]. congruence.
Qed.

Lemma init_tls_keeps ps E w :
  tls_safe ps E →
  pres (keeps ps) init_tls E w.
Proof.
  intros Hps r w1 Hrun Hall p Hp.
  destruct (files w !! ssl_key (cfg E)) as [f|] eqn:Hk.
  - rewrite init_tls_present in Hrun by by eexists. by simplify_eq.
  - destruct Hps as [Hin|Hout].
    + destruct (Hall _ Hin) as [f Hf]. congruence.
    + destruct (init_tls_absent E w Hk) as (r' & w1' & Hrun' & Hframe & _).
      rewrite Hrun' in Hrun. simplify_eq.
      rewrite Hframe; [done|intros ->; tauto..].
Qed.

Lemma blocks_pres (R : relation world) `{!PreOrder R} a E w :
  (∀ w, pres R init_secret E w) →
  (∀ w, pres R init_schema E w) →
  (∀ w, pres R (init_mid a) E w) →
  (∀ w, pres R init_tls E w) →
  (∀ w, pres R init_restart E w) →
  R w (initialize a E w).2.
Proof.
  intros H1 H2 H3 H4 H5.
  assert (pres R (init_secret;; init_schema;; init_mid a;; init_tls;;
                  init_restart) E w) as Hall.
  { repeat (apply pres_bind; [done|done|intros ? ? _]). done. }
  apply (Hall (initialize a E w).1). rewrite <- initialize_five.
  by destruct (initialize a E w).
Qed.

Lemma initialize_keeps ps a E w :
  tls_safe ps E →
  keeps ps w (initialize a E w).2.
Proof.
  intros Hps. apply blocks_pres; [tc_solve|..]; intros w0.
  - apply init_secret_keeps.
  - eapply pres_weaken, init_schema_data. intros ?. apply same_data_keeps.
  - eapply pres_weaken, init_mid_data. intros ?. apply same_data_keeps.
  - by apply init_tls_keeps.
  - eapply pres_weaken, init_restart_data. intros ?. apply same_data_keeps.
Qed.



(** *** Around the certificate block *)

Lemma initialize_three a E w :
  initialize a E w = (init_pre a;; init_tls;; init_restart) E w.
Proof.
  rewrite initialize_five. unfold init_pre.
  cbv [mbind M_bind]. repeat first [ reflexivity | split_match ].
Qed.

Lemma init_pre_keeps ps a E w : pres (keeps ps) (init_pre a) E w.
Proof.
  unfold init_pre.
  apply pres_bind; [tc_solve|apply init_secret_keeps|intros _ ? _].
  apply pres_bind; [tc_solve| |intros _ ? _].
  - eapply pres_weaken, init_schema_data. intros ?. apply same_data_keeps.
  - eapply pres_weaken, init_mid_data. intros ?. apply same_data_keeps.
Qed.

Lemma init_pre_steps a E w :
  pres (trace_ext (not_step Credentials)) (init_pre a) E w.
Proof.
  unfold init_pre.
  apply pres_bind; [tc_solve| |intros _ ? _].
  - intros r w1 [Ht|[_ Ht]]%init_secret_trace.
    + exists []. by rewrite app_nil_r.
    + eexists [_]. split; [done|]. by repeat constructor.
  - unfold init_schema, init_mid, not_step. pres_go leaf_trace.
Qed.

Lemma init_restart_not_credentials E w :
  pres (trace_ext (not_step Credentials)) init_restart E w.
Proof. unfold init_restart, not_step. pres_go leaf_trace. Qed.

(** C6.  When the key file exists, [initialize] keeps content and permission
    bits of the key, also of the certificate if that exists, and performs
    no event of the credential step (no generation, no [chmod]).  When the
    generator ran and succeeded, the certificate ends with mode [0644],
    which is world-readable. *)
Theorem initialize_tls_pair a E w :
  let k := ssl_key (cfg E) in
  let c := ssl_cert (cfg E) in
  let w' := (initialize a E w).2 in
  (is_Some (files w !! k) →
     file_data <$> files w' !! k = file_data <$> files w !! k ∧
     (is_Some (files w !! c) →
        file_data <$> files w' !! c = file_data <$> files w !! c) ∧
     Forall (not_step Credentials) (new_events w w')) ∧
  (∀ out err, popen E (openssl_req k c) = Some (0, out, err) →
     EvRunCmd (openssl_req k c) ∈ new_events w w' →
     ∃ f, files w' !! c = Some f ∧ mode f = 420 ∧ world_readable (mode f) = true).
Proof.
  intros k c w'.
  assert (∀ t, Forall (not_step Credentials) t → EvRunCmd (openssl_req k c) ∉ t)
    as Hnot.
  { intros t Ht Hin. rewrite Forall_forall in Ht. by destruct (Ht _ Hin). }
  destruct (init_pre a E w) as [r3 w3] eqn:Hpre.
  destruct (init_pre_steps a E w _ _ Hpre) as (t3 & Ht3 & Hall3).
  pose proof (fun ps => init_pre_keeps ps a E w _ _ Hpre) as Hkeep3.
  assert (initialize a E w =
          match r3 with
          | Ok _ => (init_tls;; init_restart) E w3
          | Raise e => (Raise e, w3)
          end) as Hinit.
  { by rewrite initialize_three, bind_run, Hpre. }
  split.
  - intros Hk. split; [|split].
    + apply (initialize_keeps [k] a E w); [by left; left| |left].
      by intros q ->%list_elem_of_singleton.
    + intros Hc. apply (initialize_keeps [k; c] a E w); [by left; left| |].
      * intros q. rewrite !elem_of_cons, elem_of_nil. by intros [->|[->|[]]].
      * right; left.
    + unfold w'. rewrite Hinit. destruct r3 as [[]|e].
      * rewrite bind_run, init_tls_present.
        2:{ apply (fmap_is_Some file_data). rewrite (Hkeep3 [k]); [|..|left].
            - by apply fmap_is_Some.
            - by intros q ->%list_elem_of_singleton. }
        destruct (init_restart E w3) as [r5 w5] eqn:Hrestart.
        destruct (init_restart_not_credentials E w3 _ _ Hrestart)
          as (t5 & Ht5 & Hall5). cbn [snd].
        rewrite (new_events_app w w5 (t3 ++ t5)).
        -- by apply Forall_app.
        -- by rewrite Ht5, Ht3, app_assoc.
      * cbn [snd]. by rewrite (new_events_app w w3 t3).
  - intros out err Hpopen. unfold w'. rewrite Hinit. destruct r3 as [[]|e].
    + rewrite bind_run.
      destruct (files w3 !! k) as [fk|] eqn:Hk3.
      * rewrite init_tls_present by by eexists.
        destruct (init_restart E w3) as [r5 w5] eqn:Hrestart.
        destruct (init_restart_not_credentials E w3 _ _ Hrestart)
          as (t5 & Ht5 & Hall5). cbn [snd].
        rewrite (new_events_app w w5 (t3 ++ t5))
          by (by rewrite Ht5, Ht3, app_assoc).
        intros []%Hnot. by apply Forall_app.
      * destruct (init_tls_absent E w3 Hk3) as (r4 & w4 & -> & _ & _ & _ & Hok).
        destruct (Hok out err Hpopen) as [-> Hmode].
        destruct (init_restart E w4) as [r5 w5] eqn:Hrestart.
        pose proof (init_restart_data E w4 _ _ Hrestart c) as Hd. cbn [snd].
        intros _. fold c in Hmode.
        destruct (files w4 !! c) as [f4|]; [|done].
        destruct (files w5 !! c) as [f5|]; [|done].
        injection Hd as _ Hm. injection Hmode as Hm4.
        exists f5. rewrite Hm, Hm4. done.
    + cbn [snd]. rewrite (new_events_app w w3 t3) by done. by intros []%Hnot.
Qed.

(** *** The order of the steps *)

Lemma strictly_then P w1 w2 w3 :
  strictly P w1 w2 → trace_ext P w2 w3 → strictly P w1 w3.
Proof.
  intros (t1 & H1 & F1 & Hne) (t2 & H2 & F2). exists (t1 ++ t2)%list.
  split; [by rewrite H2, H1, app_assoc|]. split; [by apply Forall_app|].
  by destruct t1.
Qed.

Lemma strict_bind {A B} P (m : M A) (f : A → M B) E w :
  pres (strictly P) m E w →
  (∀ a w1, m E w = (Ok a, w1) → pres (trace_ext P) (f a) E w1) →
  pres (strictly P) (m ≫= f) E w.
Proof.
  intros Hm Hf r w' [(a & w1 & H1 & H2)|(e & H1 & _)]%bind_inv.
  - eapply strictly_then; [by eapply Hm | by eapply Hf].
  - by eapply Hm.
Qed.

Lemma strict_try_except {A} P (body : M A) handles handler E w :
  pres (strictly P) body E w →
  (∀ e w1, body E w = (Raise e, w1) → handles e = true →
           pres (trace_ext P) (handler e) E w1) →
  pres (strictly P) (try_except body handles handler) E w.
Proof.
  intros Hb Hh r w'. unfold try_except.
  destruct (body E w) as [[a|e] w1] eqn:Hbody.
  - intros ?; simplify_eq. by eapply Hb.
  - destruct (handles e) eqn:He.
    + intros H. eapply strictly_then; [by eapply Hb | by eapply Hh].
    + intros ?; simplify_eq. by eapply Hb.
Qed.

Lemma run_cmd_strict (P : event → Prop) cmd msg E w :
  P (EvRunCmd cmd) → pres (strictly P) (run_cmd cmd msg) E w.
Proof.
  intros HP r w' Hrun. pose proof (run_cmd_trace cmd msg E w) as Ht.
  rewrite Hrun in Ht. exists [EvRunCmd cmd]. split; [done|].
  split; [by repeat constructor|done].
Qed.

Lemma init_restart_strict E w :
  pres (strictly (fun ev => step_of ev = Restart)) init_restart E w.
Proof.
  unfold init_restart. intros r w'. rewrite bind_run, log_info_run. intros Hrun.
  assert (strictly (fun ev => step_of ev = Restart)
            (set_log_tmp (log_tmp w ++ [(INFO, "Restarting services...")]) w) w')
    as (t & Ht & Hall & Hne); [|by exists t].
  revert Hrun. apply strict_bind.
  - unfold setup_supervisor. apply strict_bind.
    + apply strict_try_except.
      * apply strict_bind; [by apply run_cmd_strict|]. intros. pres_go leaf_trace.
      * intros. pres_go leaf_trace.
    + intros. pres_go leaf_trace.
  - intros. pres_go leaf_trace.
Qed.

Lemma init_tls_steps E w :
  pres (trace_ext (fun ev => step_of ev = Credentials)) init_tls E w.
Proof. unfold init_tls. pres_go leaf_trace. Qed.

Lemma ordered_from_nil k : ordered_from k [].
Proof. split; constructor. Qed.

Lemma ordered_from_app s k t1 t2 :
  in_step s t1 → (code_order s ≤ k)%nat → ordered_from k t2 →
  ordered_from (code_order s) (t1 ++ t2).
Proof.
  intros H1 Hle [Hs H2]. unfold ordered_from, follows_code_order in *.
  induction H1 as [|ev t1 Hev _ [IHs IHf]]; simpl.
  - split; [done|]. eapply Forall_impl; [done|]. simpl. lia.
  - split.
    + constructor; [done|]. rewrite Hev. by apply Forall_fmap.
    + constructor; [by rewrite Hev | done].
Qed.

(** C2 (amended).  The events of a successful run of [initialize] come in the
    order of the code: secret key, schema, secondary sync, roles, admin
    account, static files, ownership fix, credentials, restart; the
    ownership fix precedes the credential bootstrap, which precedes the
    restart.  Schema, sync, roles, static files, ownership and restart
    always occur. *)
Theorem initialize_step_order a E w w' :
  initialize a E w = (Ok tt, w') →
  ∃ t1 t2 t3 t4 t5 t6 t7 t8 t9,
    new_events w w' = (t1 ++ t2 ++ t3 ++ t4 ++ t5 ++ t6 ++ t7 ++ t8 ++ t9)%list ∧
    in_step SecretKey t1 ∧ in_step Schema t2 ∧ in_step SecondarySync t3 ∧
    in_step Roles t4 ∧ in_step Admin t5 ∧ in_step StaticFiles t6 ∧
    in_step Ownership t7 ∧ in_step Credentials t8 ∧ in_step Restart t9 ∧
    t2 ≠ [] ∧ t3 ≠ [] ∧ t4 ≠ [] ∧ t6 ≠ [] ∧ t7 ≠ [] ∧ t9 ≠ [] ∧
    follows_code_order (new_events w w').
Proof.
  rewrite initialize_blocks. unfold init_rest.
  intros ([] & w1 & H1 & H)%bind_ok. apply bind_ok in H as ([] & w2 & H2 & H).
  apply bind_ok in H as ([] & w3 & H3 & H).
  apply bind_ok in H as ([] & w4 & H4 & H).
  apply bind_ok in H as ([] & w5 & H5 & H).
  apply bind_ok in H as ([] & w6 & H6 & H).
  apply bind_ok in H as ([] & w7 & H7 & H).
  apply bind_ok in H as ([] & w8 & H8 & H9).
  assert (∃ t1, trace w1 = (trace w ++ t1)%list ∧ in_step SecretKey t1)
    as (t1 & Ht1 & F1).
  { destruct (init_secret_trace _ _ _ _ H1) as [Ht|[_ Ht]].
    - exists []. rewrite app_nil_r. by split; [|constructor].
    - eexists. split; [done|]. by repeat constructor. }
  destruct (init_schema_steps _ _ _ _ H2) as (t2 & Ht2 & F2).
  assert (t2 ≠ []) as N2.
  { destruct (init_schema_run E w1) as (r & w2' & Hrun & _ & _ & Ht).
    rewrite H2 in Hrun. simplify_eq. rewrite Ht2 in Ht.
    apply app_inv_head in Ht. by rewrite Ht. }
  pose proof (init_syncdb_trace E w2) as Ht3. rewrite H3 in Ht3.
  pose proof (create_default_roles_trace E w3) as Ht4. rewrite H4 in Ht4.
  destruct (init_admin_steps _ _ _ _ _ H5) as (t5 & Ht5 & F5).
  pose proof (init_static_trace E w5) as Ht6. rewrite H6 in Ht6.
  destruct (init_ownership_trace _ _ _ H7) as (ids & _ & Ht7).
  destruct (init_tls_steps _ _ _ _ H8) as (t8 & Ht8 & F8).
  destruct (init_restart_strict _ _ _ _ H9) as (t9 & Ht9 & F9 & N9).
  cbn [snd] in Ht3, Ht4, Ht6.
  eexists t1, t2, _, _, t5, _, _, t8, t9.
  assert (new_events w w' = (t1 ++ t2 ++ [EvExt (OpManage syncdb)] ++
            [EvGetOrCreateGroup "readonly"; EvGetOrCreateGroup "read/write"] ++
            t5 ++ [EvExt (OpManage collectstatic)] ++
            [EvChown (log_path (cfg E)) ids.1 ids.2] ++ t8 ++ t9)%list) as Hnew.
  { apply new_events_app.
    rewrite Ht9, Ht8, Ht7, Ht6, Ht5, Ht4, Ht3, Ht2, Ht1, <- !app_assoc. done. }
  split; [exact Hnew|].
  assert (in_step SecondarySync [EvExt (OpManage syncdb)]) as F3
    by (by repeat constructor).
  assert (in_step Roles [EvGetOrCreateGroup "readonly";
                        EvGetOrCreateGroup "read/write"]) as F4
    by (by repeat constructor).
  assert (in_step StaticFiles [EvExt (OpManage collectstatic)]) as F6
    by (by repeat constructor).
  assert (in_step Ownership [EvChown (log_path (cfg E)) ids.1 ids.2]) as F7
    by (by repeat constructor).
  do 15 (split; [done|]).
  rewrite Hnew.
  assert (ordered_from (code_order Restart) t9) as O9.
  { rewrite <- (app_nil_r t9).
    by eapply ordered_from_app, ordered_from_nil. }
  eapply (ordered_from_app SecretKey); [done| |].
  2: eapply (ordered_from_app Schema); [done| |].
  3: eapply (ordered_from_app SecondarySync); [done| |].
  4: eapply (ordered_from_app Roles); [done| |].
  5: eapply (ordered_from_app Admin); [done| |].
  6: eapply (ordered_from_app StaticFiles); [done| |].
  7: eapply (ordered_from_app Ownership); [done| |].
  8: eapply (ordered_from_app Credentials); [done| |exact O9].
  all: simpl; lia.
Qed.

(** ** Worked instances *)

Lemma unique_usernames_singleton k u : unique_usernames {[k := u]}.
Proof.
  intros k1 k2 u1 u2 [<- _]%lookup_singleton_Some [<- _]%lookup_singleton_Some _.
  done.
Qed.

Lemma initialize_fresh_install :
  initialize (no_args cmd_initialize) rhel_host fresh_install
  = (Ok tt, (initialize (no_args cmd_initialize) rhel_host fresh_install).2).
Proof. vm_compute. reflexivity. Qed.

(** A fresh installation: the schema is created and stamped. *)
Lemma initialize_schema_decision_witness :
  (ALEMBIC_TABLE ∉ model_tables rhel_host) ∧
  filter is_reconcile
    (new_events fresh_install
       (initialize (no_args cmd_initialize) rhel_host fresh_install).2)
  = [EvExt OpCreateAll; EvExt (OpStamp "head")].
Proof.
  assert (ALEMBIC_TABLE ∉ model_tables rhel_host) as Hmodel.
  { intros Hin. vm_compute in Hin. discriminate. }
  split; [exact Hmodel|].
  destruct (initialize_schema_decision (no_args cmd_initialize) rhel_host
              fresh_install Hmodel) as [Habs _].
  apply Habs; [reflexivity|].
  intros Hin. vm_compute in Hin. discriminate.
Defined.

(** The order the specification states fails on a fresh installation: the
    log file changes owner before the certificate is generated. *)
Lemma stated_order_fails : ¬ stated_order_holds.
Proof.
  intros H.
  specialize (H _ _ _ _ initialize_fresh_install).
  unfold follows_stated_order in H. vm_compute in H.
  rewrite !StronglySorted_cons, !Forall_cons in H.
  lia.
Qed.

(** A fresh installation initializes in the order of the code. *)
Lemma initialize_step_order_witness :
  initialize (no_args cmd_initialize) rhel_host fresh_install
  = (Ok tt, (initialize (no_args cmd_initialize) rhel_host fresh_install).2) ∧
  follows_code_order
    (new_events fresh_install
       (initialize (no_args cmd_initialize) rhel_host fresh_install).2).
Proof.
  assert (initialize (no_args cmd_initialize) rhel_host fresh_install
          = (Ok tt, (initialize (no_args cmd_initialize) rhel_host
                       fresh_install).2)) as Hrun.
  { vm_compute. reflexivity. }
  split; [exact Hrun|].
  destruct (initialize_step_order _ _ _ _ Hrun)
    as (t1 & t2 & t3 & t4 & t5 & t6 & t7 & t8 & t9 & H).
  apply H.
Defined.

(** [add_user bob] when bob exists: status 1. *)
Lemma main_error_policy_witness :
  privileged (for_user cmd_add_user "bob") rhel_host ∧
  (main (for_user cmd_add_user "bob") rhel_host installed).1 = 1 ∧
  files (main (for_user cmd_add_user "bob") rhel_host installed).2
  = files installed.
Proof.
  assert (privileged (for_user cmd_add_user "bob") rhel_host) as Hp.
  { right. reflexivity. }
  split; [exact Hp|].
  destruct (main_error_policy (for_user cmd_add_user "bob") rhel_host installed
              Hp) as [Hdup _].
  apply Hdup; [reflexivity|discriminate|].
  vm_compute. discriminate.
Defined.

(** C3 as stated fails: [change_password ghost] without [--password], on a
    host where the management command fails with a [CommandError], ends
    with status 1 and no crash report. *)
Lemma command_error_is_not_reported : ¬ every_other_failure_is_reported.
Proof.
  intros H.
  assert (∃ w1, main_body (for_user cmd_change_password "ghost")
                  command_error_host installed = (Raise (SystemExit 1), w1))
    as [w1 Hrun] by (eexists; vm_compute; reflexivity).
  assert (privileged (for_user cmd_change_password "ghost") command_error_host)
    as Hp by (right; reflexivity).
  destruct (H _ _ _ _ _ Hp Hrun) as [f Hf].
  - intros [_ He]. discriminate.
  - vm_compute in Hf. discriminate.
Qed.

(** A host without [supervisord]: [supervisor] is never stopped. *)
Lemma setup_supervisor_stops_at_first_failure_witness :
  popen ubuntu_host ["systemctl"; "stop"; "supervisord"]
  = Some (5, EmptyString,
          "Failed to stop supervisord.service: Unit supervisord.service not loaded.") ∧
  5 ≠ 0 ∧
  ∃ t, new_events fresh_install (setup_supervisor ubuntu_host fresh_install).2
       = EvRunCmd ["systemctl"; "stop"; "supervisord"] :: t ∧
       t `prefix_of` [EvRunCmd ["systemctl"; "enable"; service];
                      EvRunCmd ["systemctl"; "restart"; service];
                      EvRunCmd ["systemctl"; "set-property"; service;
                                "MemoryLimit=300M"]].
Proof.
  split; [reflexivity|]. split; [lia|].
  apply (setup_supervisor_stops_at_first_failure ubuntu_host fresh_install 5
           EmptyString
           "Failed to stop supervisord.service: Unit supervisord.service not loaded.");
    [reflexivity|lia].
Defined.

(** What the run on the host without [supervisord] executes. *)
Lemma setup_supervisor_on_ubuntu :
  (setup_supervisor ubuntu_host fresh_install).1 = Ok tt ∧
  new_events fresh_install (setup_supervisor ubuntu_host fresh_install).2
  = [EvRunCmd ["systemctl"; "stop"; "supervisord"];
     EvRunCmd ["systemctl"; "enable"; service];
     EvRunCmd ["systemctl"; "restart"; service];
     EvRunCmd ["systemctl"; "set-property"; service; "MemoryLimit=300M"]].
Proof. split; vm_compute; reflexivity. Qed.


(** [assign_role bob --role ghost]: bob loses the role [readonly]. *)
Lemma assign_role_unknown_role_clears_groups_witness :
  unique_usernames (auth_user installed) ∧
  auth_user installed !! 1%nat = Some bob ∧
  username bob = args.username (with_role "bob" "ghost") ∧
  args.role_name (with_role "bob" "ghost") ≠ "superuser" ∧
  (args.role_name (with_role "bob" "ghost") ∉ auth_group installed) ∧
  groups_of 1 installed = {["readonly"]} ∧
  ∃ w', assign_role (with_role "bob" "ghost") rhel_host installed
        = (Raise (CalamariUserError "Group matching query does not exist."), w')
    ∧ auth_user w' = auth_user installed
    ∧ groups_of 1 w' = ∅.
Proof.
  assert (unique_usernames (auth_user installed)) as Hu
    by apply unique_usernames_singleton.
  assert (auth_user installed !! 1%nat = Some bob) as Hb
    by (vm_compute; reflexivity).
  assert (args.role_name (with_role "bob" "ghost") ≠ "superuser") as Hr
    by discriminate.
  assert (args.role_name (with_role "bob" "ghost") ∉ auth_group installed) as Hg.
  { intros Hin. vm_compute in Hin. discriminate. }
  split; [exact Hu|]. split; [exact Hb|]. split; [reflexivity|].
  split; [exact Hr|]. split; [exact Hg|].
  split; [vm_compute; reflexivity|].
  destruct (assign_role_unknown_role_clears_groups (with_role "bob" "ghost")
              rhel_host installed 1%nat bob Hu Hb eq_refl Hr Hg)
    as (w' & Hrun & Husers & Hgroups & _).
  exists w'. split; [exact Hrun|]. split; [exact Husers|exact Hgroups].
Defined.

(** [enable_user ghost]: a crash report, status 0. *)
Lemma toggle_missing_user_crash_report_witness :
  args.func (for_user cmd_enable_user "ghost")
    ∈ [cmd_enable_user; cmd_disable_user] ∧
  privileged (for_user cmd_enable_user "ghost") rhel_host ∧
  rows_named (args.username (for_user cmd_enable_user "ghost"))
    (auth_user installed) = [] ∧
  (main (for_user cmd_enable_user "ghost") rhel_host installed).1 = 0 ∧
  is_Some (files (main (for_user cmd_enable_user "ghost") rhel_host installed).2
             !! debug_filename rhel_host).
Proof.
  assert (args.func (for_user cmd_enable_user "ghost")
            ∈ [cmd_enable_user; cmd_disable_user]) as Hf by left.
  assert (privileged (for_user cmd_enable_user "ghost") rhel_host) as Hp
    by (right; reflexivity).
  assert (rows_named (args.username (for_user cmd_enable_user "ghost"))
            (auth_user installed) = []) as Hn by (vm_compute; reflexivity).
  split; [exact Hf|]. split; [exact Hp|]. split; [exact Hn|].
  destruct (toggle_missing_user_crash_report _ _ _ Hf Hp Hn) as (_ & Hs & Hc).
  split; [exact Hs|].
  apply (fmap_is_Some content). rewrite Hc. by eexists.
Defined.

(** [rename_user alice carol] without alice: logged, nothing raised. *)
Lemma rename_user_outcomes_witness :
  unique_usernames (auth_user installed) ∧
  ∃ w', rename_user (renaming "alice" "carol") rhel_host installed = (Ok tt, w')
    ∧ same_accounts installed w'
    ∧ log_tmp w' = [(ERROR, "User 'alice' does not exist.")].
Proof.
  assert (unique_usernames (auth_user installed)) as Hu
    by apply unique_usernames_singleton.
  split; [exact Hu|].
  destruct (rename_user_outcomes (renaming "alice" "carol") rhel_host installed
              Hu) as [_ Hmissing].
  destruct Hmissing as (w' & Hrun & Hacc & _ & Hlog);
    [vm_compute; reflexivity..|].
  exists w'. split; [exact Hrun|]. split; [exact Hacc|exact Hlog].
Defined.

(** A run that finds the key generates nothing; a run on a fresh
    installation, where files are created with mode 0600, ends with a
    certificate of mode 0644. *)
Lemma initialize_tls_pair_witness :
  is_Some (files installed !! ssl_key (cfg rhel_host)) ∧
  Forall (not_step Credentials)
    (new_events installed
       (initialize (no_args cmd_initialize) rhel_host installed).2) ∧
  creation_mode rhel_host = 384 ∧
  ∃ f, files (initialize (no_args cmd_initialize) rhel_host fresh_install).2
         !! ssl_cert (cfg rhel_host) = Some f ∧
       mode f = 420 ∧ world_readable (mode f) = true.
Proof.
  assert (is_Some (files installed !! ssl_key (cfg rhel_host))) as Hkey.
  { vm_compute. by eexists. }
  split; [exact Hkey|].
  destruct (initialize_tls_pair (no_args cmd_initialize) rhel_host installed)
    as [Hidle _].
  destruct (Hidle Hkey) as (_ & _ & Hnone).
  split; [exact Hnone|]. split; [reflexivity|].
  destruct (initialize_tls_pair (no_args cmd_initialize) rhel_host
              fresh_install) as [_ Hgen].
  apply (Hgen EmptyString EmptyString); [reflexivity|].
  apply list_elem_of_In. vm_compute. auto 20.
Defined.

(** [initialize] with the three administrator options creates the
    superuser. *)
Lemma create_admin_users_all_three_witness :
  truthy (args.admin_username admin_args) = true ∧
  truthy (args.admin_password admin_args) = true ∧
  truthy (args.admin_email admin_args) = true ∧
  rows_named "admin" (auth_user fresh_install) = [] ∧
  (create_admin_users admin_args rhel_host fresh_install).1 = Ok tt ∧
  ∃ k u, auth_user (create_admin_users admin_args rhel_host fresh_install).2
         = <[k := u]> (auth_user fresh_install) ∧
         username u = "admin" ∧ password u = Hashed "calamari" ∧
         is_superuser u = true.
Proof.
  split; [reflexivity|]. split; [reflexivity|]. split; [reflexivity|].
  split; [reflexivity|].
  destruct (create_admin_users_all_three admin_args rhel_host fresh_install)
    as (_ & Hcreate & _).
  destruct Hcreate as (Hok & k & u & _ & Hk & Hname & Hpw & _ & _ & Hsuper);
    [reflexivity..|].
  split; [exact Hok|]. exists k, u.
  split; [exact Hk|]. split; [exact Hname|]. split; [exact Hpw|exact Hsuper].
Defined.

(** ** Small evaluations *)

Example strftime_example : strftime (Tm 2014 7 1 9 5) = "2014-07-01_0905".
Proof. vm_compute. reflexivity. Qed.

Example debug_filename_example :
  debug_filename rhel_host = "/tmp/2014-07-01_0905.txt".
Proof. vm_compute. reflexivity. Qed.

(** A [KeyError] prints the [repr] of its key. *)
Example str_KeyError_example :
  str (KeyError "getpwnam(): name not found: apache")
  = "'getpwnam(): name not found: apache'".
Proof. vm_compute. reflexivity. Qed.

Example repr_example :
  repr "user 'ghost'"
  = String double_quote "user 'ghost'" ++ String double_quote EmptyString.
Proof. vm_compute. reflexivity. Qed.

Example format_exc_example :
  format_exc rhel_host (DoesNotExist UserModel "User matching query does not exist.")
  = "Traceback (most recent call last):" ++ nl
    ++ main_frame KeyboardInterrupt
    ++ "DoesNotExist: User matching query does not exist." ++ nl.
Proof. vm_compute. reflexivity. Qed.

Example final_line_example :
  final_line (ValueError EmptyString) = "ValueError" ++ nl.
Proof. vm_compute. reflexivity. Qed.

Example exit_status_example :
  exit_status (SystemExit 1) = 1 ∧ exit_status (SystemExit 256) = 0
  ∧ exit_status KeyboardInterrupt = 1.
Proof. vm_compute. done. Qed.

Example lower_domain_example :
  lower_domain " Alice@Example.COM " = "Alice@example.com"
  ∧ lower_domain "nobody" = "nobody".
Proof. vm_compute. done. Qed.

(** [change_password ghost] without [--password], the management command
    failing with a [CommandError]: the process ends with status 1, nothing
    is logged and nothing is written. *)
Example change_password_ghost_example :
  let r := main (for_user cmd_change_password "ghost") command_error_host
                installed in
  r.1 = 1 ∧ files r.2 = files installed ∧ log_tmp r.2 = [] ∧
  new_events installed r.2 = [EvExt changepassword_ghost].
Proof. vm_compute. done. Qed.

Example openssl_outputs_example :
  openssl_outputs (openssl_req "-out" "cert.pem") = Some ("-out", "cert.pem") ∧
  openssl_outputs ["systemctl"; "restart"; service] = None.
Proof. split; reflexivity. Qed.

Example secret_key_example :
  content <$> files (init_secret rhel_host fresh_install).2
                !! "/etc/calamari/secret.key"
  = Some (Text "dkry5#-cjqx4@(bipw3!*ahov29&)gnu18^+fmt07%=elsz6$_").
Proof. vm_compute. reflexivity. Qed.

(** Without root privileges and without [--devmode] nothing is run. *)
Example unprivileged_example :
  let E := Env example_config (popen rhel_host) (ext_error rhel_host)
               (ext_output rhel_host) (model_tables rhel_host)
               (passwd rhel_host) 1000 1000 18 (gmtime rhel_host)
               (random_index rhel_host) (argv rhel_host)
               (leaves_key rhel_host) (integrity_message rhel_host)
               (normalize_email rhel_host) (traceback_frames rhel_host) in
  let r := main (for_user cmd_disable_user "bob") E installed in
  r.1 = 0 ∧ auth_user r.2 = auth_user installed ∧
  log_tmp r.2 = [(ERROR, "Need root privileges to run")].
Proof. vm_compute. done. Qed.

(** [assign_role bob --role superuser] and [--role read/write]. *)
Example assign_role_example :
  let r1 := assign_role (with_role "bob" "superuser") rhel_host installed in
  let r2 := assign_role (with_role "bob" "read/write") rhel_host installed in
  r1.1 = Ok tt ∧ groups_of 1 r1.2 = ∅ ∧
  is_superuser <$> auth_user r1.2 !! 1%nat = Some true ∧
  r2.1 = Ok tt ∧ groups_of 1 r2.2 = {["read/write"]} ∧
  is_superuser <$> auth_user r2.2 !! 1%nat = Some false.
Proof. vm_compute. done. Qed.

(** * Further properties of the code *)

(** ** run_cmd and the log *)

(** X1.  [run_cmd] never puts the output of the process into the log: the
    two [log.debug] lines fall below the logger's level INFO, so the log
    gains the message, when one was given and the process could be started,
    and nothing else, whatever the process printed and whether or not it
    failed. *)
Theorem run_cmd_log_excludes_output cmd msg E w :
  log_tmp (run_cmd cmd msg E w).2 =
  (log_tmp w ++ match popen E cmd with
                | Some _ => message_records msg
                | None => []
                end)%list.
Proof.
  unfold run_cmd. cbv [mbind M_bind ask emit modify].
  destruct (popen E cmd) as [[[rc out] err]|]; [|by rewrite app_nil_r].
  destruct msg; simpl; destruct (decide (rc ≠ 0)); simpl;
    by rewrite ?app_nil_r.
Qed.

(** ** setup_supervisor *)

Lemma succeeds_run cmd msg E w :
  succeeds E cmd →
  ∃ w', run_cmd cmd msg E w = (Ok tt, w') ∧
        trace w' = (trace w ++ [EvRunCmd cmd])%list.
Proof.
  intros (out & err & Hp).
  pose proof (run_cmd_result cmd msg E w) as Hr.
  pose proof (run_cmd_trace cmd msg E w) as Ht.
  destruct (run_cmd cmd msg E w) as [r w']. simpl in Hr, Ht.
  rewrite Hp in Hr. rewrite decide_False in Hr by (by intros []).
  subst r. by exists w'.
Qed.

(** X2.  When all seven commands return 0, [setup_supervisor] returns
    normally and has run exactly the four legacy commands and the three
    commands of the target service, in the order of the code. *)
Theorem setup_supervisor_all_succeed E w :
  Forall (succeeds E) (legacy_commands ++ target_commands) →
  (setup_supervisor E w).1 = Ok tt ∧
  new_events w (setup_supervisor E w).2
  = map EvRunCmd (legacy_commands ++ target_commands).
Proof.
  intros H. simpl in H.
  apply Forall_cons in H as [H1 H]. apply Forall_cons in H as [H2 H].
  apply Forall_cons in H as [H3 H]. apply Forall_cons in H as [H4 H].
  apply Forall_cons in H as [H5 H]. apply Forall_cons in H as [H6 H].
  apply Forall_cons in H as [H7 _].
  unfold setup_supervisor, try_except. cbv [mbind M_bind mret M_ret].
  destruct (succeeds_run _ None E w H1) as (w1 & -> & T1). cbn beta iota.
  destruct (succeeds_run _ None E w1 H2) as (w2 & -> & T2). cbn beta iota.
  destruct (succeeds_run _ None E w2 H3) as (w3 & -> & T3). cbn beta iota.
  destruct (succeeds_run _ None E w3 H4) as (w4 & -> & T4). cbn beta iota.
  destruct (succeeds_run _ None E w4 H5) as (w5 & -> & T5). cbn beta iota.
  destruct (succeeds_run _ None E w5 H6) as (w6 & -> & T6). cbn beta iota.
  destruct (succeeds_run _ None E w6 H7) as (w7 & -> & T7). cbn beta iota.
  split; [done|]. apply new_events_app. cbn [snd].
  rewrite T7, T6, T5, T4, T3, T2, T1, <- !app_assoc. done.
Qed.

Lemma run_cmd_ok_iff cmd msg E w :
  starts E cmd →
  (run_cmd cmd msg E w).1 = Ok tt ↔ succeeds E cmd.
Proof.
  intros [[[rc out] err] Hp]. rewrite run_cmd_result, Hp. unfold succeeds.
  destruct (decide (rc ≠ 0)) as [Hrc|Hrc].
  - split; [done|]. intros (out' & err' & H). rewrite Hp in H. by simplify_eq.
  - split; [|done]. intros _. exists out, err. rewrite Hp.
    by destruct (decide (rc = 0)) as [->|].
Qed.

Lemma run_cmd_raises cmd msg E w e w' :
  starts E cmd → run_cmd cmd msg E w = (Raise e, w') → is_RuntimeError e = true.
Proof.
  intros [[[rc out] err] Hp] Hrun.
  pose proof (run_cmd_result cmd msg E w) as Hr. rewrite Hrun, Hp in Hr.
  simpl in Hr. destruct (decide (rc ≠ 0)); by simplify_eq.
Qed.

(** X3.  Provided [systemctl] can be started, [setup_supervisor]
    returns normally exactly when the three commands of the target service
    (enable, restart, set-property) all return 0: a failure of a legacy
    command never makes it fail, a failure of a target command always
    does. *)
Theorem setup_supervisor_ok_iff_target_commands E w :
  Forall (starts E) (legacy_commands ++ target_commands) →
  (setup_supervisor E w).1 = Ok tt ↔ Forall (succeeds E) target_commands.
Proof.
  intros H. simpl in H.
  apply Forall_cons in H as [H1 H]. apply Forall_cons in H as [H2 H].
  apply Forall_cons in H as [H3 H]. apply Forall_cons in H as [H4 H].
  apply Forall_cons in H as [H5 H]. apply Forall_cons in H as [H6 H].
  apply Forall_cons in H as [H7 _].
  unfold target_commands. rewrite !Forall_cons, Forall_nil.
  unfold setup_supervisor.
  assert (∃ w0, try_except
            (run_cmd ["systemctl"; "stop"; "supervisord"] None;;
             run_cmd ["systemctl"; "disable"; "supervisord"] None;;
             run_cmd ["systemctl"; "stop"; "supervisor"] None;;
             run_cmd ["systemctl"; "disable"; "supervisor"] None)
            is_RuntimeError (fun _ => mret tt) E w = (Ok tt, w0)) as [w0 Hlegacy].
  { unfold try_except. cbv [mbind M_bind mret M_ret].
    destruct (run_cmd _ None E w) as [[[]|e1] w1] eqn:R1; cbn beta iota.
    2:{ rewrite (run_cmd_raises _ _ _ _ _ _ H1 R1). by eexists. }
    destruct (run_cmd _ None E w1) as [[[]|e2] w2] eqn:R2; cbn beta iota.
    2:{ rewrite (run_cmd_raises _ _ _ _ _ _ H2 R2). by eexists. }
    destruct (run_cmd _ None E w2) as [[[]|e3] w3] eqn:R3; cbn beta iota.
    2:{ rewrite (run_cmd_raises _ _ _ _ _ _ H3 R3). by eexists. }
    destruct (run_cmd _ None E w3) as [[[]|e4] w4] eqn:R4; cbn beta iota.
    2:{ rewrite (run_cmd_raises _ _ _ _ _ _ H4 R4). by eexists. }
    by eexists. }
  rewrite bind_run, Hlegacy. cbv [mbind M_bind].
  pose proof (run_cmd_ok_iff _ None E w0 H5) as I5.
  destruct (run_cmd _ None E w0) as [[[]|e5] w5]; cbn [fst] in I5 |- *.
  2:{ split; [done|]. intros (S5 & _). by apply I5 in S5. }
  pose proof (run_cmd_ok_iff _ None E w5 H6) as I6.
  destruct (run_cmd _ None E w5) as [[[]|e6] w6]; cbn [fst] in I6 |- *.
  2:{ split; [done|]. intros (_ & S6 & _). by apply I6 in S6. }
  pose proof (run_cmd_ok_iff _ None E w6 H7) as I7.
  destruct (run_cmd _ None E w6) as [[[]|e7] w7]; cbn [fst] in I7 |- *.
  2:{ split; [done|]. intros (_ & _ & S7 & _). by apply I7 in S7. }
  split; [|done]. intros _. repeat split; [apply I5|apply I6|apply I7]; done.
Qed.

(** X4.  When the first command cannot be started at all,
    [setup_supervisor] fails with the [OSError] of [Popen]: the handler of
    the legacy block catches [RuntimeError] only, so nothing else is run
    and the target service is not enabled. *)
Theorem setup_supervisor_without_systemctl E w :
  popen E ["systemctl"; "stop"; "supervisord"] = None →
  setup_supervisor E w
  = (Raise (OSError "[Errno 2] No such file or directory"),
     set_trace (trace w ++ [EvRunCmd ["systemctl"; "stop"; "supervisord"]]) w).
Proof.
  intros Hp. unfold setup_supervisor, try_except, run_cmd.
  cbv [mbind M_bind ask emit modify raise]. by rewrite Hp.
Qed.

(** ** create_default_roles *)

(** X5.  [create_default_roles] always returns normally, adds the roles
    [readonly] and [read/write] to the roles there are, touches no account
    and no membership, and running it again changes nothing. *)
Theorem create_default_roles_idempotent E w :
  let r := create_default_roles E w in
  r.1 = Ok tt ∧
  auth_group r.2 = auth_group w ∪ {["readonly"; "read/write"]} ∧
  auth_user r.2 = auth_user w ∧
  auth_user_groups r.2 = auth_user_groups w ∧
  same_accounts r.2 (create_default_roles E r.2).2.
Proof.
  unfold create_default_roles, group_get_or_create, same_accounts.
  cbv [mbind M_bind emit modify]. wsimpl.
  repeat split; try done;
    apply set_eq; intros x; rewrite !elem_of_union; tauto.
Qed.


Lemma unique_insert_same (m : gmap nat user) pk u :
  unique_usernames m →
  Forall (fun kv : nat * user => kv.1 = pk) (rows_named (username u) m) →
  unique_usernames (<[pk := u]> m).
Proof.
  intros Hu Hall k1 k2 u1 u2 H1 H2 Hname.
  rewrite Forall_forall in Hall.
  destruct (decide (k1 = pk)) as [->|N1], (decide (k2 = pk)) as [->|N2];
    [done|..].
  - rewrite lookup_insert_eq in H1. rewrite lookup_insert_ne in H2 by done.
    simplify_eq. symmetry. apply (Hall (k2, u2)). by apply rows_named_elem.
  - rewrite lookup_insert_eq in H2. rewrite lookup_insert_ne in H1 by done.
    simplify_eq. apply (Hall (k1, u1)). by apply rows_named_elem.
  - rewrite lookup_insert_ne in H1, H2 by done. eauto.
Qed.

Lemma unique_insert_fresh (m : gmap nat user) k u :
  unique_usernames m → rows_named (username u) m = [] →
  unique_usernames (<[k := u]> m).
Proof.
  intros Hu Hnil. apply unique_insert_same; [done|]. by rewrite Hnil.
Qed.

Lemma unique_update (m : gmap nat user) pk u u' :
  unique_usernames m → m !! pk = Some u → username u' = username u →
  unique_usernames (<[pk := u']> m).
Proof.
  intros Hu Hpk Hname. apply unique_insert_same; [done|].
  rewrite Hname, (rows_named_unique m pk u) by done. by repeat constructor.
Qed.

Lemma user_save_run pk u' E w :
  Forall (fun kv : nat * user => kv.1 = pk)
         (rows_named (username u') (auth_user w)) →
  user_save pk u' E w
  = (Ok tt, set_auth_user (<[pk := u']> (auth_user w))
              (set_trace (trace w ++ [EvSaveUser pk]) w)).
Proof.
  intros Hall. unfold user_save. cbv [mbind M_bind emit modify get ask].
  change (auth_user (set_trace _ w)) with (auth_user w).
  by rewrite decide_True.
Qed.

Lemma user_save_same_name pk u u' E w :
  unique_usernames (auth_user w) → auth_user w !! pk = Some u →
  username u' = username u →
  user_save pk u' E w
  = (Ok tt, set_auth_user (<[pk := u']> (auth_user w))
              (set_trace (trace w ++ [EvSaveUser pk]) w)).
Proof.
  intros Hu Hpk Hname. apply user_save_run.
  rewrite Hname, (rows_named_unique _ pk u) by done. by repeat constructor.
Qed.

(** ** assign_role *)

Lemma assign_role_run a E w pk u :
  unique_usernames (auth_user w) →
  auth_user w !! pk = Some u →
  username u = args.username a →
  args.role_name a = "superuser" ∨ args.role_name a ∈ auth_group w →
  ∃ w', assign_role a E w = (Ok tt, w') ∧
    auth_user w' = <[pk := with_role_flag (args.role_name a) u]> (auth_user w) ∧
    auth_user_groups w'
    = <[pk := role_groups (args.role_name a)]> (auth_user_groups w) ∧
    auth_group w' = auth_group w ∧ log_tmp w' = log_tmp w ∧
    files w' = files w.
Proof.
  intros Huniq Hpk Hname Hrole.
  unfold assign_role. rewrite bind_run. unfold try_except.
  rewrite <- Hname, (user_get_found E w pk u) by done.
  rewrite bind_run. unfold user_set_groups at 1.
  cbv [mbind M_bind emit modify]. cbn beta iota.
  unfold role_groups, with_role_flag.
  destruct (decide (args.role_name a = "superuser")) as [Hs|Hs].
  - cbv [mret M_ret]. rewrite bool_decide_eq_true_2 by done.
    erewrite (user_save_same_name pk u) by done.
    eexists. split; [reflexivity|]. by wsimpl.
  - destruct Hrole as [?|Hg]; [done|].
    rewrite bool_decide_eq_false_2 by done.
    cbv [try_except group_get get user_groups_add emit modify mbind M_bind
         mret M_ret]. wsimpl.
    rewrite decide_True by done. cbn beta iota.
    erewrite (user_save_same_name pk u) by done.
    eexists. split; [reflexivity|]. wsimpl.
    rewrite lookup_insert_eq, insert_insert_eq. cbn [default].
    by rewrite union_empty_l_L.
Qed.

(** X6.  For an existing user and a role that is [superuser] or an
    existing group, [assign_role] returns normally; afterwards the user is
    a superuser exactly when the role is [superuser], and the memberships
    of the user are that role alone (none for [superuser]), whatever they
    were before; every other field of the row, every other account and the
    set of roles are as before. *)
Theorem assign_role_sets_exactly_the_role a E w pk u :
  unique_usernames (auth_user w) →
  auth_user w !! pk = Some u →
  username u = args.username a →
  args.role_name a = "superuser" ∨ args.role_name a ∈ auth_group w →
  ∃ w', assign_role a E w = (Ok tt, w') ∧
    auth_user w' = <[pk := with_role_flag (args.role_name a) u]> (auth_user w) ∧
    auth_user_groups w'
    = <[pk := role_groups (args.role_name a)]> (auth_user_groups w) ∧
    auth_group w' = auth_group w.
Proof.
  intros Huniq Hpk Hname Hrole.
  destruct (assign_role_run a E w pk u) as (w' & ? & ? & ? & ? & _); [done..|].
  by exists w'.
Qed.

(** X7.  [assign_role] for a username that does not exist raises the
    user error with Django's message, logs [User <name> does not exist] at
    level ERROR, and changes nothing else. *)
Theorem assign_role_missing_user_changes_nothing a E w :
  rows_named (args.username a) (auth_user w) = [] →
  assign_role a E w
  = (Raise (CalamariUserError "User matching query does not exist."),
     set_log_tmp (log_tmp w ++
       [(ERROR, "User " ++ args.username a ++ " does not exist")]) w).
Proof.
  intros Hrows. unfold assign_role, try_except. rewrite bind_run.
  by rewrite user_get_missing.
Qed.

(** ** add_user *)

Lemma create_user_run a E w :
  args.username a ≠ EmptyString →
  rows_named (args.username a) (auth_user w) = [] →
  create_user (args.username a) (args.email a) (args.password a) E w
  = (Ok tt, set_auth_user
              (<[fresh (dom (auth_user w)) := new_account E a]> (auth_user w))
              (set_trace (trace w ++ [EvCreateUser (args.username a) false]) w)).
Proof.
  intros Hname Hrows. unfold create_user, _create_user.
  cbv [mbind M_bind emit modify get ask].
  rewrite decide_False by done. wsimpl. by rewrite Hrows.
Qed.

(** X8.  With the role [read/write] in place, [add_user] for a free,
    non-empty username returns normally and inserts one row under a fresh
    key: under the given username, with the given password, active,
    neither staff nor superuser, and with the role [read/write] alone,
    whatever role name the arguments carried; the other accounts and the
    roles are as before. *)
Theorem add_user_creates_read_write_account a E w :
  unique_usernames (auth_user w) →
  args.username a ≠ EmptyString →
  rows_named (args.username a) (auth_user w) = [] →
  "read/write" ∈ auth_group w →
  let k := fresh (dom (auth_user w)) in
  ∃ w' u, add_user a E w = (Ok tt, w') ∧
    auth_user w !! k = None ∧
    auth_user w' = <[k := u]> (auth_user w) ∧
    username u = args.username a ∧
    password u = make_credential (args.password a) ∧
    is_active u = true ∧ is_staff u = false ∧ is_superuser u = false ∧
    auth_user_groups w' = <[k := {["read/write"]}]> (auth_user_groups w) ∧
    auth_group w' = auth_group w.
Proof.
  intros Huniq Hname Hrows Hgroup k.
  unfold add_user, try_except. rewrite bind_run, create_user_run by done.
  fold k.
  match goal with |- context [assign_role ?a' E ?w1] =>
    destruct (assign_role_run a' E w1 k (new_account E a))
      as (w' & -> & Hu & Hg & Hgr & _)
  end.
  - wsimpl. by apply unique_insert_fresh.
  - wsimpl. by rewrite lookup_insert_eq.
  - done.
  - right. done.
  - exists w', (new_account E a). split; [done|].
    split; [apply not_elem_of_dom, is_fresh|].
    revert Hu Hg Hgr. wsimpl. intros Hu Hg Hgr.
    split; [by rewrite Hu, insert_insert_eq|]. by repeat split.
Qed.

(** X9.  [add_user] is not atomic.  When the role [read/write] does not
    exist (the roles are created by [initialize]), [add_user] raises the
    user error of the missing role, but the account has been created and
    stays, without any role; running the same [add_user] again fails with
    a user error, whose message is the database's for the username that is
    taken. *)
Theorem add_user_missing_role_keeps_account a E w :
  unique_usernames (auth_user w) →
  args.username a ≠ EmptyString →
  rows_named (args.username a) (auth_user w) = [] →
  "read/write" ∉ auth_group w →
  let k := fresh (dom (auth_user w)) in
  ∃ w' u, add_user a E w
        = (Raise (CalamariUserError "Group matching query does not exist."), w') ∧
    auth_user w' = <[k := u]> (auth_user w) ∧
    username u = args.username a ∧
    groups_of k w' = ∅ ∧
    ∃ msg w'', add_user a E w' = (Raise (CalamariUserError msg), w'').
Proof.
  intros Huniq Hname Hrows Hgroup k.
  unfold add_user at 1, try_except. rewrite bind_run, create_user_run by done.
  fold k.
  match goal with |- context [assign_role ?a' E ?w1] =>
    destruct (assign_role_unknown_role a' E w1 k (new_account E a))
      as (w' & -> & Hg & Hu)
  end.
  - wsimpl. by apply unique_insert_fresh.
  - wsimpl. by rewrite lookup_insert_eq.
  - done.
  - done.
  - done.
  - exists w', (new_account E a). split; [done|]. revert Hu. wsimpl. intros Hu.
    split; [done|]. split; [done|]. split; [done|].
    exists (integrity_message E (args.username a)).
    apply add_user_duplicate; [done|]. rewrite Hu.
    intros Hnil. rewrite rows_named_nil in Hnil.
    by apply (Hnil k (new_account E a)); [apply lookup_insert_eq|].
Qed.

(** ** enable_user, disable_user *)

Lemma change_user_active_status_run name active E w pk u :
  unique_usernames (auth_user w) → auth_user w !! pk = Some u →
  username u = name →
  change_user_active_status name active E w
  = (Ok tt, set_auth_user (<[pk := with_active active u]> (auth_user w))
              (set_trace (trace w ++ [EvSaveUser pk]) w)).
Proof.
  intros Huniq Hpk Hname. unfold change_user_active_status, try_except.
  rewrite bind_run, <- Hname, (user_get_found E w pk u) by done.
  cbn beta iota. by erewrite (user_save_same_name pk u).
Qed.

(** X10.  For an existing user [change_user_active_status] returns
    normally and sets [is_active] to the given value; every other field of
    the row, the other accounts, memberships, roles and the log are as
    before. *)
Theorem change_user_active_status_sets_flag name active E w pk u :
  unique_usernames (auth_user w) → auth_user w !! pk = Some u →
  username u = name →
  ∃ w', change_user_active_status name active E w = (Ok tt, w') ∧
    auth_user w' = <[pk := with_active active u]> (auth_user w) ∧
    auth_user_groups w' = auth_user_groups w ∧
    auth_group w' = auth_group w ∧ log_tmp w' = log_tmp w.
Proof.
  intros Huniq Hpk Hname.
  rewrite (change_user_active_status_run name active E w pk u) by done.
  by eexists.
Qed.

(** X11.  [disable_user] followed by [enable_user] on an active user:
    both return normally, the user is inactive in between, and at the end
    the accounts, roles and memberships are exactly as at the start. *)
Theorem disable_then_enable_restores a E w pk u :
  unique_usernames (auth_user w) → auth_user w !! pk = Some u →
  username u = args.username a → is_active u = true →
  ∃ w1 w2, disable_user a E w = (Ok tt, w1) ∧
    is_active <$> auth_user w1 !! pk = Some false ∧
    enable_user a E w1 = (Ok tt, w2) ∧ same_accounts w w2.
Proof.
  intros Huniq Hpk Hname Hact. unfold disable_user, enable_user.
  rewrite (change_user_active_status_run _ false E w pk u) by done.
  eexists _, _. split; [reflexivity|]. wsimpl.
  split; [by rewrite lookup_insert_eq|].
  erewrite (change_user_active_status_run _ true E _ pk (with_active false u)).
  - split; [reflexivity|]. unfold same_accounts. wsimpl.
    split; [|done]. rewrite insert_insert_eq. apply insert_id.
    rewrite Hpk. f_equal. destruct u. simpl in Hact. by subst.
  - wsimpl. by eapply unique_update.
  - wsimpl. by rewrite lookup_insert_eq.
  - done.
Qed.

(** X12.  [change_user_active_status] never raises the user error of its
    [except IntegrityError] handler and never logs: it saves the row it has
    just looked up under an unchanged username, which cannot collide with
    another row.  (A missing user leaves through [DoesNotExist].) *)
Theorem change_user_active_status_never_user_error name active E w :
  let r := change_user_active_status name active E w in
  (∀ msg, r.1 ≠ Raise (CalamariUserError msg)) ∧ log_tmp r.2 = log_tmp w.
Proof.
  unfold change_user_active_status, try_except. rewrite bind_run.
  unfold user_get. cbv [mbind M_bind get mret M_ret raise].
  destruct (rows_named name (auth_user w)) as [|[pk u] [|kv l]] eqn:Hrows;
    cbn beta iota; [done| |done].
  assert (username u = name) as Hname.
  { assert ((pk, u) ∈ rows_named name (auth_user w)) as [_ ?]%rows_named_elem
      by (rewrite Hrows; left). done. }
  rewrite user_save_run; [done|].
  cbn [username]. rewrite Hname, Hrows. by repeat constructor.
Qed.

(** ** create_admin_users *)

(** X13.  When the three administrator options are given and an account
    with that username exists already, [create_admin_users] does nothing at
    all: the account keeps its password, email and flags, and nothing is
    logged. *)
Theorem create_admin_users_keeps_existing_account a E w :
  truthy (args.admin_username a) = true →
  truthy (args.admin_password a) = true →
  truthy (args.admin_email a) = true →
  rows_named (default EmptyString (args.admin_username a)) (auth_user w) ≠ [] →
  create_admin_users a E w = (Ok tt, w).
Proof.
  intros Hu Hp He Hrows. unfold create_admin_users.
  rewrite Hu, Hp, He. cbn [andb].
  cbv [mbind M_bind user_exists get mret M_ret].
  by rewrite bool_decide_eq_true_2.
Qed.

(** X14.  An administrator option given as the empty string counts as
    not given: [create_admin_users] returns normally, creates no account
    and performs no action on the user table. *)
Theorem create_admin_users_empty_value_creates_nothing a E w :
  args.admin_username a = Some EmptyString ∨
  args.admin_password a = Some EmptyString ∨
  args.admin_email a = Some EmptyString →
  let r := create_admin_users a E w in
  r.1 = Ok tt ∧ same_accounts w r.2 ∧ trace r.2 = trace w.
Proof.
  intros Hempty. unfold create_admin_users.
  assert (truthy (args.admin_username a) && truthy (args.admin_password a)
          && truthy (args.admin_email a) = false) as ->.
  { destruct Hempty as [-> | [-> | ->]]; cbn [truthy];
      rewrite ?andb_false_r; done. }
  cbv [mbind M_bind superusers get mret M_ret].
  by destruct (bool_decide _).
Qed.

(** ** change_password *)

(** X15.  [change_password] with a non-empty password for an existing
    user returns normally and replaces the password of that user; every
    other field of the row, the other accounts, memberships, roles and the
    log are as before. *)
Theorem change_password_sets_credential a E w pk u :
  unique_usernames (auth_user w) → auth_user w !! pk = Some u →
  username u = args.username a → truthy (args.password a) = true →
  ∃ w', change_password a E w = (Ok tt, w') ∧
    auth_user w'
    = <[pk := with_password (make_credential (args.password a)) u]> (auth_user w) ∧
    auth_user_groups w' = auth_user_groups w ∧
    auth_group w' = auth_group w ∧ log_tmp w' = log_tmp w.
Proof.
  intros Huniq Hpk Hname Hpw. unfold change_password, try_except.
  rewrite Hpw, bind_run, <- Hname, (user_get_found E w pk u) by done.
  cbn beta iota. erewrite (user_save_same_name pk u) by done.
  by eexists.
Qed.

(** X16.  [change_password] with a password for a username that does
    not exist is no failure for [main]: the process ends with status 0,
    the only effect is the log line [User '<name>' does not exist.], and no
    crash report is written. *)
Theorem change_password_missing_user_is_silent a E w :
  args.func a = cmd_change_password → privileged a E →
  truthy (args.password a) = true →
  rows_named (args.username a) (auth_user w) = [] →
  main a E w
  = (0, set_log_tmp (log_tmp w ++
          [(ERROR, "User '" ++ args.username a ++ "' does not exist.")]) w).
Proof.
  intros Hf Hp Hpw Hrows. unfold main.
  rewrite main_body_privileged, Hf by done. cbn [call].
  unfold change_password, try_except.
  by rewrite Hpw, bind_run, user_get_missing.
Qed.

(** ** rename_user *)

(** X17.  When the new username is free and the old one exists,
    [rename_user] returns normally and changes the username of that row
    alone: key, email, password, flags, memberships, roles and the other
    accounts are as before, usernames are still unique, the old name
    resolves to no account and the new name to this one. *)
Theorem rename_user_renames a E w pk u :
  unique_usernames (auth_user w) → auth_user w !! pk = Some u →
  username u = args.username a →
  rows_named (args.new_username a) (auth_user w) = [] →
  ∃ w', rename_user a E w = (Ok tt, w') ∧
    auth_user w' = <[pk := with_username (args.new_username a) u]> (auth_user w) ∧
    auth_user_groups w' = auth_user_groups w ∧
    auth_group w' = auth_group w ∧ log_tmp w' = log_tmp w ∧
    unique_usernames (auth_user w') ∧
    rows_named (args.username a) (auth_user w') = [] ∧
    rows_named (args.new_username a) (auth_user w')
    = [(pk, with_username (args.new_username a) u)].
Proof.
  intros Huniq Hpk Hname Hnew.
  assert (args.new_username a ≠ args.username a) as Hne.
  { intros Heq. rewrite rows_named_nil in Hnew.
    apply (Hnew pk u Hpk). congruence. }
  unfold rename_user, try_except.
  rewrite bind_run, (user_get_missing _ E w Hnew). cbn beta iota.
  rewrite bind_run, <- Hname, (user_get_found E w pk u) by done.
  cbn beta iota. rewrite user_save_run by (cbn [username]; by rewrite Hnew).
  eexists. split; [reflexivity|]. wsimpl.
  assert (unique_usernames
            (<[pk := with_username (args.new_username a) u]> (auth_user w)))
    as Huniq'.
  { apply unique_insert_fresh; [done|]. by cbn [username with_username]. }
  do 4 (split; [done|]). split; [done|]. split.
  - apply rows_named_nil. intros k v Hk Hv.
    destruct (decide (k = pk)) as [->|Hk'].
    + rewrite lookup_insert_eq in Hk. simplify_eq. cbn in Hv. congruence.
    + rewrite lookup_insert_ne in Hk by done.
      assert (k = pk) by (apply (Huniq k pk v u); congruence). done.
  - apply (rows_named_unique _ pk (with_username (args.new_username a) u));
      [done|]. by rewrite lookup_insert_eq.
Qed.

(** ** The usernames stay unique *)

#[global] Instance keeps_unique_preorder : PreOrder keeps_unique.
Proof.
  split; [intros w Hu; exact Hu|].
  intros w1 w2 w3 H12 H23 Hu. by apply H23, H12.
Qed.

#[global] Instance same_roles_preorder : PreOrder same_roles.
Proof.
  split; [done|]. intros w1 w2 w3 H12 H23. unfold same_roles in *. congruence.
Qed.

Ltac leaf_unique := by (unfold keeps_unique; wsimpl; intros ?).

Lemma user_save_unique pk u E w : pres keeps_unique (user_save pk u) E w.
Proof.
  intros r w'. unfold user_save. cbv [mbind M_bind emit modify get raise ask].
  wsimpl. destruct (decide _) as [Hall|_]; intros ?; simplify_eq.
  - intros Hu. wsimpl. by apply unique_insert_same.
  - by intros Hu.
Qed.

Lemma create_user_unique name mail pw staff super E w :
  pres keeps_unique (_create_user name mail pw staff super) E w.
Proof.
  intros r w'. unfold _create_user. cbv [mbind M_bind emit modify get raise ask].
  destruct (decide _); [intros ?; simplify_eq; by intros Hu|]. wsimpl.
  destruct (rows_named name (auth_user w)) eqn:Hrows; intros ?; simplify_eq.
  - intros Hu. wsimpl. by apply unique_insert_fresh.
  - by intros Hu.
Qed.

Lemma call_keeps_unique a E w : pres keeps_unique (call (args.func a) a) E w.
Proof.
  pose proof user_save_unique. pose proof create_user_unique.
  destruct (args.func a); cbn [call].
  - intros r w' Hrun Hu.
    assert (w' = (initialize a E w).2) as -> by (by rewrite Hrun).
    revert Hu. apply (blocks_pres keeps_unique); intros w0.
    + intros r1 w1 Hrun1.
      destruct (init_secret_run E w0) as (w1' & Hrun' & _ & (Hacc & _) & _).
      rewrite Hrun' in Hrun1. simplify_eq. unfold keeps_unique. by rewrite Hacc.
    + unfold init_schema. pres_go leaf_unique.
    + unfold init_mid, init_syncdb, init_admin, init_static, init_ownership.
      pres_go leaf_unique.
    + unfold init_tls. pres_go leaf_unique.
    + unfold init_restart. pres_go leaf_unique.
  - pres_go leaf_unique.
  - pres_go leaf_unique.
  - pres_go leaf_unique.
  - pres_go leaf_unique.
  - pres_go leaf_unique.
  - pres_go leaf_unique.
  - pres_go leaf_unique.
Qed.

(** X18.  Whatever the command, its arguments and the outcome, [main]
    keeps the usernames unique. *)
Theorem main_keeps_usernames_unique a E w :
  unique_usernames (auth_user w) →
  unique_usernames (auth_user (main a E w).2).
Proof.
  intros Hu. unfold main.
  assert (pres keeps_unique (main_body a) E w) as Hbody.
  { pose proof call_keeps_unique. unfold main_body. pres_go leaf_unique. }
  destruct (main_body a E w) as [[[]|e] w1] eqn:Hrun;
    pose proof (Hbody _ _ Hrun Hu) as Hu1; [done|].
  destruct (is_Exception e); [|done].
  destruct (_ && _); [done|].
  destruct (main_report_run e E w1) as (w2 & -> & _ & _ & (Hacc & _) & _).
  cbn [snd]. by rewrite Hacc.
Qed.

(** ** What the account commands never touch *)

Lemma account_commands_db a E w :
  args.func a ∈ account_commands → pres same_db (call (args.func a) a) E w.
Proof.
  unfold account_commands. rewrite !elem_of_cons, elem_of_nil.
  intros [->|[->|[->|[->|[->|[]]]]]]; cbn [call]; pres_go leaf_db.
Qed.

Ltac leaf_roles := by (unfold same_roles; wsimpl).

Lemma account_commands_roles a E w :
  args.func a ∈ account_commands → pres same_roles (call (args.func a) a) E w.
Proof.
  unfold account_commands. rewrite !elem_of_cons, elem_of_nil.
  intros [->|[->|[->|[->|[->|[]]]]]]; cbn [call]; pres_go leaf_roles.
Qed.

Lemma account_commands_events a E w :
  args.func a ∈ account_commands →
  pres (trace_ext is_account_event) (call (args.func a) a) E w.
Proof.
  unfold account_commands. rewrite !elem_of_cons, elem_of_nil.
  intros [->|[->|[->|[->|[->|[]]]]]]; cbn [call]; pres_go leaf_trace.
Qed.

Lemma account_commands_files a E w :
  args.func a ∈ account_commands → pres same_files (call (args.func a) a) E w.
Proof.
  unfold account_commands. rewrite !elem_of_cons, elem_of_nil.
  intros [->|[->|[->|[->|[->|[]]]]]]; cbn [call]; pres_go leaf_files.
Qed.

Lemma main_report_trace e E w :
  trace (main_report e E w).2 = (trace w ++ [EvWrite (debug_filename E)])%list.
Proof.
  unfold main_report. cbv [mbind M_bind ask get write_file emit modify].
  rewrite !log_error_run. by wsimpl.
Qed.

(** X19.  The commands [add_user], [assign_role], [disable_user],
    [enable_user] and [rename_user], run through [main], act on Django's
    user table and its join table only.  Whatever the outcome, Cthulhu's
    database and the set of roles are as before; its temporary log aside,
    the one file the tool can write is the crash report of [main], every
    other path is as before; no owner or mode is changed, no process and
    no library command is run.  When the command returns normally no file
    is written at all. *)
Theorem account_commands_leave_host_alone a E w :
  args.func a ∈ account_commands →
  let w' := (main a E w).2 in
  same_db w w' ∧ auth_group w' = auth_group w ∧
  (∀ q, q ≠ debug_filename E → files w' !! q = files w !! q) ∧
  Forall (fun ev => is_account_event ev ∨ ev = EvWrite (debug_filename E))
         (new_events w w') ∧
  ((main_body a E w).1 = Ok tt →
   files w' = files w ∧ Forall is_account_event (new_events w w')).
Proof.
  intros Hf w'.
  assert (pres same_db (main_body a) E w) as B1.
  { pose proof (fun w => account_commands_db a E w Hf).
    unfold main_body. pres_go leaf_db. }
  assert (pres same_roles (main_body a) E w) as B2.
  { pose proof (fun w => account_commands_roles a E w Hf).
    unfold main_body. pres_go leaf_roles. }
  assert (pres same_files (main_body a) E w) as B3.
  { pose proof (fun w => account_commands_files a E w Hf).
    unfold main_body. pres_go leaf_files. }
  assert (pres (trace_ext is_account_event) (main_body a) E w) as B4.
  { pose proof (fun w => account_commands_events a E w Hf).
    unfold main_body. pres_go leaf_trace. }
  subst w'. unfold main.
  destruct (main_body a E w) as [r w1] eqn:Hrun.
  pose proof (B1 _ _ Hrun) as Hdb. pose proof (B2 _ _ Hrun) as Hroles.
  pose proof (B3 _ _ Hrun) as Hfiles.
  destruct (B4 _ _ Hrun) as (t & Ht & Hall).
  assert (same_db w w1 ∧ auth_group w1 = auth_group w ∧
          (∀ q, q ≠ debug_filename E → files w1 !! q = files w !! q) ∧
          Forall (fun ev => is_account_event ev ∨ ev = EvWrite (debug_filename E))
                 (new_events w w1) ∧
          (r = Ok tt →
           files w1 = files w ∧ Forall is_account_event (new_events w w1)))
    as Hsame.
  { rewrite (new_events_app w w1 t) by done.
    split; [done|]. split; [done|].
    split; [intros q _; by rewrite Hfiles|].
    split; [|by intros _].
    eapply Forall_impl; [exact Hall|]. intros ev Hev. by left. }
  destruct r as [[]|e]; [exact Hsame|].
  destruct (is_Exception e); [|exact Hsame].
  destruct (_ && _); [exact Hsame|].
  destruct (main_report_run e E w1) as (w2 & Hrep & _ & Hframe & Hacc & Hdb2).
  pose proof (main_report_trace e E w1) as Htrace.
  rewrite Hrep in Htrace |- *. cbn [fst snd] in Htrace |- *.
  destruct Hacc as (Hau & Hag & Haug).
  split; [by etrans|].
  split; [unfold same_roles in Hroles; congruence|].
  split; [intros q Hq; rewrite Hframe by done; by rewrite Hfiles|].
  split; [|done].
  rewrite (new_events_app w w2 (t ++ [EvWrite (debug_filename E)]))
    by (by rewrite Htrace, Ht, app_assoc).
  apply Forall_app. split.
  - eapply Forall_impl; [exact Hall|]. intros ev Hev. by left.
  - apply Forall_singleton. by right.
Qed.

(** ** main *)

(** X20.  Without [--devmode] and with an effective uid other than 0,
    [main] runs no command at all: it logs [Need root privileges to run],
    changes nothing else, writes no report, and the process ends with
    status 0. *)
Theorem main_unprivileged_runs_nothing a E w :
  args.devmode a = false → euid E ≠ 0 →
  main a E w
  = (0, set_log_tmp (log_tmp w ++ [(ERROR, "Need root privileges to run")]) w).
Proof.
  intros Hd He. unfold main, main_body. cbv [mbind M_bind ask].
  by rewrite Hd, bool_decide_eq_false_2.
Qed.


(** ** quiet *)

(** X22.  A Django management command run under [quiet]: whatever it
    prints is dropped when it succeeds; when it fails, the error is raised
    again (for a [CommandError] of the command that is the [SystemExit]
    with code 1 with which Django answers it) and the log gains two ERROR
    records, what the command printed on stdout and then on stderr (output
    captured before is not included).  Either way the buffers are empty
    afterwards. *)
Theorem quiet_logs_output_only_on_failure args E w :
  let r := quiet (execute_from_command_line args) E w in
  r.1 = match ext_error E (OpManage args) with
        | Some e => Raise (if is_CommandError e then SystemExit 1 else e)
        | None => Ok tt
        end ∧
  log_tmp r.2 = (log_tmp w ++ output_records E args)%list ∧
  captured r.2 = (EmptyString, EmptyString) ∧
  trace r.2 = (trace w ++ [EvExt (OpManage args)])%list.
Proof.
  unfold quiet, execute_from_command_line, ext_call, try_except, output_records.
  cbv [mbind M_bind ask get modify emit mret M_ret raise]. wsimpl.
  destruct (ext_error E (OpManage args)) as [e|]; [|by rewrite app_nil_r].
  destruct (is_CommandError e); rewrite !log_error_run; wsimpl;
    by rewrite <- app_assoc.
Qed.

(** ** clear *)

Lemma clear_run a E w r w' :
  args.yes_i_am_sure a = true →
  clear a E w = (r, w') →
  files w' = files w ∧ same_accounts w w' ∧
  (r = Ok tt →
   db_tables w' = db_tables w ∖ (model_tables E ∪ {[ALEMBIC_TABLE]})) ∧
  (ext_error E OpDropAll = None → ext_error E OpReflect = None →
   ext_error E (OpDropTable ALEMBIC_TABLE) = None → r = Ok tt).
Proof.
  intros Hyes. unfold clear, metadata_drop_all, metadata_reflect, table_drop,
    ext_call.
  rewrite Hyes. cbn [negb].
  cbv [mbind M_bind ask get modify emit mret M_ret raise].
  rewrite !log_info_run. wsimpl.
  destruct (ext_error E OpDropAll); [intros ?; by simplify_eq|].
  wsimpl. destruct (ext_error E OpReflect); [intros ?; by simplify_eq|].
  wsimpl. destruct (decide _) as [Hin|Hout].
  - destruct (ext_error E (OpDropTable ALEMBIC_TABLE)); wsimpl;
      rewrite ?log_info_run; intros ?; simplify_eq; [done|]. wsimpl.
    split; [done|]. split; [done|]. split; [intros _|done].
    apply set_eq. intros x.
    rewrite !elem_of_difference, elem_of_union, elem_of_singleton. tauto.
  - rewrite ?log_info_run. intros ?; simplify_eq. wsimpl.
    split; [done|]. split; [done|]. split; [intros _|done].
    apply set_eq. intros x.
    rewrite !elem_of_difference, elem_of_union, elem_of_singleton.
    rewrite elem_of_union, elem_of_difference in Hout.
    split; [|tauto]. intros [Hx Hm]. split; [done|].
    intros [?| ->]; [done|]. destruct Hout.
    destruct (decide (ALEMBIC_TABLE ∈ model_tables E)); tauto.
Qed.

(** X23.  With the database calls succeeding, [clear] returns normally.
    Without [--yes-i-am-sure] it only logs its warning: no table is dropped
    and no library is called.  With it, it removes from Cthulhu's database
    exactly the tables of the declared models and the version marker of
    alembic, and other tables stay.  Django's accounts are untouched either
    way. *)
Theorem clear_drops_only_when_confirmed a E w :
  ext_error E OpDropAll = None → ext_error E OpReflect = None →
  ext_error E (OpDropTable ALEMBIC_TABLE) = None →
  ∃ w', clear a E w = (Ok tt, w') ∧
    db_tables w' = (if args.yes_i_am_sure a
                    then db_tables w ∖ (model_tables E ∪ {[ALEMBIC_TABLE]})
                    else db_tables w) ∧
    (args.yes_i_am_sure a = false →
     w' = set_log_tmp (log_tmp w ++ [(WARNING, clear_warning)]) w) ∧
    same_accounts w w'.
Proof.
  intros H1 H2 H3. destruct (args.yes_i_am_sure a) eqn:Hyes.
  - destruct (clear a E w) as [r w'] eqn:Hrun.
    destruct (clear_run a E w r w' Hyes Hrun) as (Hf & Hacc & Hdb & Hok).
    exists w'. rewrite (Hok H1 H2 H3) in *.
    split; [done|]. split; [by apply Hdb|]. by split.
  - unfold clear. rewrite Hyes. cbn [negb]. eexists.
    split; [reflexivity|]. by wsimpl.
Qed.

(** X24.  After a successful [clear], [initialize] finds no version
    marker and takes the path of a blank database: it creates the schema
    and stamps it, and never upgrades. *)
Theorem clear_then_initialize_recreates a a' E E' w w' :
  args.yes_i_am_sure a = true →
  clear a E w = (Ok tt, w') →
  ALEMBIC_TABLE ∉ model_tables E' →
  ext_error E' OpReflect = None →
  filter is_reconcile (new_events w' (initialize a' E' w').2) = create_events E'.
Proof.
  intros Hyes Hrun Hmodel Hreflect.
  destruct (clear_run a E w _ w' Hyes Hrun) as (_ & _ & Hdb & _).
  rewrite initialize_reconcile_trace by done.
  unfold reconcile_events, create_events. rewrite Hreflect.
  rewrite decide_False; [done|]. rewrite Hdb by done.
  rewrite elem_of_difference, elem_of_union, elem_of_singleton. tauto.
Qed.

(** ** initialize, run again *)

Lemma init_schema_marker E w w1 :
  ALEMBIC_TABLE ∉ model_tables E →
  init_schema E w = (Ok tt, w1) →
  ALEMBIC_TABLE ∈ db_tables w1 ∧ db_revision w1 = Some "head".
Proof.
  intros Hmodel. unfold init_schema, metadata_reflect, command_upgrade,
    metadata_create_all, command_stamp, ext_call.
  cbv [mbind M_bind ask emit modify get mret M_ret raise].
  destruct (ext_error E OpReflect); [done|]. wsimpl.
  destruct (decide _) as [[?|Hin]%elem_of_union|Hout]; [done| |].
  - rewrite log_info_run. wsimpl.
    destruct (ext_error E (OpUpgrade "head")); intros ?; simplify_eq. by wsimpl.
  - rewrite log_info_run. wsimpl.
    destruct (ext_error E OpCreateAll); [done|]. wsimpl.
    destruct (ext_error E (OpStamp "head")); intros ?; simplify_eq. wsimpl.
    split; [|done]. apply elem_of_union. right. by apply elem_of_singleton.
Qed.

Lemma init_rest_db a E w : pres same_db (init_rest a) E w.
Proof. unfold init_rest. pres_go leaf_db. Qed.

(** X25.  [initialize] can be run again: after a successful run the
    database carries the version marker at revision [head], so a later run
    upgrades and never creates the schema anew. *)
Theorem initialize_rerun_upgrades a a' E E' w w' :
  ALEMBIC_TABLE ∉ model_tables E →
  initialize a E w = (Ok tt, w') →
  ALEMBIC_TABLE ∉ model_tables E' →
  ext_error E' OpReflect = None →
  db_revision w' = Some "head" ∧
  filter is_reconcile (new_events w' (initialize a' E' w').2)
  = [EvExt (OpUpgrade "head")].
Proof.
  intros Hmodel Hrun Hmodel' Hreflect.
  assert (ALEMBIC_TABLE ∈ db_tables w' ∧ db_revision w' = Some "head")
    as [Hin Hrev].
  { rewrite initialize_blocks in Hrun.
    apply bind_ok in Hrun as ([] & w1 & _ & Hrun).
    apply bind_ok in Hrun as ([] & w2 & H2 & H3).
    destruct (init_schema_marker E w1 w2 Hmodel H2) as [Hin Hrev].
    destruct (init_rest_db a E w2 _ _ H3) as [-> ->]. done. }
  split; [done|].
  rewrite initialize_reconcile_trace by done.
  unfold reconcile_events. rewrite Hreflect. by rewrite decide_True.
Qed.

(** ** initialize and the accounts *)

#[global] Instance accounts_grow_preorder : PreOrder accounts_grow.
Proof.
  split; [done|].
  intros w1 w2 w3 (U12 & G12 & M12) (U23 & G23 & M23). unfold accounts_grow.
  split; [by etrans|]. split; [by etrans|]. congruence.
Qed.

Ltac leaf_grow :=
  unfold accounts_grow; wsimpl;
  first [ done
        | split; [done|]; split; [|done]; apply union_subseteq_l ].

Lemma create_user_grows name mail pw staff super E w :
  pres accounts_grow (_create_user name mail pw staff super) E w.
Proof.
  intros r w'. unfold _create_user. cbv [mbind M_bind emit modify get raise ask].
  destruct (decide _); [intros ?; by simplify_eq|]. wsimpl.
  destruct (rows_named name (auth_user w)) eqn:Hrows; intros ?; simplify_eq;
    [|done].
  unfold accounts_grow. wsimpl. split; [|done].
  apply insert_subseteq, not_elem_of_dom, is_fresh.
Qed.

(** X26.  Whatever its outcome, [initialize] removes and changes no
    account, no role and no membership: it can only add the two default
    roles and the administrator account. *)
Theorem initialize_only_adds_accounts a E w :
  let w' := (initialize a E w).2 in
  auth_user w ⊆ auth_user w' ∧ auth_group w ⊆ auth_group w' ∧
  auth_user_groups w' = auth_user_groups w.
Proof.
  change (accounts_grow w (initialize a E w).2).
  pose proof create_user_grows.
  apply (blocks_pres accounts_grow); intros w0.
  - intros r1 w1 Hrun1.
    destruct (init_secret_run E w0) as (w1' & Hrun' & _ & (Hu & Hg & Hm) & _).
    rewrite Hrun' in Hrun1. simplify_eq. unfold accounts_grow.
    by rewrite Hu, Hg, Hm.
  - unfold init_schema. pres_go leaf_grow.
  - unfold init_mid, init_syncdb, init_admin, init_static, init_ownership.
    pres_go leaf_grow.
  - unfold init_tls. pres_go leaf_grow.
  - unfold init_restart. pres_go leaf_grow.
Qed.

(** ** initialize: a certificate that cannot be generated *)

Lemma same_data_creates_nothing w w' : same_data w w' → creates_nothing w w'.
Proof.
  intros H p Hp. specialize (H p). rewrite Hp in H.
  by destruct (files w' !! p).
Qed.

Lemma init_pre_absent a E w r w1 p :
  secret_key_path (cfg E) ≠ p →
  init_pre a E w = (r, w1) → files w !! p = None → files w1 !! p = None.
Proof.
  intros Hne Hrun Hp.
  assert (pres (fun w w' => files w !! p = None → files w' !! p = None)
               (init_pre a) E w) as Hpres; [|by eapply Hpres].
  assert (PreOrder (fun w w' : world =>
            files w !! p = None → files w' !! p = None)) as Hpo.
  { split; [by intros ?|]. intros w1' w2' w3' H12 H23 H. by apply H23, H12. }
  unfold init_pre.
  apply pres_bind; [done| |intros _ ? _].
  { intros r1 w1' Hrun1 Hnone.
    destruct (init_secret_run E w) as (w1'' & Hrun' & _ & _ & Hex & Habs).
    rewrite Hrun' in Hrun1. simplify_eq.
    destruct (files w !! secret_key_path (cfg E)) eqn:Hs.
    - destruct Hex as [-> _]; done.
    - destruct Habs as (s & -> & _); [done|]. by rewrite lookup_insert_ne. }
  apply pres_bind; [done| |intros _ ? _].
  - eapply pres_weaken, init_schema_data.
    intros w' H. by apply same_data_creates_nothing.
  - eapply pres_weaken, init_mid_data.
    intros w' H. by apply same_data_creates_nothing.
Qed.

Lemma init_pre_not_restart a E w :
  pres (trace_ext (not_step Restart)) (init_pre a) E w.
Proof.
  unfold init_pre.
  apply pres_bind; [tc_solve| |intros _ ? _].
  - intros r w1 [Ht|[_ Ht]]%init_secret_trace.
    + exists []. by rewrite app_nil_r.
    + eexists [_]. split; [done|]. by repeat constructor.
  - unfold init_schema, init_mid, not_step. pres_go leaf_trace.
Qed.

Lemma init_tls_failure E w rc out err :
  let k := ssl_key (cfg E) in
  let c := ssl_cert (cfg E) in
  files w !! k = None →
  popen E (openssl_req k c) = Some (rc, out, err) → rc ≠ 0 →
  ∃ w1, init_tls E w
        = (Raise (RuntimeError
             ("openssl for Generating self-signed SSL certificate... failed with rc="
              ++ pretty rc)), w1) ∧
    files w1 = (if leaves_key E (openssl_req k c)
                then <[k := File (pem "PRIVATE KEY") 384 (euid E) (egid E)]>
                       (files w)
                else files w) ∧
    trace w1 = (trace w ++ [EvRunCmd (openssl_req k c)])%list.
Proof.
  intros k c Hk Hpopen Hrc. unfold init_tls, run_cmd.
  cbv [mbind M_bind ask path_exists get mret M_ret emit modify raise].
  fold k c. rewrite bool_decide_eq_false_2 by (rewrite Hk; by intros [??]).
  cbn [negb]. wsimpl. rewrite Hpopen.
  rewrite log_info_run, !log_debug_run. wsimpl.
  unfold process_effect. rewrite openssl_outputs_req.
  rewrite (decide_False (P := rc = 0)) by done.
  rewrite decide_True by done. eexists. split; [reflexivity|]. by wsimpl.
Qed.

Lemma initialize_key_present a E w :
  is_Some (files w !! ssl_key (cfg E)) →
  Forall (not_step Credentials) (new_events w (initialize a E w).2).
Proof.
  intros Hk. set (k := ssl_key (cfg E)) in *.
  destruct (init_pre a E w) as [r3 w3] eqn:Hpre.
  destruct (init_pre_steps a E w _ _ Hpre) as (t3 & Ht3 & Hall3).
  pose proof (init_pre_keeps [k] a E w _ _ Hpre) as Hkeep3.
  rewrite initialize_three, bind_run, Hpre. destruct r3 as [[]|e].
  - rewrite bind_run, init_tls_present.
    2:{ apply (fmap_is_Some file_data). rewrite Hkeep3; [|..|left].
        - by apply fmap_is_Some.
        - by intros q ->%list_elem_of_singleton. }
    destruct (init_restart E w3) as [r5 w5] eqn:Hrestart.
    destruct (init_restart_not_credentials E w3 _ _ Hrestart)
      as (t5 & Ht5 & Hall5). cbn [snd].
    rewrite (new_events_app w w5 (t3 ++ t5)).
    + by apply Forall_app.
    + by rewrite Ht5, Ht3, app_assoc.
  - cbn [snd]. by rewrite (new_events_app w w3 t3).
Qed.

(** X27.  When the key file is missing and [openssl] returns a non-zero
    code, [initialize] fails, never changes the mode of the certificate and
    never reaches the restart of the services (no [systemctl] command is
    run).  The key file is there afterwards exactly when the generator was
    reached and had written the key before it failed; in that case a
    later run of [initialize] on what this run left finds the key and
    skips the credential step, whatever its arguments: the tool does not
    generate the certificate any more. *)
Theorem initialize_certificate_failure_stops a E w rc out err :
  let k := ssl_key (cfg E) in
  let c := ssl_cert (cfg E) in
  let r := initialize a E w in
  files w !! k = None →
  secret_key_path (cfg E) ≠ k →
  popen E (openssl_req k c) = Some (rc, out, err) → rc ≠ 0 →
  (∃ e, r.1 = Raise e) ∧
  Forall (not_step Restart) (new_events w r.2) ∧
  (∀ p m, EvChmod p m ∉ new_events w r.2) ∧
  (is_Some (files r.2 !! k) ↔
     EvRunCmd (openssl_req k c) ∈ new_events w r.2 ∧
     leaves_key E (openssl_req k c) = true) ∧
  (is_Some (files r.2 !! k) →
     ∀ a', Forall (not_step Credentials)
             (new_events r.2 (initialize a' E r.2).2)).
Proof.
  intros k c r Hk Hne Hpopen Hrc.
  split; [|split; [|split; [|split]]];
    [..|intros Hkey a'; by apply initialize_key_present].
  all: unfold r.
  all: assert (∀ t p m, Forall (not_step Credentials) t → EvChmod p m ∉ t)
         as Hnot
         by (intros t p m Ht Hin; rewrite Forall_forall in Ht;
             by destruct (Ht _ Hin)).
  all: assert (∀ t, Forall (not_step Credentials) t →
                 EvRunCmd (openssl_req k c) ∉ t) as Hnorun
         by (intros t Ht Hin; rewrite Forall_forall in Ht;
             by destruct (Ht _ Hin)).
  all: destruct (init_pre a E w) as [r3 w3] eqn:Hpre.
  all: destruct (init_pre_steps a E w _ _ Hpre) as (t3 & Ht3 & Hc3).
  all: destruct (init_pre_not_restart a E w _ _ Hpre) as (t3' & Ht3' & Hr3).
  all: assert (t3' = t3) as ->
         by (rewrite Ht3 in Ht3'; by apply app_inv_head in Ht3').
  all: pose proof (init_pre_absent a E w _ _ k Hne Hpre Hk) as Hk3.
  all: rewrite initialize_three, bind_run, Hpre; destruct r3 as [[]|e].
  all: try (destruct (init_tls_failure E w3 rc out err Hk3 Hpopen Hrc)
              as (w4 & Hrun & Hf & Ht4);
            rewrite bind_run, Hrun; cbn [fst snd];
            rewrite ?(new_events_app w w4 (t3 ++ [EvRunCmd (openssl_req k c)]))
              by (by rewrite Ht4, Ht3, <- app_assoc)).
  all: cbn [fst snd]; rewrite ?(new_events_app w w3 t3) by done.
  - by eexists.
  - by eexists.
  - apply Forall_app. split; [done|]. by repeat constructor.
  - done.
  - intros p m [Hin|Hin]%elem_of_app; [by eapply Hnot|].
    by apply list_elem_of_singleton in Hin.
  - intros p m Hin. by eapply Hnot.
  - rewrite Hf. fold k c. destruct (leaves_key E (openssl_req k c)).
    + rewrite lookup_insert_eq. split; [intros _|by eexists].
      split; [|done]. apply elem_of_app. right. left.
    + rewrite Hk3. split; [by intros [??]|by intros [_ ?]].
  - rewrite Hk3. split; [by intros [??]|]. intros [Hin _].
    by eapply Hnorun in Hin.
Qed.

(** ** initialize: the owner of the log file *)

#[global] Instance keeps_owner_preorder : PreOrder keeps_owner.
Proof.
  split.
  - intros w p f Hp. by exists f.
  - intros w1 w2 w3 H12 H23 p f Hp.
    destruct (H12 p f Hp) as (f2 & Hp2 & Hu2 & Hg2).
    destruct (H23 p f2 Hp2) as (f3 & Hp3 & Hu3 & Hg3).
    exists f3. split; [done|]. split; congruence.
Qed.

Lemma keeps_owner_same w w' : files w' = files w → keeps_owner w w'.
Proof. intros Hf p f Hp. exists f. by rewrite Hf. Qed.

Lemma init_tls_keeps_owner E w : pres keeps_owner init_tls E w.
Proof.
  intros r w1 Hrun.
  destruct (files w !! ssl_key (cfg E)) as [fk|] eqn:Hk.
  { rewrite init_tls_present in Hrun by by eexists. by simplify_eq. }
  revert Hrun. unfold init_tls, run_cmd, chmod.
  cbv [mbind M_bind ask path_exists get mret M_ret emit modify raise].
  set (k := ssl_key (cfg E)) in *. set (c := ssl_cert (cfg E)).
  rewrite bool_decide_eq_false_2 by (rewrite Hk; by intros [??]).
  cbn [negb]. wsimpl.
  destruct (popen E (openssl_req k c)) as [[[rc out] err]|];
    [|intros ?; simplify_eq; by apply keeps_owner_same].
  rewrite log_info_run, !log_debug_run. wsimpl.
  unfold process_effect. rewrite openssl_outputs_req.
  destruct (decide (rc = 0)) as [->|Hrc].
  - rewrite decide_False by (by intros []). wsimpl.
    assert (∀ p f, files w !! p = Some f →
              ∃ f', store E c (pem "CERTIFICATE")
                      (<[k := File (pem "PRIVATE KEY") 384 (euid E) (egid E)]>
                         (files w)) !! p = Some f'
                    ∧ uid f' = uid f ∧ gid f' = gid f) as Hstore.
    { intros p f Hp. assert (p ≠ k) as Hpk by congruence. unfold store.
      destruct (decide (p = c)) as [->|Hpc].
      - rewrite lookup_insert_ne, Hp by done.
        rewrite lookup_insert_eq. by eexists.
      - destruct (<[k:=_]> (files w) !! c);
          rewrite !lookup_insert_ne by done; by exists f. }
    destruct (store E c _ _ !! c) as [fc|] eqn:Hc;
      intros ?; simplify_eq; unfold keeps_owner; wsimpl; [|exact Hstore].
    intros p f Hp. destruct (Hstore p f Hp) as (f' & Hp' & Hu & Hg).
    destruct (decide (p = c)) as [->|Hpc].
    + rewrite lookup_insert_eq. eexists. split; [done|].
      rewrite Hc in Hp'. by simplify_eq.
    + rewrite lookup_insert_ne by done. by exists f'.
  - rewrite decide_True by done.
    destruct (leaves_key E (openssl_req k c)); intros ?; simplify_eq;
      [|by apply keeps_owner_same].
    intros p f Hp. exists f. wsimpl.
    rewrite lookup_insert_ne by congruence. done.
Qed.

Ltac leaf_owner := by apply keeps_owner_same.

Lemma init_restart_keeps_owner E w : pres keeps_owner init_restart E w.
Proof. unfold init_restart. pres_go leaf_owner. Qed.

Lemma init_ownership_run E w w1 :
  init_ownership E w = (Ok tt, w1) →
  ∃ f ids, passwd E !! web_username (cfg E) = Some ids ∧
    files w1 !! log_path (cfg E) = Some f ∧ uid f = ids.1 ∧ gid f = ids.2.
Proof.
  unfold init_ownership, getpwnam, chown.
  cbv [mbind M_bind ask get modify emit mret M_ret raise]. wsimpl.
  destruct (passwd E !! _) as [ids|]; [|done].
  destruct (files w !! _) as [f|]; [|done].
  intros ?; simplify_eq. wsimpl. eexists _, ids.
  split; [done|]. by rewrite lookup_insert_eq.
Qed.

(** X28.  After a successful [initialize] the log file of the web
    interface exists and belongs to the user and group of the configured
    web-server account; the certificate step that follows the [chown] does
    not undo it. *)
Theorem initialize_hands_log_to_web_user a E w w' :
  initialize a E w = (Ok tt, w') →
  ∃ f ids, passwd E !! web_username (cfg E) = Some ids ∧
    files w' !! log_path (cfg E) = Some f ∧ uid f = ids.1 ∧ gid f = ids.2.
Proof.
  rewrite initialize_blocks. unfold init_rest.
  intros ([] & w1 & _ & H)%bind_ok. apply bind_ok in H as ([] & w2 & _ & H).
  apply bind_ok in H as ([] & w3 & _ & H).
  apply bind_ok in H as ([] & w4 & _ & H).
  apply bind_ok in H as ([] & w5 & _ & H).
  apply bind_ok in H as ([] & w6 & _ & H).
  apply bind_ok in H as ([] & w7 & H7 & H).
  apply bind_ok in H as ([] & w8 & H8 & H9).
  destruct (init_ownership_run E w6 w7 H7) as (f & ids & Hids & Hf & Hu & Hg).
  destruct (init_tls_keeps_owner E w7 _ _ H8 _ _ Hf) as (f8 & Hf8 & Hu8 & Hg8).
  destruct (init_restart_keeps_owner E w8 _ _ H9 _ _ Hf8)
    as (f9 & Hf9 & Hu9 & Hg9).
  exists f9, ids. split; [done|]. split; [done|]. split; congruence.
Qed.

(** ** Worked instances of the further properties *)

(** A host where every command succeeds: all seven commands run. *)
Lemma setup_supervisor_all_succeed_witness :
  Forall (succeeds rhel_host) (legacy_commands ++ target_commands) ∧
  (setup_supervisor rhel_host fresh_install).1 = Ok tt ∧
  new_events fresh_install (setup_supervisor rhel_host fresh_install).2
  = map EvRunCmd (legacy_commands ++ target_commands).
Proof.
  assert (Forall (succeeds rhel_host) (legacy_commands ++ target_commands)) as H.
  { repeat constructor; by exists EmptyString, EmptyString. }
  split; [exact H|].
  exact (setup_supervisor_all_succeed rhel_host fresh_install H).
Defined.

(** The host without [supervisord]: a legacy command fails, the three
    target commands succeed, and so does [setup_supervisor]. *)
Lemma setup_supervisor_ok_iff_target_commands_witness :
  Forall (starts ubuntu_host) (legacy_commands ++ target_commands) ∧
  ¬ succeeds ubuntu_host ["systemctl"; "stop"; "supervisord"] ∧
  (setup_supervisor ubuntu_host fresh_install).1 = Ok tt.
Proof.
  assert (Forall (starts ubuntu_host) (legacy_commands ++ target_commands)) as H.
  { repeat constructor; by eexists. }
  split; [exact H|]. split.
  - intros (out & err & Hp). vm_compute in Hp. discriminate.
  - apply (setup_supervisor_ok_iff_target_commands ubuntu_host fresh_install H).
    repeat constructor; by exists EmptyString, EmptyString.
Defined.

(** A host without [systemctl]: the [OSError] comes through. *)
Lemma setup_supervisor_without_systemctl_witness :
  popen bare_host ["systemctl"; "stop"; "supervisord"] = None ∧
  (setup_supervisor bare_host fresh_install).1
  = Raise (OSError "[Errno 2] No such file or directory").
Proof.
  split; [reflexivity|].
  by rewrite (setup_supervisor_without_systemctl bare_host fresh_install eq_refl).
Defined.

(** [assign_role bob --role read/write]: bob had [readonly]. *)
Lemma assign_role_sets_exactly_the_role_witness :
  unique_usernames (auth_user installed) ∧
  auth_user installed !! 1%nat = Some bob ∧
  groups_of 1 installed = {["readonly"]} ∧
  ∃ w', assign_role (with_role "bob" "read/write") rhel_host installed
        = (Ok tt, w') ∧
    auth_user w' = <[1%nat := with_role_flag "read/write" bob]> (auth_user installed) ∧
    auth_user_groups w'
    = <[1%nat := role_groups "read/write"]> (auth_user_groups installed) ∧
    auth_group w' = auth_group installed.
Proof.
  assert (unique_usernames (auth_user installed)) as Hu
    by apply unique_usernames_singleton.
  assert (auth_user installed !! 1%nat = Some bob) as Hb
    by (vm_compute; reflexivity).
  split; [exact Hu|]. split; [exact Hb|]. split; [vm_compute; reflexivity|].
  apply (assign_role_sets_exactly_the_role (with_role "bob" "read/write")
           rhel_host installed 1%nat bob Hu Hb eq_refl).
  right. apply (bool_decide_unpack _). vm_compute. exact I.
Defined.

(** [assign_role ghost --role readonly] on the installed host. *)
Lemma assign_role_missing_user_changes_nothing_witness :
  rows_named "ghost" (auth_user installed) = [] ∧
  assign_role (with_role "ghost" "readonly") rhel_host installed
  = (Raise (CalamariUserError "User matching query does not exist."),
     set_log_tmp [(ERROR, "User ghost does not exist")] installed).
Proof.
  assert (rows_named (args.username (with_role "ghost" "readonly"))
            (auth_user installed) = []) as Hn by (vm_compute; reflexivity).
  split; [exact Hn|].
  exact (assign_role_missing_user_changes_nothing (with_role "ghost" "readonly")
           rhel_host installed Hn).
Defined.

(** [add_user alice] on the installed host. *)
Lemma add_user_creates_read_write_account_witness :
  unique_usernames (auth_user installed) ∧
  rows_named "alice" (auth_user installed) = [] ∧
  "read/write" ∈ auth_group installed ∧
  ∃ w', add_user (new_user "alice" "alice@example.com" "s3cret") rhel_host
          installed = (Ok tt, w') ∧
    groups_of (fresh (dom (auth_user installed))) w' = {["read/write"]}.
Proof.
  assert (unique_usernames (auth_user installed)) as Hu
    by apply unique_usernames_singleton.
  assert (rows_named (args.username (new_user "alice" "alice@example.com" "s3cret"))
            (auth_user installed) = []) as Hn by (vm_compute; reflexivity).
  assert ("read/write" ∈ auth_group installed) as Hg.
  { apply (bool_decide_unpack _). vm_compute. exact I. }
  split; [exact Hu|]. split; [exact Hn|]. split; [exact Hg|].
  destruct (add_user_creates_read_write_account
              (new_user "alice" "alice@example.com" "s3cret") rhel_host installed
              Hu ltac:(discriminate) Hn Hg)
    as (w' & u & Hrun & _ & _ & _ & _ & _ & _ & _ & Hgr & _).
  exists w'. split; [exact Hrun|].
  unfold groups_of. rewrite Hgr, lookup_insert_eq. reflexivity.
Defined.

(** [add_user alice] before [initialize] created the roles: the user
    error, and alice is there. *)
Lemma add_user_missing_role_keeps_account_witness :
  unique_usernames (auth_user fresh_install) ∧
  rows_named "alice" (auth_user fresh_install) = [] ∧
  ("read/write" ∉ auth_group fresh_install) ∧
  ∃ w', add_user (new_user "alice" "alice@example.com" "s3cret") rhel_host
          fresh_install
        = (Raise (CalamariUserError "Group matching query does not exist."), w') ∧
    rows_named "alice" (auth_user w') ≠ [].
Proof.
  assert (unique_usernames (auth_user fresh_install)) as Hu.
  { intros k1 k2 u1 u2 H1. vm_compute in H1. discriminate. }
  assert (rows_named (args.username (new_user "alice" "alice@example.com" "s3cret"))
            (auth_user fresh_install) = []) as Hn by (vm_compute; reflexivity).
  assert ("read/write" ∉ auth_group fresh_install) as Hg.
  { intros Hin. vm_compute in Hin. discriminate. }
  split; [exact Hu|]. split; [exact Hn|]. split; [exact Hg|].
  destruct (add_user_missing_role_keeps_account
              (new_user "alice" "alice@example.com" "s3cret") rhel_host
              fresh_install Hu ltac:(discriminate) Hn Hg)
    as (w' & u & Hrun & Hrow & Hname & _).
  exists w'. split; [exact Hrun|]. rewrite Hrow.
  intros Hnil. rewrite rows_named_nil in Hnil.
  apply (Hnil _ u (lookup_insert_eq _ _ _)). exact Hname.
Defined.

(** [disable_user bob]. *)
Lemma change_user_active_status_sets_flag_witness :
  unique_usernames (auth_user installed) ∧
  auth_user installed !! 1%nat = Some bob ∧
  ∃ w', change_user_active_status "bob" false rhel_host installed = (Ok tt, w') ∧
    auth_user w' = <[1%nat := with_active false bob]> (auth_user installed).
Proof.
  assert (unique_usernames (auth_user installed)) as Hu
    by apply unique_usernames_singleton.
  assert (auth_user installed !! 1%nat = Some bob) as Hb
    by (vm_compute; reflexivity).
  split; [exact Hu|]. split; [exact Hb|].
  destruct (change_user_active_status_sets_flag "bob" false rhel_host installed
              1%nat bob Hu Hb eq_refl) as (w' & Hrun & Hrow & _).
  exists w'. split; [exact Hrun|exact Hrow].
Defined.

(** [disable_user bob], then [enable_user bob]. *)
Lemma disable_then_enable_restores_witness :
  unique_usernames (auth_user installed) ∧
  auth_user installed !! 1%nat = Some bob ∧ is_active bob = true ∧
  ∃ w1 w2, disable_user (for_user cmd_disable_user "bob") rhel_host installed
           = (Ok tt, w1) ∧
    enable_user (for_user cmd_disable_user "bob") rhel_host w1 = (Ok tt, w2) ∧
    same_accounts installed w2.
Proof.
  assert (unique_usernames (auth_user installed)) as Hu
    by apply unique_usernames_singleton.
  assert (auth_user installed !! 1%nat = Some bob) as Hb
    by (vm_compute; reflexivity).
  split; [exact Hu|]. split; [exact Hb|]. split; [reflexivity|].
  destruct (disable_then_enable_restores (for_user cmd_disable_user "bob")
              rhel_host installed 1%nat bob Hu Hb eq_refl eq_refl)
    as (w1 & w2 & H1 & _ & H2 & Hacc).
  exists w1, w2. split; [exact H1|]. split; [exact H2|exact Hacc].
Defined.

(** [initialize --admin-username bob ...]: bob exists and is left alone. *)
Lemma create_admin_users_keeps_existing_account_witness :
  rows_named "bob" (auth_user installed) ≠ [] ∧
  create_admin_users (admin_options "bob" "other" "bob@example.org") rhel_host
    installed = (Ok tt, installed).
Proof.
  assert (rows_named
            (default EmptyString
               (args.admin_username (admin_options "bob" "other" "bob@example.org")))
            (auth_user installed) ≠ []) as Hrows.
  { vm_compute. discriminate. }
  split; [exact Hrows|].
  exact (create_admin_users_keeps_existing_account
           (admin_options "bob" "other" "bob@example.org") rhel_host installed
           eq_refl eq_refl eq_refl Hrows).
Defined.

(** [initialize --admin-username admin --admin-password '' ...]. *)
Lemma create_admin_users_empty_value_creates_nothing_witness :
  args.admin_password (admin_options "admin" "" "admin@example.com")
  = Some EmptyString ∧
  (create_admin_users (admin_options "admin" "" "admin@example.com") rhel_host
     fresh_install).1 = Ok tt ∧
  same_accounts fresh_install
    (create_admin_users (admin_options "admin" "" "admin@example.com") rhel_host
       fresh_install).2.
Proof.
  split; [reflexivity|].
  destruct (create_admin_users_empty_value_creates_nothing
              (admin_options "admin" "" "admin@example.com") rhel_host
              fresh_install (or_intror (or_introl eq_refl))) as (Hok & Hacc & _).
  split; [exact Hok|exact Hacc].
Defined.

(** [initialize] twice on a fresh installation: the second run upgrades. *)
Lemma initialize_rerun_upgrades_witness :
  (ALEMBIC_TABLE ∉ model_tables rhel_host) ∧
  (ALEMBIC_TABLE ∉ db_tables fresh_install) ∧
  filter is_reconcile
    (new_events (initialize (no_args cmd_initialize) rhel_host fresh_install).2
       (initialize (no_args cmd_initialize) rhel_host
          (initialize (no_args cmd_initialize) rhel_host fresh_install).2).2)
  = [EvExt (OpUpgrade "head")].
Proof.
  assert (ALEMBIC_TABLE ∉ model_tables rhel_host) as Hmodel.
  { intros Hin. vm_compute in Hin. discriminate. }
  split; [exact Hmodel|]. split.
  { intros Hin. vm_compute in Hin. discriminate. }
  assert (initialize (no_args cmd_initialize) rhel_host fresh_install
          = (Ok tt, (initialize (no_args cmd_initialize) rhel_host
                       fresh_install).2)) as Hrun.
  { vm_compute. reflexivity. }
  destruct (initialize_rerun_upgrades (no_args cmd_initialize)
              (no_args cmd_initialize) rhel_host rhel_host fresh_install _
              Hmodel Hrun Hmodel eq_refl) as [_ Ht].
  exact Ht.
Defined.

(** [clear --yes-i-am-sure] empties the installed database; plain [clear]
    leaves it alone. *)
Lemma clear_drops_only_when_confirmed_witness :
  db_tables installed = {["cthulhu_server"; ALEMBIC_TABLE]} ∧
  (∃ w', clear confirmed_clear rhel_host installed = (Ok tt, w') ∧
     db_tables w' = ∅ ∧ same_accounts installed w') ∧
  (∃ w', clear (no_args cmd_clear) rhel_host installed = (Ok tt, w') ∧
     db_tables w' = db_tables installed ∧
     log_tmp w' = [(WARNING, clear_warning)]).
Proof.
  split; [reflexivity|]. split.
  - destruct (clear_drops_only_when_confirmed confirmed_clear rhel_host installed
                eq_refl eq_refl eq_refl) as (w' & Hrun & Hdb & _ & Hacc).
    exists w'. split; [exact Hrun|]. split; [|exact Hacc].
    rewrite Hdb. vm_compute. reflexivity.
  - destruct (clear_drops_only_when_confirmed (no_args cmd_clear) rhel_host
                installed eq_refl eq_refl eq_refl) as (w' & Hrun & Hdb & Hw & _).
    exists w'. split; [exact Hrun|]. split; [exact Hdb|].
    rewrite (Hw eq_refl). reflexivity.
Defined.

(** [clear --yes-i-am-sure], then [initialize]: the schema is created and
    stamped. *)
Lemma clear_then_initialize_recreates_witness :
  args.yes_i_am_sure confirmed_clear = true ∧
  ALEMBIC_TABLE ∈ db_tables installed ∧
  filter is_reconcile
    (new_events (clear confirmed_clear rhel_host installed).2
       (initialize (no_args cmd_initialize) rhel_host
          (clear confirmed_clear rhel_host installed).2).2)
  = [EvExt OpCreateAll; EvExt (OpStamp "head")].
Proof.
  split; [reflexivity|]. split.
  { apply (bool_decide_unpack _). vm_compute. exact I. }
  assert (clear confirmed_clear rhel_host installed
          = (Ok tt, (clear confirmed_clear rhel_host installed).2)) as Hrun.
  { vm_compute. reflexivity. }
  assert (ALEMBIC_TABLE ∉ model_tables rhel_host) as Hmodel.
  { intros Hin. vm_compute in Hin. discriminate. }
  exact (clear_then_initialize_recreates confirmed_clear (no_args cmd_initialize)
           rhel_host rhel_host installed _ eq_refl Hrun Hmodel eq_refl).
Defined.

(** [change_password bob --password n3w]. *)
Lemma change_password_sets_credential_witness :
  unique_usernames (auth_user installed) ∧
  auth_user installed !! 1%nat = Some bob ∧
  ∃ w', change_password (password_for "bob" "n3w") rhel_host installed
        = (Ok tt, w') ∧
    auth_user w' = <[1%nat := with_password (Hashed "n3w") bob]> (auth_user installed).
Proof.
  assert (unique_usernames (auth_user installed)) as Hu
    by apply unique_usernames_singleton.
  assert (auth_user installed !! 1%nat = Some bob) as Hb
    by (vm_compute; reflexivity).
  split; [exact Hu|]. split; [exact Hb|].
  destruct (change_password_sets_credential (password_for "bob" "n3w") rhel_host
              installed 1%nat bob Hu Hb eq_refl eq_refl) as (w' & Hrun & Hrow & _).
  exists w'. split; [exact Hrun|exact Hrow].
Defined.

(** [change_password ghost --password n3w]: status 0, one log line. *)
Lemma change_password_missing_user_is_silent_witness :
  privileged (password_for "ghost" "n3w") rhel_host ∧
  rows_named "ghost" (auth_user installed) = [] ∧
  main (password_for "ghost" "n3w") rhel_host installed
  = (0, set_log_tmp [(ERROR, "User 'ghost' does not exist.")] installed).
Proof.
  assert (privileged (password_for "ghost" "n3w") rhel_host) as Hp
    by (right; reflexivity).
  assert (rows_named (args.username (password_for "ghost" "n3w"))
            (auth_user installed) = []) as Hn by (vm_compute; reflexivity).
  split; [exact Hp|]. split; [exact Hn|].
  exact (change_password_missing_user_is_silent (password_for "ghost" "n3w")
           rhel_host installed eq_refl Hp eq_refl Hn).
Defined.

(** [rename_user bob robert]. *)
Lemma rename_user_renames_witness :
  unique_usernames (auth_user installed) ∧
  auth_user installed !! 1%nat = Some bob ∧
  rows_named "robert" (auth_user installed) = [] ∧
  ∃ w', rename_user (renaming "bob" "robert") rhel_host installed = (Ok tt, w') ∧
    rows_named "bob" (auth_user w') = [] ∧
    rows_named "robert" (auth_user w') = [(1%nat, with_username "robert" bob)] ∧
    auth_user_groups w' = auth_user_groups installed.
Proof.
  assert (unique_usernames (auth_user installed)) as Hu
    by apply unique_usernames_singleton.
  assert (auth_user installed !! 1%nat = Some bob) as Hb
    by (vm_compute; reflexivity).
  assert (rows_named (args.new_username (renaming "bob" "robert"))
            (auth_user installed) = []) as Hn by (vm_compute; reflexivity).
  split; [exact Hu|]. split; [exact Hb|]. split; [exact Hn|].
  destruct (rename_user_renames (renaming "bob" "robert") rhel_host installed
              1%nat bob Hu Hb eq_refl Hn)
    as (w' & Hrun & _ & Hg & _ & _ & _ & Hold & Hnew).
  exists w'. split; [exact Hrun|]. split; [exact Hold|]. split; [exact Hnew|exact Hg].
Defined.

(** [add_user alice] through [main]. *)
Lemma main_keeps_usernames_unique_witness :
  unique_usernames (auth_user installed) ∧
  unique_usernames
    (auth_user (main (new_user "alice" "alice@example.com" "s3cret") rhel_host
                  installed).2).
Proof.
  assert (unique_usernames (auth_user installed)) as Hu
    by apply unique_usernames_singleton.
  split; [exact Hu|].
  exact (main_keeps_usernames_unique (new_user "alice" "alice@example.com" "s3cret")
           rhel_host installed Hu).
Defined.

(** [enable_user ghost] through [main]: the crash report is the one thing
    written. *)
Lemma account_commands_leave_host_alone_witness :
  args.func (for_user cmd_enable_user "ghost") ∈ account_commands ∧
  same_db installed
    (main (for_user cmd_enable_user "ghost") rhel_host installed).2 ∧
  files (main (for_user cmd_enable_user "ghost") rhel_host installed).2
    !! "/etc/calamari/secret.key"
  = files installed !! "/etc/calamari/secret.key" ∧
  Forall (fun ev => is_account_event ev ∨ ev = EvWrite (debug_filename rhel_host))
    (new_events installed
       (main (for_user cmd_enable_user "ghost") rhel_host installed).2).
Proof.
  assert (args.func (for_user cmd_enable_user "ghost") ∈ account_commands)
    as Hf.
  { apply list_elem_of_In. vm_compute. auto 10. }
  split; [exact Hf|].
  destruct (account_commands_leave_host_alone (for_user cmd_enable_user "ghost")
              rhel_host installed Hf) as (Hdb & _ & Hframe & Hev & _).
  split; [exact Hdb|]. split; [|exact Hev].
  apply Hframe. discriminate.
Defined.

(** An ordinary user runs [clear --yes-i-am-sure]: nothing is cleared. *)
Lemma main_unprivileged_runs_nothing_witness :
  euid user_host ≠ 0 ∧
  main confirmed_clear user_host installed
  = (0, set_log_tmp [(ERROR, "Need root privileges to run")] installed).
Proof.
  assert (euid user_host ≠ 0) as He by discriminate.
  split; [exact He|].
  exact (main_unprivileged_runs_nothing confirmed_clear user_host installed
           eq_refl He).
Defined.

(** A fresh installation on a host where [openssl] fails after it wrote
    the key: the run fails, the key is there, and the next run generates
    nothing. *)
Lemma initialize_certificate_failure_stops_witness :
  let w' := (initialize (no_args cmd_initialize) half_openssl_host
               fresh_install).2 in
  files fresh_install !! ssl_key (cfg half_openssl_host) = None ∧
  (∃ e, (initialize (no_args cmd_initialize) half_openssl_host fresh_install).1
        = Raise e) ∧
  is_Some (files w' !! ssl_key (cfg half_openssl_host)) ∧
  Forall (not_step Credentials)
    (new_events w' (initialize (no_args cmd_initialize) half_openssl_host w').2).
Proof.
  intros w'.
  assert (files fresh_install !! ssl_key (cfg half_openssl_host) = None) as Hk
    by (vm_compute; reflexivity).
  split; [exact Hk|].
  destruct (initialize_certificate_failure_stops (no_args cmd_initialize)
              half_openssl_host fresh_install 1 EmptyString
              "unable to write 'random state'" Hk ltac:(discriminate) eq_refl
              ltac:(discriminate)) as (Hr & _ & _ & Hiff & Hlater).
  assert (is_Some (files w' !! ssl_key (cfg half_openssl_host))) as Hkey.
  { apply Hiff. split; [|reflexivity].
    apply list_elem_of_In. vm_compute. auto 20. }
  split; [exact Hr|]. split; [exact Hkey|].
  exact (Hlater Hkey (no_args cmd_initialize)).
Defined.

(** A fresh installation: the log file, owned by root, ends up owned by
    apache (uid and gid 48). *)
Lemma initialize_hands_log_to_web_user_witness :
  uid log_file = 0 ∧
  ∃ f, files (initialize (no_args cmd_initialize) rhel_host fresh_install).2
         !! log_path (cfg rhel_host) = Some f ∧ uid f = 48 ∧ gid f = 48.
Proof.
  split; [reflexivity|].
  assert (initialize (no_args cmd_initialize) rhel_host fresh_install
          = (Ok tt, (initialize (no_args cmd_initialize) rhel_host
                       fresh_install).2)) as Hrun.
  { vm_compute. reflexivity. }
  destruct (initialize_hands_log_to_web_user _ _ _ _ Hrun)
    as (f & ids & Hids & Hf & Hu & Hg).
  assert (ids = (48, 48)) as ->.
  { vm_compute in Hids. congruence. }
  exists f. split; [exact Hf|]. split; [exact Hu|exact Hg].
Defined.
